(** * The authenticated API client of the task manager

    A shallow embedding of the two client modules of the repository,
    [frontend/src/lib/djangoApi.ts] (functions [request],
    [refreshAccessToken], [normalizeUser], [normalizeTask], [djangoApi.auth])
    and [do-smart-ai/src/lib/database.ts] (functions [apiRequest],
    [refreshAccessToken], [normalizeUser], [normalizeTask], [authApi],
    [aiApi.askAssistant]), together with the session store
    [frontend/src/lib/authStore.ts] they share.  The other calls of the two
    modules ([tasks], [ai], [tasksApi], [profileApi], [settingsApi],
    [register], [logout], [buildQueryString], [normalizeHistoryItem]) and
    their callers [frontend/src/lib/database.ts] and
    [do-smart-ai/src/lib/historyApi.ts] follow them.

    Values that TypeScript leaves unchecked at run time ([any], [unknown],
    casts of parsed JSON) are modelled by the type [JsVal] of JavaScript
    values.  Effects (the storage slot, the listeners of the store, the
    network) are threaded through a state and exception monad over a
    [World]. *)

From Stdlib Require Import ZArith String Ascii List Bool Lia DecimalString SpecFloat.
From stdpp Require Import base option list strings gmap.

Local Open Scope string_scope.
Local Open Scope Z_scope.

(** ** JavaScript values *)

Module Js.

(** Numbers are the integers the wire carries (identifiers, counts, status
    codes); strings are sequences of bytes. Objects keep their properties
    in insertion order. *)
#[warnings="-register-all"] Inductive JsVal : Type :=
| VUndefined
| VNull
| VBool (b : bool)
| VNum (n : Z)
| VStr (s : string)
| VArr (items : list JsVal)
| VObj (fields : list (string * JsVal)).

(** [o.k] on the property list of an object: [undefined] when absent. *)
Fixpoint get_prop (fields : list (string * JsVal)) (k : string) : JsVal :=
  match fields with
  | [] => VUndefined
  | (k', v) :: rest => if String.eqb k' k then v else get_prop rest k
  end.

(** [o[k] = v]: an existing property keeps its position. *)
Fixpoint set_prop (fields : list (string * JsVal)) (k : string) (v : JsVal)
  : list (string * JsVal) :=
  match fields with
  | [] => [(k, v)]
  | (k', v') :: rest =>
      if String.eqb k' k then (k', v) :: rest else (k', v') :: set_prop rest k v
  end.

(** [v.k] for a value that is known not to be [null] or [undefined];
    on the values of this model only objects have own properties. *)
Definition prop (v : JsVal) (k : string) : JsVal :=
  match v with
  | VObj fields => get_prop fields k
  | _ => VUndefined
  end.

(** ToBoolean. *)
Definition truthy (v : JsVal) : bool :=
  match v with
  | VUndefined | VNull => false
  | VBool b => b
  | VNum n => negb (n =? 0)%Z
  | VStr s => negb (String.eqb s "")
  | VArr _ | VObj _ => true
  end.

Definition is_nullish (v : JsVal) : bool :=
  match v with
  | VUndefined | VNull => true
  | _ => false
  end.

(** [a ?? b] *)
Definition coalesce (a b : JsVal) : JsVal := if is_nullish a then b else a.

Notation "a ?? b" := (coalesce a b) (at level 45, right associativity).

(** [typeof v === "string"] *)
Definition is_string (v : JsVal) : bool :=
  match v with
  | VStr _ => true
  | _ => false
  end.

(** [typeof v === "object"] (which holds of [null], too) *)
Definition typeof_object (v : JsVal) : bool :=
  match v with
  | VNull | VArr _ | VObj _ => true
  | _ => false
  end.

Definition Z_to_string (n : Z) : string := NilZero.string_of_int (Z.to_int n).

Definition nat_to_string (n : nat) : string := Z_to_string (Z.of_nat n).

Fixpoint join (sep : string) (parts : list string) : string :=
  match parts with
  | [] => ""
  | [p] => p
  | p :: rest => p +:+ sep +:+ join sep rest
  end.

(** [String(v)]. An array prints its elements separated by commas, with
    [null] and [undefined] elements printed as nothing. *)
Fixpoint to_String (v : JsVal) : string :=
  match v with
  | VUndefined => "undefined"
  | VNull => "null"
  | VBool true => "true"
  | VBool false => "false"
  | VNum n => Z_to_string n
  | VStr s => s
  | VArr items =>
      join "," (List.map (fun x => if is_nullish x then "" else to_String x) items)
  | VObj _ => "[object Object]"
  end.

(** [hay.includes(needle)] *)
Fixpoint includes (needle hay : string) : bool :=
  String.prefix needle hay ||
  match hay with
  | EmptyString => false
  | String _ rest => includes needle rest
  end.

(** [s.startsWith(p)] *)
Definition startsWith (p s : string) : bool := String.prefix p s.

Definition lower_ascii (c : ascii) : ascii :=
  let n := nat_of_ascii c in
  if (65 <=? n)%nat && (n <=? 90)%nat then ascii_of_nat (n + 32) else c.

(** [s.toLowerCase()] on the letters of ASCII; other bytes are kept. *)
Fixpoint toLowerCase (s : string) : string :=
  match s with
  | EmptyString => EmptyString
  | String c rest => String (lower_ascii c) (toLowerCase rest)
  end.

End Js.

(** ** JSON text

    [JSON.stringify] and [JSON.parse] of the platform, on the values of
    [Js.JsVal]. The store persists its state through them. *)

Module Json.
Import Js.

Local Open Scope char_scope.

Definition dquote : ascii := "034".
Definition backslash : ascii := "092".

Definition hex_digit (n : nat) : ascii :=
  if (n <? 10)%nat then ascii_of_nat (48 + n) else ascii_of_nat (87 + n).

(** QuoteJSONString, one character at a time. *)
Definition quote_char (c : ascii) : string :=
  let n := nat_of_ascii c in
  if Ascii.eqb c dquote then String backslash (String dquote EmptyString)
  else if Ascii.eqb c backslash then String backslash (String backslash EmptyString)
  else if (n =? 8)%nat then String backslash (String "b" EmptyString)
  else if (n =? 9)%nat then String backslash (String "t" EmptyString)
  else if (n =? 10)%nat then String backslash (String "n" EmptyString)
  else if (n =? 12)%nat then String backslash (String "f" EmptyString)
  else if (n =? 13)%nat then String backslash (String "r" EmptyString)
  else if (n <? 32)%nat then
    String backslash (String "u" (String "0" (String "0"
      (String (hex_digit (n / 16)) (String (hex_digit (n mod 16)) EmptyString)))))
  else String c EmptyString.

Fixpoint quote_body (s : string) : string :=
  match s with
  | EmptyString => String dquote EmptyString
  | String c rest => quote_char c +:+ quote_body rest
  end.

Definition quote (s : string) : string := String dquote (quote_body s).

(** SerializeJSONProperty: a property whose value is [undefined] is left
    out of an object and printed as [null] in an array. *)
Fixpoint serialize (v : JsVal) : string :=
  match v with
  | VUndefined | VNull => "null"%string
  | VBool true => "true"%string
  | VBool false => "false"%string
  | VNum n => Z_to_string n
  | VStr s => quote s
  | VArr items => "[" +:+ join "," (List.map serialize items) +:+ "]"
  | VObj fields =>
      "{" +:+
      join ","
        ((fix members (fs : list (string * JsVal)) : list string :=
            match fs with
            | [] => []
            | (k, VUndefined) :: rest => members rest
            | (k, x) :: rest => (quote k +:+ ":" +:+ serialize x) :: members rest
            end) fields)
      +:+ "}"
  end.

(** [JSON.stringify(v)]: [undefined] has no JSON text. *)
Definition JSON_stringify (v : JsVal) : option string :=
  match v with
  | VUndefined => None
  | _ => Some (serialize v)
  end.

Definition is_ws (c : ascii) : bool :=
  let n := nat_of_ascii c in
  (n =? 32)%nat || (n =? 9)%nat || (n =? 10)%nat || (n =? 13)%nat.

Fixpoint skip_ws (s : string) : string :=
  match s with
  | String c rest => if is_ws c then skip_ws rest else s
  | EmptyString => s
  end.

Definition hex_value (c : ascii) : option nat :=
  let n := nat_of_ascii c in
  if (48 <=? n)%nat && (n <=? 57)%nat then Some (n - 48)%nat
  else if (97 <=? n)%nat && (n <=? 102)%nat then Some (n - 87)%nat
  else if (65 <=? n)%nat && (n <=? 70)%nat then Some (n - 55)%nat
  else None.

(** The bytes of the code unit written [\uXXXX] (UTF-8, each code unit on
    its own). *)
Definition encode_unit (u : nat) : string :=
  if (u <? 128)%nat then String (ascii_of_nat u) EmptyString
  else if (u <? 2048)%nat then
    String (ascii_of_nat (192 + u / 64))
      (String (ascii_of_nat (128 + u mod 64)) EmptyString)
  else
    String (ascii_of_nat (224 + u / 4096))
      (String (ascii_of_nat (128 + (u / 64) mod 64))
         (String (ascii_of_nat (128 + u mod 64)) EmptyString)).

Definition simple_escape (e : ascii) : option ascii :=
  if Ascii.eqb e dquote then Some dquote
  else if Ascii.eqb e backslash then Some backslash
  else if Ascii.eqb e "/" then Some "/"
  else if Ascii.eqb e "b" then Some "008"
  else if Ascii.eqb e "t" then Some "009"
  else if Ascii.eqb e "n" then Some "010"
  else if Ascii.eqb e "f" then Some "012"
  else if Ascii.eqb e "r" then Some "013"
  else None.

(** The characters of a string literal after its opening quote, up to and
    including the closing quote; the decoded string and what follows. *)
Fixpoint parse_string_body (s : string) : option (string * string) :=
  match s with
  | EmptyString => None
  | String c rest =>
      if Ascii.eqb c dquote then Some (EmptyString, rest)
      else if Ascii.eqb c backslash then
        match rest with
        | String e rest1 =>
            match simple_escape e with
            | Some d =>
                match parse_string_body rest1 with
                | Some (body, rest2) => Some (String d body, rest2)
                | None => None
                end
            | None =>
                if Ascii.eqb e "u" then
                  match rest1 with
                  | String h1 (String h2 (String h3 (String h4 rest2))) =>
                      match hex_value h1, hex_value h2, hex_value h3, hex_value h4 with
                      | Some a, Some b, Some c', Some d =>
                          match parse_string_body rest2 with
                          | Some (body, rest3) =>
                              Some (encode_unit (((a * 16 + b) * 16 + c') * 16 + d)
                                      +:+ body, rest3)
                          | None => None
                          end
                      | _, _, _, _ => None
                      end
                  | _ => None
                  end
                else None
            end
        | EmptyString => None
        end
      else if (nat_of_ascii c <? 32)%nat then None
      else
        match parse_string_body rest with
        | Some (body, rest1) => Some (String c body, rest1)
        | None => None
        end
  end.

Definition digit_value (c : ascii) : option Z :=
  let n := nat_of_ascii c in
  if (48 <=? n)%nat && (n <=? 57)%nat then Some (Z.of_nat (n - 48)) else None.

Fixpoint take_digits (s : string) : list Z * string :=
  match s with
  | String c rest =>
      match digit_value c with
      | Some d => let '(ds, rest1) := take_digits rest in (d :: ds, rest1)
      | None => ([], s)
      end
  | EmptyString => ([], s)
  end.

Definition digits_value (ds : list Z) : Z :=
  fold_left (fun acc d => 10 * acc + d)%Z ds 0%Z.

(** A number literal. Only integer literals have a value in [JsVal]: a
    fraction or an exponent is refused. *)
Definition parse_number (s : string) : option (Z * string) :=
  let '(negative, s1) :=
    match s with
    | String "-" rest => (true, rest)
    | _ => (false, s)
    end in
  let '(ds, rest) := take_digits s1 in
  let plain :=
    match rest with
    | String c _ => negb (Ascii.eqb c "." || Ascii.eqb c "e" || Ascii.eqb c "E")
    | EmptyString => true
    end in
  match ds with
  | [] => None
  | [d] => if plain then Some (if negative then (- d)%Z else d, rest) else None
  | d :: _ =>
      if plain && negb (d =? 0)%Z
      then Some (if negative then (- digits_value ds)%Z else digits_value ds, rest)
      else None
  end.

Definition strip_prefix (p s : string) : option string :=
  if String.prefix p s
  then Some (String.substring (String.length p) (String.length s - String.length p) s)
  else None.

Fixpoint parse_value (fuel : nat) (s : string) {struct fuel}
  : option (JsVal * string) :=
  match fuel with
  | O => None
  | S n =>
      match skip_ws s with
      | EmptyString => None
      | String c rest =>
          if Ascii.eqb c "{" then
            match skip_ws rest with
            | String "}" rest1 => Some (VObj [], rest1)
            | _ => parse_members n [] rest
            end
          else if Ascii.eqb c "[" then
            match skip_ws rest with
            | String "]" rest1 => Some (VArr [], rest1)
            | _ => parse_elements n [] rest
            end
          else if Ascii.eqb c dquote then
            match parse_string_body rest with
            | Some (str, rest1) => Some (VStr str, rest1)
            | None => None
            end
          else if Ascii.eqb c "t" then
            option_map (fun r => (VBool true, r)) (strip_prefix "true" (String c rest))
          else if Ascii.eqb c "f" then
            option_map (fun r => (VBool false, r)) (strip_prefix "false" (String c rest))
          else if Ascii.eqb c "n" then
            option_map (fun r => (VNull, r)) (strip_prefix "null" (String c rest))
          else
            match parse_number (String c rest) with
            | Some (z, rest1) => Some (VNum z, rest1)
            | None => None
            end
      end
  end
with parse_members (fuel : nat) (acc : list (string * JsVal)) (s : string)
       {struct fuel} : option (JsVal * string) :=
  match fuel with
  | O => None
  | S n =>
      match skip_ws s with
      | String c rest =>
          if Ascii.eqb c dquote then
            match parse_string_body rest with
            | Some (k, rest1) =>
                match skip_ws rest1 with
                | String ":" rest2 =>
                    match parse_value n rest2 with
                    | Some (v, rest3) =>
                        match skip_ws rest3 with
                        | String "," rest4 => parse_members n (set_prop acc k v) rest4
                        | String "}" rest4 => Some (VObj (set_prop acc k v), rest4)
                        | _ => None
                        end
                    | None => None
                    end
                | _ => None
                end
            | None => None
            end
          else None
      | EmptyString => None
      end
  end
with parse_elements (fuel : nat) (acc : list JsVal) (s : string)
       {struct fuel} : option (JsVal * string) :=
  match fuel with
  | O => None
  | S n =>
      match parse_value n s with
      | Some (v, rest1) =>
          match skip_ws rest1 with
          | String "," rest2 => parse_elements n (acc ++ [v]) rest2
          | String "]" rest2 => Some (VArr (acc ++ [v]), rest2)
          | _ => None
          end
      | None => None
      end
  end.

(** [JSON.parse(text)]; [None] stands for the SyntaxError it throws. *)
Definition JSON_parse (text : string) : option JsVal :=
  match parse_value (S (String.length text)) text with
  | Some (v, rest) =>
      match skip_ws rest with
      | EmptyString => Some v
      | _ => None
      end
  | None => None
  end.

End Json.

(** ** Sessions, requests and responses *)

Import Js Json.

(** [AuthTokens] and [StoredAuthState] of [authStore.ts]. Their fields are
    declared [string]; at run time they hold whatever the server sent, so
    they are values. *)
Module AuthTokens.
Record t : Type := mk { access : JsVal; refresh : JsVal }.
End AuthTokens.

Module User.
(** Modelled from the spec: the type [User] of [@/types], which is not among
    the sources; the spec gives it the fields [id], [email] and [name], and
    the clients build it with these. *)
Record t : Type := mk { id : JsVal; email : JsVal; name : JsVal }.
End User.

Module StoredAuthState.
Record t : Type := mk { tokens : AuthTokens.t; user : User.t }.
End StoredAuthState.

Module AuthSession.
(** Modelled from the spec: the type [AuthSession] of [@/types], which is not
    among the sources; the spec's Session, with the fields [accessToken],
    [refreshToken] and [user] that [getSession] fills. *)
Record t : Type := mk { accessToken : JsVal; refreshToken : JsVal; user : User.t }.
End AuthSession.

Module Http.

(** A [Headers] object: header names are matched without regard to case,
    so the map is keyed by the lower-case name. *)
Definition Headers : Type := gmap string string.

Definition has (h : Headers) (name : string) : bool :=
  bool_decide (is_Some (h !! toLowerCase name)).

Definition get (h : Headers) (name : string) : option string :=
  h !! toLowerCase name.

Definition set (h : Headers) (name value : string) : Headers :=
  <[toLowerCase name := value]> h.

Definition append (h : Headers) (name value : string) : Headers :=
  match h !! toLowerCase name with
  | Some old => <[toLowerCase name := old +:+ ", " +:+ value]> h
  | None => <[toLowerCase name := value]> h
  end.

(** [new Headers(init)] *)
Definition new_Headers (init : list (string * string)) : Headers :=
  fold_left (fun h kv => append h (fst kv) (snd kv)) init ∅.

Inductive Body : Type :=
| BodyText (s : string)
| BodyFormData (parts : list (string * string)).

(** [body instanceof FormData] *)
Definition is_FormData (b : option Body) : bool :=
  match b with
  | Some (BodyFormData _) => true
  | _ => false
  end.

(** [RequestInit & { skipAuth?: boolean }] *)
Record RequestOptions : Type := mkOptions {
  skipAuth : option bool;
  headers : option (list (string * string));
  method : option string;
  body : option Body
}.

Definition no_options : RequestOptions := mkOptions None None None None.

(** What [fetch] is called with. *)
Record Request : Type := mkRequest {
  url : string;
  req_method : option string;
  req_headers : Headers;
  req_body : option Body
}.

(** What the client observes of a [Response]: [json] is the value
    [response.json()] resolves to, [None] when it rejects. *)
Record Response : Type := mkResponse {
  status : Z;
  content_type : option string;
  json : option JsVal;
  text : string
}.

(** [response.ok] *)
Definition ok (r : Response) : bool := (200 <=? status r) && (status r <=? 299).

Inductive FetchResult : Type :=
| Responds (r : Response)
| Fails.

End Http.

(** ** The world and the monad of effects *)

Definition Listener : Type := nat.

Record World : Type := mkWorld {
  isBrowser : bool;                                 (* typeof window !== "undefined" *)
  localStorage : gmap string string;                (* window.localStorage *)
  listeners : list Listener;                        (* the Set of subscribed listeners *)
  calls : list (Listener * option StoredAuthState.t); (* listener invocations so far *)
  network : list Http.FetchResult;                  (* what the next fetch calls meet *)
  sent : list Http.Request;                         (* fetch calls so far *)
  console : list string                             (* console.error / console.warn *)
}.

Inductive Exn : Type :=
| ApiError (message : string) (status : Z) (data : JsVal)  (* the typed error *)
| SyntaxError                     (* malformed JSON *)
| TypeError                       (* a property of null or undefined was read *)
| FetchError.                     (* fetch rejected: the network failed *)

Inductive Outcome (A : Type) : Type :=
| Returned (a : A)
| Thrown (e : Exn).
Arguments Returned {A} a.
Arguments Thrown {A} e.

Definition M (A : Type) : Type := World -> Outcome A * World.

#[global] Instance M_ret : MRet M := fun A a w => (Returned a, w).

#[global] Instance M_bind : MBind M := fun A B k m w =>
  match m w with
  | (Returned a, w') => k a w'
  | (Thrown e, w') => (Thrown e, w')
  end.

Definition throw {A : Type} (e : Exn) : M A := fun w => (Thrown e, w).

(** [try { m } catch (error) { handler error }] *)
Definition try_catch {A : Type} (m : M A) (handler : Exn -> M A) : M A := fun w =>
  match m w with
  | (Returned a, w') => (Returned a, w')
  | (Thrown e, w') => handler e w'
  end.

Definition log (msg : string) : M unit := fun w =>
  (Returned tt,
   mkWorld (isBrowser w) (localStorage w) (listeners w) (calls w)
           (network w) (sent w) (console w ++ [msg])).

(** [fetch(url, init)]: the request is recorded and meets the next result
    the network holds; with none left the call fails. *)
Definition fetch (req : Http.Request) : M Http.Response := fun w =>
  let w' rest :=
    mkWorld (isBrowser w) (localStorage w) (listeners w) (calls w)
            rest (sent w ++ [req]) (console w) in
  match network w with
  | Http.Responds r :: rest => (Returned r, w' rest)
  | Http.Fails :: rest => (Thrown FetchError, w' rest)
  | [] => (Thrown FetchError, w' [])
  end.

(** [await response.json()] *)
Definition response_json (r : Http.Response) : M JsVal :=
  match Http.json r with
  | Some v => mret v
  | None => throw SyntaxError
  end.

(** Primitive accesses to the world. *)
Definition window_defined : M bool := fun w => (Returned (isBrowser w), w).

Definition getItem (key : string) : M (option string) := fun w =>
  (Returned (localStorage w !! key), w).

Definition setItem (key value : string) : M unit := fun w =>
  (Returned tt,
   mkWorld (isBrowser w) (<[key := value]> (localStorage w)) (listeners w)
           (calls w) (network w) (sent w) (console w)).

Definition removeItem (key : string) : M unit := fun w =>
  (Returned tt,
   mkWorld (isBrowser w) (delete key (localStorage w)) (listeners w)
           (calls w) (network w) (sent w) (console w)).

Definition current_listeners : M (list Listener) := fun w =>
  (Returned (listeners w), w).

Definition update_listeners (f : list Listener -> list Listener) : M unit := fun w =>
  (Returned tt,
   mkWorld (isBrowser w) (localStorage w) (f (listeners w))
           (calls w) (network w) (sent w) (console w)).

(** A listener is an observer: calling it records the call. *)
Definition call_listener (l : Listener) (state : option StoredAuthState.t) : M unit :=
  fun w =>
  (Returned tt,
   mkWorld (isBrowser w) (localStorage w) (listeners w)
           (calls w ++ [(l, state)]) (network w) (sent w) (console w)).

(** [JSON.parse] as a computation that may throw. *)
Definition parse_json (text : string) : M JsVal :=
  match JSON_parse text with
  | Some v => mret v
  | None => throw SyntaxError
  end.

Fixpoint for_each {A : Type} (items : list A) (body : A -> M unit) : M unit :=
  match items with
  | [] => mret tt
  | x :: rest => body x ≫= fun _ => for_each rest body
  end.

(** ** The session store, [authStore.ts] *)

Module authStore.

Definition STORAGE_KEY : string := "do-smart-ai.auth".

(** The object a [StoredAuthState] is at run time. *)
Definition state_to_js (state : StoredAuthState.t) : JsVal :=
  let t := StoredAuthState.tokens state in
  let u := StoredAuthState.user state in
  VObj [("tokens", VObj [("access", AuthTokens.access t);
                         ("refresh", AuthTokens.refresh t)]);
        ("user", VObj [("id", User.id u);
                       ("email", User.email u);
                       ("name", User.name u)])].

(** [JSON.parse(raw) as StoredAuthState]. The cast is unchecked in the
    source; the slot is written by [writeStorage] only, and the model reads
    back the shape [writeStorage] produces: an object holding a [tokens]
    and a [user] object. Parsed [null] is no state. A slot of another
    shape, which the store never writes, is outside the model: the
    statements that depend on what the slot holds take a slot that holds
    nothing or a session the store wrote. *)
Definition state_of_js (v : JsVal) : option StoredAuthState.t :=
  match prop v "tokens", prop v "user" with
  | VObj t, VObj u =>
      Some (StoredAuthState.mk
              (AuthTokens.mk (get_prop t "access") (get_prop t "refresh"))
              (User.mk (get_prop u "id") (get_prop u "email") (get_prop u "name")))
  | _, _ => None
  end.

Definition readStorage : M (option StoredAuthState.t) :=
  browser ← window_defined;
  if negb browser then mret None
  else
    try_catch
      (raw ← getItem STORAGE_KEY;
       match raw with
       | None => mret None
       | Some raw =>
           if String.eqb raw "" then mret None
           else v ← parse_json raw; mret (state_of_js v)
       end)
      (fun error => log "Failed to read auth storage" ≫= fun _ => mret None).

Definition writeStorage (state : option StoredAuthState.t) : M unit :=
  browser ← window_defined;
  if negb browser then mret tt
  else
    match state with
    | Some st =>
        setItem STORAGE_KEY (default "undefined" (JSON_stringify (state_to_js st)))
    | None => removeItem STORAGE_KEY
    end.

Definition notify (state : option StoredAuthState.t) : M unit :=
  ls ← current_listeners;
  for_each ls (fun listener => call_listener listener state).

Definition getState : M (option StoredAuthState.t) := readStorage.

Definition getTokens : M (option AuthTokens.t) :=
  st ← readStorage; mret (StoredAuthState.tokens <$> st).

Definition setState (state : StoredAuthState.t) : M unit :=
  writeStorage (Some state) ≫= fun _ => notify (Some state).

Definition clear : M unit :=
  writeStorage None ≫= fun _ => notify None.

Definition updateUser (user : User.t) : M unit :=
  current ← readStorage;
  match current with
  | None => mret tt
  | Some current =>
      let next := StoredAuthState.mk (StoredAuthState.tokens current) user in
      writeStorage (Some next) ≫= fun _ => notify (Some next)
  end.

(** [listeners.add(listener)]; the handle returned is [unsubscribe listener]. *)
Definition subscribe (listener : Listener) : M unit :=
  update_listeners (fun ls => if bool_decide (listener ∈ ls) then ls else (ls ++ [listener])%list).

Definition unsubscribe (listener : Listener) : M unit :=
  update_listeners (fun ls => filter (fun l => l ≠ listener) ls).

End authStore.

(** ** Shared pieces of the two clients *)

Module Task.
(** Modelled from the spec: the type [Task] of [@/types], which is not among
    the sources; the spec gives it these nine fields, and [normalizeTask]
    fills them. *)
Record t : Type := mk {
  id : JsVal;
  title : JsVal;
  description : JsVal;
  dueDate : JsVal;
  priority : JsVal;
  status : JsVal;
  createdAt : JsVal;
  updatedAt : JsVal;
  userId : JsVal
}.
End Task.

(** Reading [payload.k]: of [null] and [undefined] no property can be read. *)
Definition member (payload : JsVal) (k : string) : M JsVal :=
  if is_nullish payload then throw TypeError else mret (prop payload k).

(** An object literal whose fields read properties of [payload]. *)
Definition reading {A : Type} (payload : JsVal) (result : A) : M A :=
  if is_nullish payload then throw TypeError else mret result.

(** [state?.tokens.access] and [state?.tokens.refresh] *)
Definition access_of (state : option StoredAuthState.t) : JsVal :=
  match state with
  | Some st => AuthTokens.access (StoredAuthState.tokens st)
  | None => VUndefined
  end.

Definition refresh_of (state : option StoredAuthState.t) : JsVal :=
  match state with
  | Some st => AuthTokens.refresh (StoredAuthState.tokens st)
  | None => VUndefined
  end.

(** [JSON.stringify] of an object literal. *)
Definition stringify_object (fields : list (string * JsVal)) : string :=
  default "undefined" (JSON_stringify (VObj fields)).

(** [error instanceof ApiError && error.status === 401] *)
Definition is_unauthorized (error : Exn) : bool :=
  match error with
  | ApiError _ status _ => status =? 401
  | _ => false
  end.

Definition generic_message (status : Z) : string :=
  "Request failed with status " +:+ Z_to_string status.

Definition session_of (state : StoredAuthState.t) : AuthSession.t :=
  AuthSession.mk (AuthTokens.access (StoredAuthState.tokens state))
                 (AuthTokens.refresh (StoredAuthState.tokens state))
                 (StoredAuthState.user state).

(** [v === undefined] *)
Definition is_undefined (v : JsVal) : bool :=
  match v with
  | VUndefined => true
  | _ => false
  end.

(** [data.map(f)]: only an array has [map]; the elements are visited in
    order, and the first call that throws ends the loop. *)
Fixpoint map_each {A : Type} (f : JsVal -> M A) (items : list JsVal) : M (list A) :=
  match items with
  | [] => mret []
  | x :: rest => y ← f x; ys ← map_each f rest; mret (y :: ys)
  end.

Definition array_map {A : Type} (data : JsVal) (f : JsVal -> M A) : M (list A) :=
  match data with
  | VArr items => map_each f items
  | _ => throw TypeError
  end.

(** [console.warn] *)
Definition warn (msg : string) : M unit := log msg.

(** [URLSearchParams]: the pairs in the order they were appended, and the
    [application/x-www-form-urlencoded] text [toString] makes of them. A
    byte is kept when it is a letter or a digit of ASCII or one of
    [*], [-], [.] and [_]; a space becomes [+]; any other byte is written as
    [%] and its two upper-case hexadecimal digits. *)
Module URLSearchParams.

Definition t : Type := list (string * string).

Definition append (searchParams : t) (name value : string) : t :=
  (searchParams ++ [(name, value)])%list.

Definition is_plain (c : ascii) : bool :=
  let n := nat_of_ascii c in
  ((48 <=? n) && (n <=? 57) || (65 <=? n) && (n <=? 90) || (97 <=? n) && (n <=? 122)
   || (n =? 42) || (n =? 45) || (n =? 46) || (n =? 95))%nat.

Definition hex_digit (n : nat) : ascii :=
  if (n <? 10)%nat then ascii_of_nat (48 + n) else ascii_of_nat (55 + n).

Definition encode_byte (c : ascii) : string :=
  if is_plain c then String c ""
  else if Ascii.eqb c " " then "+"
  else String "%" (String (hex_digit (nat_of_ascii c / 16))
                     (String (hex_digit (nat_of_ascii c mod 16)) "")).

Fixpoint encode (s : string) : string :=
  match s with
  | EmptyString => ""
  | String c rest => encode_byte c +:+ encode rest
  end.

Definition toString (searchParams : t) : string :=
  join "&" (List.map (fun kv => encode (fst kv) +:+ "=" +:+ encode (snd kv)) searchParams).

End URLSearchParams.

(** [HistoryItem] of [djangoApi.ts]. *)
Module HistoryItem.
Record t : Type := mk {
  id : JsVal;
  title : JsVal;
  query : JsVal;
  response : JsVal;
  createdAt : JsVal;
  userId : JsVal
}.
End HistoryItem.

(** What [profileApi] and [settingsApi] return. *)
Module Profile.
Record t : Type := mk { name : JsVal; avatarUrl : JsVal }.
End Profile.

Module Settings.
Record t : Type := mk { theme : JsVal; aiStyle : JsVal; language : JsVal }.
End Settings.

(** [profileApi] and [settingsApi] are written twice, in
    [frontend/src/lib/database.ts] and in [do-smart-ai/src/lib/database.ts],
    with the same text but for the request function they call. What the
    two copies make of a reply and the objects they send: *)

(** [{ name: data.name ?? "", avatarUrl: data.avatar_url ?? "" }] *)
Definition profile_of (data : JsVal) : M Profile.t :=
  reading data (Profile.mk (prop data "name" ?? VStr "")
                           (prop data "avatar_url" ?? VStr "")).

(** The [body] of [updateProfile], from the [name] and the [avatarUrl] of
    its argument. *)
Definition profile_body (name avatarUrl : JsVal) : list (string * JsVal) :=
  let body := [] in
  let body := if negb (is_undefined name) then set_prop body "name" name else body in
  let body :=
    if negb (is_undefined avatarUrl) then set_prop body "avatar_url" avatarUrl else body in
  body.

(** [{ theme: data.theme, aiStyle: data.ai_response_style, language: data.language }] *)
Definition settings_of (data : JsVal) : M Settings.t :=
  reading data (Settings.mk (prop data "theme") (prop data "ai_response_style")
                            (prop data "language")).

(** The [body] of [updateSettings]. *)
Definition settings_body (theme aiStyle language : JsVal) : list (string * JsVal) :=
  let body := [] in
  let body := if negb (is_undefined theme) then set_prop body "theme" theme else body in
  let body :=
    if negb (is_undefined aiStyle) then set_prop body "ai_response_style" aiStyle
    else body in
  let body :=
    if negb (is_undefined language) then set_prop body "language" language else body in
  body.

(** ** [frontend/src/lib/djangoApi.ts] *)

Module djangoApi.
Section Client.

(** The base URL read from the environment when the module loads, its
    trailing slash removed. *)
Variable API_BASE_URL : string.

Definition normalizeUser (payload : JsVal) : M User.t :=
  reading payload
    (User.mk (VStr (to_String (prop payload "id")))
             (prop payload "email" ?? VStr "")
             (prop payload "name" ?? prop payload "email" ?? VStr "")).

Definition normalizeTask (payload : JsVal) : M Task.t :=
  reading payload
    (Task.mk (VStr (to_String (prop payload "id")))
             (prop payload "title" ?? VStr "")
             (prop payload "description" ?? VStr "")
             (prop payload "dueDate" ?? VNull)
             (prop payload "priority" ?? VStr "medium")
             (prop payload "status" ?? VStr "todo")
             (prop payload "createdAt" ?? VStr "")
             (prop payload "updatedAt" ?? VStr "")
             (if negb (is_nullish (prop payload "userId"))
              then VStr (to_String (prop payload "userId"))
              else VStr "")).

Definition refreshAccessToken : M JsVal :=
  state ← authStore.getState;
  match state with
  | None => mret VNull
  | Some st =>
      let refresh := AuthTokens.refresh (StoredAuthState.tokens st) in
      if negb (truthy refresh) then mret VNull
      else
        try_catch
          (response ← fetch (Http.mkRequest
                               (API_BASE_URL +:+ "/auth/refresh/")
                               (Some "POST")
                               (Http.new_Headers [("Content-Type", "application/json")])
                               (Some (Http.BodyText (stringify_object [("refresh", refresh)]))));
           if negb (Http.ok response) then
             authStore.clear ≫= fun _ => mret VNull
           else
             data ← response_json response;
             access ← member data "access";
             let nextState :=
               StoredAuthState.mk (AuthTokens.mk access refresh)
                                  (StoredAuthState.user st) in
             authStore.setState nextState ≫= fun _ => mret access)
          (fun error =>
             log "Failed to refresh access token" ≫= fun _ =>
             authStore.clear ≫= fun _ => mret VNull)
  end.

(** The body of the [try] block of [refreshAccessToken], for the statements. *)
Definition refresh_attempt (st : StoredAuthState.t) : M JsVal :=
  let refresh := AuthTokens.refresh (StoredAuthState.tokens st) in
  response ← fetch (Http.mkRequest
                      (API_BASE_URL +:+ "/auth/refresh/")
                      (Some "POST")
                      (Http.new_Headers [("Content-Type", "application/json")])
                      (Some (Http.BodyText (stringify_object [("refresh", refresh)]))));
  if negb (Http.ok response) then
    authStore.clear ≫= fun _ => mret VNull
  else
    data ← response_json response;
    access ← member data "access";
    let nextState :=
      StoredAuthState.mk (AuthTokens.mk access refresh) (StoredAuthState.user st) in
    authStore.setState nextState ≫= fun _ => mret access.

(** The message of the typed error, from the parsed body. *)
Definition error_message (status : Z) (data : JsVal) : string :=
  if truthy data && typeof_object data then
    let detail := prop data "detail" in
    let fallbackMessage := prop data "message" in
    match detail, fallbackMessage with
    | VStr d, _ => d
    | _, VStr m => m
    | _, _ => generic_message status
    end
  else generic_message status.

(** The headers [request] sends, before the bearer token is attached. *)
Definition merge_headers (options : Http.RequestOptions) : Http.Headers :=
  let mergedHeaders := Http.new_Headers (default [] (Http.headers options)) in
  let mergedHeaders :=
    if negb (Http.has mergedHeaders "Accept")
    then Http.set mergedHeaders "Accept" "application/json"
    else mergedHeaders in
  if negb (Http.is_FormData (Http.body options))
     && negb (Http.has mergedHeaders "Content-Type")
     && match Http.method options with
        | Some m => negb (String.eqb m "") && negb (String.eqb m "GET")
        | None => false
        end
  then Http.set mergedHeaders "Content-Type" "application/json"
  else mergedHeaders.

(** The body of a response that is not a 204, by its content type. *)
Definition read_body (response : Http.Response) : M JsVal :=
  let contentType := default "" (Http.content_type response) in
  if includes "application/json" contentType then response_json response
  else if (0 <? String.length contentType)%nat then mret (VStr (Http.text response))
  else mret VNull.

Definition request (path : string) (options : Http.RequestOptions) : M JsVal :=
  let skipAuth := default false (Http.skipAuth options) in
  let mergedHeaders := merge_headers options in
  state ← authStore.getState;
  let mergedHeaders :=
    if negb skipAuth && truthy (access_of state)
    then Http.set mergedHeaders "Authorization" ("Bearer " +:+ to_String (access_of state))
    else mergedHeaders in
  let normalizedPath := if startsWith "/" path then path else "/" +:+ path in
  let url := API_BASE_URL +:+ normalizedPath in
  let execute (headers : Http.Headers) :=
    fetch (Http.mkRequest url (Http.method options) headers (Http.body options)) in
  response ← execute mergedHeaders;
  response ←
    (if (Http.status response =? 401) && negb skipAuth && truthy (refresh_of state)
     then
       newAccess ← refreshAccessToken;
       if truthy newAccess
       then execute (Http.set mergedHeaders "Authorization"
                       ("Bearer " +:+ to_String newAccess))
       else mret response
     else mret response);
  if Http.status response =? 204 then mret VUndefined
  else
    data ← read_body response;
    if negb (Http.ok response) then
      let message := error_message (Http.status response) data in
      (if (Http.status response =? 401) && negb skipAuth
       then authStore.clear else mret tt) ≫= fun _ =>
      throw (ApiError message (Http.status response) data)
    else mret data.

(** The two halves of [request], for the statements: the exchange with the
    server up to the response the call ends with, and what the call makes
    of that response ([request_split] below). *)
Definition first_headers (options : Http.RequestOptions)
    (state : option StoredAuthState.t) : Http.Headers :=
  if negb (default false (Http.skipAuth options)) && truthy (access_of state)
  then Http.set (merge_headers options) "Authorization"
         ("Bearer " +:+ to_String (access_of state))
  else merge_headers options.

Definition original (path : string) (options : Http.RequestOptions)
    (headers : Http.Headers) : Http.Request :=
  Http.mkRequest (API_BASE_URL +:+ (if startsWith "/" path then path else "/" +:+ path))
                 (Http.method options) headers (Http.body options).

Definition refresh_request (refresh : JsVal) : Http.Request :=
  Http.mkRequest (API_BASE_URL +:+ "/auth/refresh/") (Some "POST")
                 (Http.new_Headers [("Content-Type", "application/json")])
                 (Some (Http.BodyText (stringify_object [("refresh", refresh)]))).

Definition exchange (path : string) (options : Http.RequestOptions) : M Http.Response :=
  state ← authStore.getState;
  response ← fetch (original path options (first_headers options state));
  if (Http.status response =? 401) && negb (default false (Http.skipAuth options))
     && truthy (refresh_of state)
  then
    newAccess ← refreshAccessToken;
    if truthy newAccess
    then fetch (original path options
                  (Http.set (first_headers options state) "Authorization"
                     ("Bearer " +:+ to_String newAccess)))
    else mret response
  else mret response.

Definition conclude (skipAuth : bool) (response : Http.Response) : M JsVal :=
  if Http.status response =? 204 then mret VUndefined
  else
    data ← read_body response;
    if negb (Http.ok response) then
      (if (Http.status response =? 401) && negb skipAuth
       then authStore.clear else mret tt) ≫= fun _ =>
      throw (ApiError (error_message (Http.status response) data)
                      (Http.status response) data)
    else mret data.

(** [djangoApi.auth] *)

Definition login (email password : string) : M AuthSession.t :=
  data ← request "/auth/login/"
           (Http.mkOptions (Some true) None (Some "POST")
              (Some (Http.BodyText
                       (stringify_object [("email", VStr email);
                                          ("password", VStr password)]))));
  rawUser ← member data "user";
  user ← normalizeUser rawUser;
  let state :=
    StoredAuthState.mk (AuthTokens.mk (prop data "access") (prop data "refresh")) user in
  authStore.setState state ≫= fun _ => mret (session_of state).

Definition getCurrentUser : M (option User.t) :=
  try_catch
    (data ← request "/auth/me/" Http.no_options;
     rawProfile ← member data "profile";
     let profile := rawProfile ?? VObj [] in
     normalized ← normalizeUser
                    (VObj [("id", prop data "id");
                           ("email", prop data "email");
                           ("name", prop data "name" ?? prop profile "name")]);
     authStore.updateUser normalized ≫= fun _ => mret (Some normalized))
    (fun error =>
       if is_unauthorized error
       then authStore.clear ≫= fun _ => mret None
       else throw error).

Definition getSession : M (option AuthSession.t) :=
  state ← authStore.getState;
  mret (session_of <$> state).

Definition normalizeHistoryItem (payload : JsVal) : M HistoryItem.t :=
  reading payload
    (HistoryItem.mk (VStr (to_String (prop payload "id")))
                    (prop payload "title" ?? VStr "")
                    (prop payload "query" ?? VStr "")
                    (prop payload "response" ?? VStr "")
                    (prop payload "createdAt" ?? prop payload "created_at" ?? VStr "")
                    (if negb (is_nullish (prop payload "userId"))
                     then VStr (to_String (prop payload "userId"))
                     else if negb (is_nullish (prop payload "user"))
                          then VStr (to_String (prop payload "user"))
                          else VStr "")).

(** [buildQueryString(params)]: [params] is the list of the entries of the
    object, in the order [Object.entries] gives them, or nothing. *)
Definition buildQueryString (params : option (list (string * JsVal))) : string :=
  match params with
  | None => ""
  | Some entries =>
      let searchParams :=
        fold_left
          (fun searchParams kv =>
             let value := snd kv in
             if is_nullish value
                || match value with VStr s => String.eqb s "" | _ => false end
             then searchParams
             else URLSearchParams.append searchParams (fst kv) (to_String value))
          entries [] in
      let query := URLSearchParams.toString searchParams in
      if negb (String.eqb query "") then "?" +:+ query else ""
  end.

Definition register (email password name : string) : M AuthSession.t :=
  data ← request "/auth/register/"
           (Http.mkOptions (Some true) None (Some "POST")
              (Some (Http.BodyText
                       (stringify_object [("email", VStr email);
                                          ("password", VStr password);
                                          ("name", VStr name)]))));
  rawUser ← member data "user";
  user ← normalizeUser rawUser;
  let state :=
    StoredAuthState.mk (AuthTokens.mk (prop data "access") (prop data "refresh")) user in
  authStore.setState state ≫= fun _ => mret (session_of state).

Definition logout : M unit :=
  state ← authStore.getState;
  (if truthy (refresh_of state)
   then
     try_catch
       (request "/auth/logout/"
          (Http.mkOptions None None (Some "POST")
             (Some (Http.BodyText (stringify_object [("refresh", refresh_of state)]))))
        ≫= fun _ => mret tt)
       (fun error => warn "Failed to revoke refresh token")
   else mret tt) ≫= fun _ =>
  authStore.clear.

(** [djangoApi.tasks] *)

Definition getTasks (params : option (list (string * JsVal))) : M (list Task.t) :=
  let query := buildQueryString params in
  data ← request ("/tasks/" +:+ query) Http.no_options;
  array_map data normalizeTask.

Definition createTask (payload : list (string * JsVal)) : M Task.t :=
  data ← request "/tasks/"
           (Http.mkOptions None None (Some "POST")
              (Some (Http.BodyText (stringify_object payload))));
  normalizeTask data.

Definition updateTask (id : string) (payload : list (string * JsVal)) : M Task.t :=
  data ← request ("/tasks/" +:+ id +:+ "/")
           (Http.mkOptions None None (Some "PATCH")
              (Some (Http.BodyText (stringify_object payload))));
  normalizeTask data.

Definition deleteTask (id : string) : M unit :=
  request ("/tasks/" +:+ id +:+ "/") (Http.mkOptions None None (Some "DELETE") None)
  ≫= fun _ => mret tt.

(** [djangoApi.ai] *)

Definition getHistory : M (list HistoryItem.t) :=
  data ← request "/ai/history/" Http.no_options;
  array_map data normalizeHistoryItem.

Definition deleteHistory (id : string) : M unit :=
  request ("/ai/history/" +:+ id +:+ "/") (Http.mkOptions None None (Some "DELETE") None)
  ≫= fun _ => mret tt.

End Client.
End djangoApi.

(** ** [frontend/src/lib/database.ts] *)

Module frontend_database.
Section Client.

Variable API_BASE_URL : string.

(** [const request = baseRequest] *)
Definition request : string -> Http.RequestOptions -> M JsVal :=
  djangoApi.request API_BASE_URL.

(** [profileApi] *)

Definition getProfile : M Profile.t :=
  data ← request "/profile/" Http.no_options;
  profile_of data.

Definition updateProfile (payload : list (string * JsVal)) : M Profile.t :=
  let body := profile_body (get_prop payload "name") (get_prop payload "avatarUrl") in
  data ← request "/profile/"
           (Http.mkOptions None None (Some "PUT")
              (Some (Http.BodyText (stringify_object body))));
  profile_of data.

(** [settingsApi] *)

Definition getSettings : M Settings.t :=
  data ← request "/settings/" Http.no_options;
  settings_of data.

Definition updateSettings (payload : list (string * JsVal)) : M Settings.t :=
  let body := settings_body (get_prop payload "theme") (get_prop payload "aiStyle")
                            (get_prop payload "language") in
  data ← request "/settings/"
           (Http.mkOptions None None (Some "PUT")
              (Some (Http.BodyText (stringify_object body))));
  settings_of data.

End Client.
End frontend_database.

(** ** Double-precision arithmetic of the assistant's percentage *)

Module Number.

Definition prec : Z := 53.
Definition emax : Z := 1024.

(** The double that holds a count. *)
Definition of_nat (n : nat) : spec_float :=
  binary_normalize prec emax (Z.of_nat n) 0 false.

Definition div (x y : spec_float) : spec_float := SFdiv prec emax x y.
Definition mul (x y : spec_float) : spec_float := SFmul prec emax x y.

(** [Math.round(x)] of a finite double, as the integer it is: the integer
    nearest to [x], the upper one of two that are equally near. Only finite
    doubles reach it in this program; the other ones are given 0. *)
Definition Math_round (x : spec_float) : Z :=
  match x with
  | S754_finite negative m e =>
      let mant := if negative then Z.neg m else Z.pos m in
      if (0 <=? e)%Z then mant * 2 ^ e
      else (2 * mant + 2 ^ (- e)) / 2 ^ (1 - e)
  | _ => 0
  end.

End Number.

(** ** [do-smart-ai/src/lib/database.ts] *)

Module database.

Module authStore.
(** Modelled from the spec: the module [@/lib/authStore] that do-smart-ai
    imports is not among the sources. The spec describes one session store
    for the client, with [getState], [setState], [clear] and [updateUser]
    over one persisted slot, and the store of the frontend keeps
    do-smart-ai's storage key: that store is taken for it. *)
Definition getState : M (option StoredAuthState.t) := authStore.getState.
Definition setState (state : StoredAuthState.t) : M unit := authStore.setState state.
Definition clear : M unit := authStore.clear.
Definition updateUser (user : User.t) : M unit := authStore.updateUser user.
End authStore.

Section Client.

Variable API_BASE_URL : string.

Definition normalizeUser (payload : JsVal) : M User.t :=
  reading payload
    (User.mk (VStr (to_String (prop payload "id")))
             (prop payload "email")
             (prop payload "name" ?? prop payload "email")).

Definition normalizeTask (payload : JsVal) : M Task.t :=
  reading payload
    (Task.mk (VStr (to_String (prop payload "id")))
             (prop payload "title")
             (prop payload "description" ?? VStr "")
             (prop payload "dueDate" ?? VNull)
             (prop payload "priority" ?? VStr "medium")
             (prop payload "status" ?? VStr "todo")
             (prop payload "createdAt")
             (prop payload "updatedAt")
             (if truthy (prop payload "userId")
              then VStr (to_String (prop payload "userId"))
              else VStr "")).

Definition refreshAccessToken : M JsVal :=
  state ← authStore.getState;
  match state with
  | None => mret VNull
  | Some st =>
      let refresh := AuthTokens.refresh (StoredAuthState.tokens st) in
      try_catch
        (response ← fetch (Http.mkRequest
                             (API_BASE_URL +:+ "/auth/token/refresh/")
                             (Some "POST")
                             (Http.new_Headers [("Content-Type", "application/json")])
                             (Some (Http.BodyText (stringify_object [("refresh", refresh)]))));
         if negb (Http.ok response) then
           authStore.clear ≫= fun _ => mret VNull
         else
           data ← response_json response;
           access ← member data "access";
           let nextState :=
             StoredAuthState.mk (AuthTokens.mk access refresh)
                                (StoredAuthState.user st) in
           authStore.setState nextState ≫= fun _ => mret access)
        (fun error =>
           log "Failed to refresh access token" ≫= fun _ =>
           authStore.clear ≫= fun _ => mret VNull)
  end.

(** The body of the [try] block of [refreshAccessToken], for the statements. *)
Definition refresh_attempt (st : StoredAuthState.t) : M JsVal :=
  let refresh := AuthTokens.refresh (StoredAuthState.tokens st) in
  response ← fetch (Http.mkRequest
                      (API_BASE_URL +:+ "/auth/token/refresh/")
                      (Some "POST")
                      (Http.new_Headers [("Content-Type", "application/json")])
                      (Some (Http.BodyText (stringify_object [("refresh", refresh)]))));
  if negb (Http.ok response) then
    authStore.clear ≫= fun _ => mret VNull
  else
    data ← response_json response;
    access ← member data "access";
    let nextState :=
      StoredAuthState.mk (AuthTokens.mk access refresh) (StoredAuthState.user st) in
    authStore.setState nextState ≫= fun _ => mret access.

(** [data?.k] *)
Definition optional_prop (data : JsVal) (k : string) : JsVal :=
  if is_nullish data then VUndefined else prop data k.

(** The message handed to the constructor of the typed error, which turns
    it into a string. *)
Definition error_message (status : Z) (data : JsVal) : string :=
  to_String (optional_prop data "detail" ?? optional_prop data "message"
               ?? VStr (generic_message status)).

Definition merge_headers (options : Http.RequestOptions) : Http.Headers :=
  let headers := Http.new_Headers (default [] (Http.headers options)) in
  if negb (Http.is_FormData (Http.body options))
     && negb (Http.has headers "Content-Type")
  then Http.set headers "Content-Type" "application/json"
  else headers.

Definition read_body (response : Http.Response) : M JsVal :=
  let contentType := default "" (Http.content_type response) in
  if includes "application/json" contentType then response_json response
  else mret (VStr (Http.text response)).

Definition apiRequest (path : string) (options : Http.RequestOptions) : M JsVal :=
  let skipAuth := default false (Http.skipAuth options) in
  let headers := merge_headers options in
  state ← authStore.getState;
  let headers :=
    if negb skipAuth && truthy (access_of state)
    then Http.set headers "Authorization" ("Bearer " +:+ to_String (access_of state))
    else headers in
  let execute (headers : Http.Headers) :=
    fetch (Http.mkRequest (API_BASE_URL +:+ path) (Http.method options)
             headers (Http.body options)) in
  response ← execute headers;
  response ←
    (if (Http.status response =? 401) && negb skipAuth && truthy (refresh_of state)
     then
       newAccess ← refreshAccessToken;
       if truthy newAccess
       then execute (Http.set headers "Authorization"
                       ("Bearer " +:+ to_String newAccess))
       else mret response
     else mret response);
  if Http.status response =? 204 then mret VUndefined
  else
    data ← read_body response;
    if negb (Http.ok response)
    then throw (ApiError (error_message (Http.status response) data)
                         (Http.status response) data)
    else mret data.

(** The two halves of [apiRequest], for the statements. *)
Definition first_headers (options : Http.RequestOptions)
    (state : option StoredAuthState.t) : Http.Headers :=
  if negb (default false (Http.skipAuth options)) && truthy (access_of state)
  then Http.set (merge_headers options) "Authorization"
         ("Bearer " +:+ to_String (access_of state))
  else merge_headers options.

Definition original (path : string) (options : Http.RequestOptions)
    (headers : Http.Headers) : Http.Request :=
  Http.mkRequest (API_BASE_URL +:+ path) (Http.method options) headers (Http.body options).

Definition refresh_request (refresh : JsVal) : Http.Request :=
  Http.mkRequest (API_BASE_URL +:+ "/auth/token/refresh/") (Some "POST")
                 (Http.new_Headers [("Content-Type", "application/json")])
                 (Some (Http.BodyText (stringify_object [("refresh", refresh)]))).

Definition exchange (path : string) (options : Http.RequestOptions) : M Http.Response :=
  state ← authStore.getState;
  response ← fetch (original path options (first_headers options state));
  if (Http.status response =? 401) && negb (default false (Http.skipAuth options))
     && truthy (refresh_of state)
  then
    newAccess ← refreshAccessToken;
    if truthy newAccess
    then fetch (original path options
                  (Http.set (first_headers options state) "Authorization"
                     ("Bearer " +:+ to_String newAccess)))
    else mret response
  else mret response.

Definition conclude (response : Http.Response) : M JsVal :=
  if Http.status response =? 204 then mret VUndefined
  else
    data ← read_body response;
    if negb (Http.ok response)
    then throw (ApiError (error_message (Http.status response) data)
                         (Http.status response) data)
    else mret data.

(** [authApi] *)

Definition login (email password : string) : M unit :=
  data ← apiRequest "/auth/login/"
           (Http.mkOptions (Some true) None (Some "POST")
              (Some (Http.BodyText
                       (stringify_object [("email", VStr email);
                                          ("password", VStr password)]))));
  rawUser ← member data "user";
  user ← normalizeUser rawUser;
  authStore.setState
    (StoredAuthState.mk (AuthTokens.mk (prop data "access") (prop data "refresh")) user).

Definition getCurrentUser : M (option User.t) :=
  try_catch
    (user ← apiRequest "/auth/me/" Http.no_options;
     normalized ← normalizeUser user;
     authStore.updateUser normalized ≫= fun _ => mret (Some normalized))
    (fun error =>
       if is_unauthorized error
       then authStore.clear ≫= fun _ => mret None
       else throw error).

Definition getSession : M (option AuthSession.t) :=
  state ← authStore.getState;
  mret (session_of <$> state).

(** [aiApi.askAssistant]. The clock and the random generator are inputs:
    [overdue t] is what [new Date(t.dueDate) < new Date()] evaluates to at
    the call, [random] the index [Math.floor(Math.random() * 5)]. *)

(** [v === s] for a string [s] *)
Definition is_str (v : JsVal) (s : string) : bool :=
  match v with
  | VStr x => String.eqb x s
  | _ => false
  end.

Definition quoted_title (t : Task.t) : string :=
  String Json.dquote (to_String (Task.title t)) +:+ String Json.dquote "".

Definition responses : list string :=
  [ "Based on your current tasks, I suggest tackling the high-priority items first. They'll give you the biggest impact!";
    "Consider breaking down larger tasks into smaller, manageable chunks. It makes progress feel more achievable.";
    "Don't forget to take breaks between tasks. Productivity isn't just about doing more-it's about sustainable focus.";
    "Try time-blocking your tasks. Assign specific time slots to each task to maintain focus and momentum.";
    "Review your completed tasks regularly. It's a great way to see your progress and stay motivated!" ].

Definition percentage_of (completedCount totalCount : nat) : Z :=
  if (0 <? totalCount)%nat
  then Number.Math_round
         (Number.mul (Number.div (Number.of_nat completedCount) (Number.of_nat totalCount))
                     (Number.of_nat 100))
  else 0.

Definition progress_report (completedCount totalCount : nat) (percentage : Z) : string :=
  "You've completed " +:+ nat_to_string completedCount +:+ " out of "
  +:+ nat_to_string totalCount +:+ " tasks (" +:+ Z_to_string percentage +:+ "%). "
  +:+ (if 75 <=? percentage then "Excellent progress!"
       else if 50 <=? percentage then "Good momentum!"
       else "Keep going!").

Definition askAssistant (overdue : Task.t -> bool) (random : nat)
    (message : string) (tasks : list Task.t) : string :=
  let lowercaseMessage := toLowerCase message in
  if includes "priority" lowercaseMessage
     || includes "first" lowercaseMessage
     || includes "important" lowercaseMessage
  then
    let highPriorityTasks :=
      List.filter (fun t => is_str (Task.priority t) "high"
                            && negb (is_str (Task.status t) "completed")) tasks in
    if (0 <? length highPriorityTasks)%nat
    then "I recommend focusing on these high-priority tasks: "
         +:+ join ", " (List.map quoted_title highPriorityTasks)
         +:+ ". Start with the ones due soonest!"
    else "You're doing great! Focus on your medium-priority tasks or take a well-deserved break."
  else if includes "overdue" lowercaseMessage || includes "late" lowercaseMessage
  then
    let overdueTasks :=
      List.filter (fun t => if negb (truthy (Task.dueDate t))
                               || is_str (Task.status t) "completed"
                            then false else overdue t) tasks in
    if (0 <? length overdueTasks)%nat
    then "You have " +:+ nat_to_string (length overdueTasks) +:+ " overdue task(s): "
         +:+ join ", " (List.map quoted_title overdueTasks)
         +:+ ". Consider prioritizing these!"
    else "Great news! You don't have any overdue tasks. Keep up the excellent work!"
  else if includes "progress" lowercaseMessage || includes "status" lowercaseMessage
  then
    let completedCount :=
      length (List.filter (fun t => is_str (Task.status t) "completed") tasks) in
    let totalCount := length tasks in
    let percentage := percentage_of completedCount totalCount in
    progress_report completedCount totalCount percentage
  else nth random responses "".

(** [tasksApi] *)

Definition getTasks : M (list Task.t) :=
  data ← apiRequest "/tasks/" Http.no_options;
  array_map data normalizeTask.

Definition createTask (taskData : list (string * JsVal)) : M Task.t :=
  let payload :=
    [("title", get_prop taskData "title");
     ("description", get_prop taskData "description");
     ("dueDate", get_prop taskData "dueDate");
     ("priority", get_prop taskData "priority");
     ("status", get_prop taskData "status")] in
  data ← apiRequest "/tasks/"
           (Http.mkOptions None None (Some "POST")
              (Some (Http.BodyText (stringify_object payload))));
  normalizeTask data.

(** [if (updates.k !== undefined) payload.k = updates.k] *)
Definition copy_defined (updates : list (string * JsVal)) (k : string)
    (payload : list (string * JsVal)) : list (string * JsVal) :=
  if negb (is_undefined (get_prop updates k))
  then set_prop payload k (get_prop updates k)
  else payload.

(** The object [updateTask] sends. *)
Definition update_payload (updates : list (string * JsVal)) : list (string * JsVal) :=
  let payload := [] in
  let payload := copy_defined updates "title" payload in
  let payload := copy_defined updates "description" payload in
  let payload := copy_defined updates "dueDate" payload in
  let payload := copy_defined updates "priority" payload in
  let payload := copy_defined updates "status" payload in
  payload.

Definition updateTask (id : string) (updates : list (string * JsVal)) : M Task.t :=
  let payload := update_payload updates in
  data ← apiRequest ("/tasks/" +:+ id +:+ "/")
           (Http.mkOptions None None (Some "PATCH")
              (Some (Http.BodyText (stringify_object payload))));
  normalizeTask data.

Definition deleteTask (id : string) : M unit :=
  apiRequest ("/tasks/" +:+ id +:+ "/") (Http.mkOptions None None (Some "DELETE") None)
  ≫= fun _ => mret tt.

(** [authApi.register] and [authApi.logout] *)

Definition register (email password name : string) : M unit :=
  data ← apiRequest "/auth/register/"
           (Http.mkOptions (Some true) None (Some "POST")
              (Some (Http.BodyText
                       (stringify_object [("email", VStr email);
                                          ("password", VStr password);
                                          ("name", VStr name)]))));
  rawUser ← member data "user";
  user ← normalizeUser rawUser;
  authStore.setState
    (StoredAuthState.mk (AuthTokens.mk (prop data "access") (prop data "refresh")) user).

Definition logout : M unit :=
  state ← authStore.getState;
  (if truthy (refresh_of state)
   then
     try_catch
       (apiRequest "/auth/logout/"
          (Http.mkOptions None None (Some "POST")
             (Some (Http.BodyText (stringify_object [("refresh", refresh_of state)]))))
        ≫= fun _ => mret tt)
       (fun error => warn "Failed to revoke refresh token")
   else mret tt) ≫= fun _ =>
  authStore.clear.

(** [profileApi] *)

Definition getProfile : M Profile.t :=
  data ← apiRequest "/profile/" Http.no_options;
  profile_of data.

Definition updateProfile (payload : list (string * JsVal)) : M Profile.t :=
  let body := profile_body (get_prop payload "name") (get_prop payload "avatarUrl") in
  data ← apiRequest "/profile/"
           (Http.mkOptions None None (Some "PUT")
              (Some (Http.BodyText (stringify_object body))));
  profile_of data.

(** [settingsApi] *)

Definition getSettings : M Settings.t :=
  data ← apiRequest "/settings/" Http.no_options;
  settings_of data.

Definition updateSettings (payload : list (string * JsVal)) : M Settings.t :=
  let body := settings_body (get_prop payload "theme") (get_prop payload "aiStyle")
                            (get_prop payload "language") in
  data ← apiRequest "/settings/"
           (Http.mkOptions None None (Some "PUT")
              (Some (Http.BodyText (stringify_object body))));
  settings_of data.

End Client.
End database.

(** ** The length and the slices of a string

    [s.length] and [s.slice(0, n)] count the UTF-16 code units of a string,
    where the model holds the bytes of its UTF-8 text. A byte that continues
    a character (128 to 191) counts for nothing; the first byte of a
    character counts for one unit, and for two when it opens a character of
    four bytes, which UTF-16 writes as a pair of surrogates. *)

Definition is_continuation (c : ascii) : bool :=
  let n := N_of_ascii c in (128 <=? n)%N && (n <? 192)%N.

Definition code_units (c : ascii) : nat :=
  if is_continuation c then 0%nat
  else if (240 <=? N_of_ascii c)%N then 2%nat else 1%nat.

(** [s.length] *)
Fixpoint js_length (s : string) : nat :=
  match s with
  | EmptyString => 0%nat
  | String c rest => (code_units c + js_length rest)%nat
  end.

(** The first of the two surrogates of a character of four bytes, of which
    [b1], [b2] and [b3] are the first three, as the three bytes that hold a
    surrogate on its own. *)
Definition high_surrogate (b1 b2 b3 : N) : string :=
  let code := ((b1 mod 8) * 262144 + (b2 mod 64) * 4096 + (b3 mod 64) * 64)%N in
  let unit := (55296 + (code - 65536) / 1024)%N in
  String (ascii_of_N 237)
    (String (ascii_of_N (128 + (unit / 64) mod 64))
       (String (ascii_of_N (128 + unit mod 64)) EmptyString)).

Definition byte_at (i : nat) (s : string) : N :=
  match String.get i s with
  | Some c => N_of_ascii c
  | None => 0%N
  end.

(** [s.slice(0, n)]: the characters are taken while their units fit; a cut
    between the two surrogates of a character leaves the first one. *)
Fixpoint js_slice (n : nat) (s : string) : string :=
  match s with
  | EmptyString => EmptyString
  | String c rest =>
      if is_continuation c then String c (js_slice n rest)
      else if (code_units c <=? n)%nat then String c (js_slice (n - code_units c) rest)
      else if (n =? 0)%nat then EmptyString
      else high_surrogate (N_of_ascii c) (byte_at 0 rest) (byte_at 1 rest)
  end.

(** ** [do-smart-ai/src/lib/historyApi.ts] *)

Module historyApi.

(** The [HistoryItem] of this module. *)
Record HistoryItem : Type := mkHistoryItem {
  id : JsVal;
  title : JsVal;
  query : JsVal;
  response : JsVal;
  createdAt : JsVal
}.

Section Client.

Variable API_BASE_URL : string.

Definition normalize (item : JsVal) : M HistoryItem :=
  reading item
    (mkHistoryItem (VStr (to_String (prop item "id")))
                   (prop item "title") (prop item "query")
                   (prop item "response") (prop item "createdAt")).

Definition list : M (list HistoryItem) :=
  data ← database.apiRequest API_BASE_URL "/ai-history/" Http.no_options;
  array_map data normalize.

(** The title [saveInteraction] gives an interaction: the first 50 code
    units of the query, and an ellipsis when there are more. *)
Definition title_of (query : string) : string :=
  js_slice 50 query +:+ (if (50 <? js_length query)%nat then "..." else "").

Definition saveInteraction (query response : string) : M HistoryItem :=
  let title := title_of query in
  data ← database.apiRequest API_BASE_URL "/ai-history/"
           (Http.mkOptions None None (Some "POST")
              (Some (Http.BodyText
                       (stringify_object [("title", VStr title);
                                          ("query", VStr query);
                                          ("response", VStr response)]))));
  normalize data.

Definition delete (id : string) : M unit :=
  database.apiRequest API_BASE_URL ("/ai-history/" +:+ id +:+ "/")
    (Http.mkOptions None None (Some "DELETE") None)
  ≫= fun _ => mret tt.

End Client.
End historyApi.

(** ** Vocabulary of the statements *)

Module Spec.

(** A state whose fields have their declared type [string]. *)
Definition typed_user (id email name : string) : User.t :=
  User.mk (VStr id) (VStr email) (VStr name).

Definition typed_state (access refresh : string) (user : User.t) : StoredAuthState.t :=
  StoredAuthState.mk (AuthTokens.mk (VStr access) (VStr refresh)) user.

(** The session the slot holds, as [readStorage] reads it. *)
Definition stored (w : World) : option StoredAuthState.t :=
  if isBrowser w then
    match localStorage w !! authStore.STORAGE_KEY with
    | Some raw =>
        if String.eqb raw "" then None
        else match JSON_parse raw with
             | Some v => authStore.state_of_js v
             | None => None
             end
    | None => None
    end
  else None.

(** The world once [state] is written to the slot, once the slot is
    removed, and once every listener has been called with [state]. *)
Definition persisted (state : StoredAuthState.t) (w : World) : World :=
  if isBrowser w then
    mkWorld (isBrowser w)
            (<[authStore.STORAGE_KEY := serialize (authStore.state_to_js state)]>
               (localStorage w))
            (listeners w) (calls w) (network w) (sent w) (console w)
  else w.

Definition erased (w : World) : World :=
  if isBrowser w then
    mkWorld (isBrowser w) (delete authStore.STORAGE_KEY (localStorage w))
            (listeners w) (calls w) (network w) (sent w) (console w)
  else w.

Definition notified (state : option StoredAuthState.t) (w : World) : World :=
  mkWorld (isBrowser w) (localStorage w) (listeners w)
          (calls w ++ List.map (fun l => (l, state)) (listeners w))
          (network w) (sent w) (console w).

(** The world once [fetch] has sent [req]. *)
Definition fetched (req : Http.Request) (w : World) : World :=
  mkWorld (isBrowser w) (localStorage w) (listeners w) (calls w)
          (tail (network w)) (sent w ++ [req]) (console w).

Definition logged (msg : string) (w : World) : World :=
  mkWorld (isBrowser w) (localStorage w) (listeners w) (calls w)
          (network w) (sent w) (console w ++ [msg]).

(** The world once [clear()] has run. *)
Definition cleared (w : World) : World := notified None (erased w).

(** The pieces of a client the statements speak of. *)
Record Client : Type := mkClient {
  run : string -> Http.RequestOptions -> M JsVal;       (* request, apiRequest *)
  refresh : M JsVal;                                     (* refreshAccessToken *)
  attempt : StoredAuthState.t -> M JsVal;                (* its try block *)
  talk : string -> Http.RequestOptions -> M Http.Response;   (* exchange *)
  finish : bool -> Http.Response -> M JsVal;             (* conclude *)
  read : Http.Response -> M JsVal;                       (* read_body *)
  sends : string -> Http.RequestOptions -> Http.Headers -> Http.Request;
  headers_of : Http.RequestOptions -> option StoredAuthState.t -> Http.Headers;
  refresh_call : JsVal -> Http.Request
}.

Definition frontend (base : string) : Client :=
  mkClient (djangoApi.request base) (djangoApi.refreshAccessToken base)
           (djangoApi.refresh_attempt base) (djangoApi.exchange base)
           djangoApi.conclude djangoApi.read_body
           (djangoApi.original base) djangoApi.first_headers
           (djangoApi.refresh_request base).

Definition do_smart_ai (base : string) : Client :=
  mkClient (database.apiRequest base) (database.refreshAccessToken base)
           (database.refresh_attempt base) (database.exchange base)
           (fun _ => database.conclude) database.read_body
           (database.original base) database.first_headers
           (database.refresh_request base).

Definition skips_auth (options : Http.RequestOptions) : bool :=
  default false (Http.skipAuth options).

Definition refresh_token (st : StoredAuthState.t) : JsVal :=
  AuthTokens.refresh (StoredAuthState.tokens st).

(** The request a call sends first, and the one it sends again once the
    refresh has produced [newAccess]. *)
Definition first_request (c : Client) (path : string) (options : Http.RequestOptions)
    (st : StoredAuthState.t) : Http.Request :=
  sends c path options (headers_of c options (Some st)).

Definition second_request (c : Client) (path : string) (options : Http.RequestOptions)
    (st : StoredAuthState.t) (newAccess : JsVal) : Http.Request :=
  sends c path options
    (Http.set (headers_of c options (Some st)) "Authorization"
       ("Bearer " +:+ to_String newAccess)).

(** C1, for a client: a call that requires auth, finds a stored session with
    a refresh token and meets a 401 runs the refresh once; with a new access
    token it sends the request once more, carrying that token, and ends as
    that second exchange ends; without one it sends nothing more and raises
    the typed error of the 401 it met. *)
Definition refreshes_once (c : Client) : Prop :=
  forall (path : string) (options : Http.RequestOptions) (w : World)
         (st : StoredAuthState.t) (r1 : Http.Response) (net : list Http.FetchResult),
    skips_auth options = false ->
    stored w = Some st ->
    truthy (refresh_token st) = true ->
    network w = Http.Responds r1 :: net ->
    Http.status r1 = 401 ->
    exists (newAccess : JsVal) (w2 : World),
      refresh c (fetched (first_request c path options st) w) = (Returned newAccess, w2)
      /\ sent w2 = (sent w ++ [first_request c path options st;
                               refresh_call c (refresh_token st)])%list
      /\ if truthy newAccess
         then run c path options w
              = (fetch (second_request c path options st newAccess) ≫= finish c false) w2
              /\ sent (snd (run c path options w))
                 = (sent w ++ [first_request c path options st;
                               refresh_call c (refresh_token st);
                               second_request c path options st newAccess])%list
              /\ Http.get (Http.req_headers (second_request c path options st newAccess))
                          "Authorization"
                 = Some ("Bearer " +:+ to_String newAccess)
         else run c path options w = finish c false r1 w2
              /\ sent (snd (run c path options w))
                 = (sent w ++ [first_request c path options st;
                               refresh_call c (refresh_token st)])%list
              /\ forall data : JsVal,
                   read c r1 w2 = (Returned data, w2) ->
                   exists (message : string) (w3 : World),
                     run c path options w = (Thrown (ApiError message 401 data), w3).

(** C3, for a client: what [refreshAccessToken] does to a stored session of
    strings whose refresh token is present: on a successful response that
    carries a new access token, on a response that is not a success, and
    when its [try] block throws. *)
Definition refresh_contract (c : Client) : Prop :=
  forall (w : World) (access refresh_tok i e n : string),
    let st := typed_state access refresh_tok (typed_user i e n) in
    stored w = Some st ->
    refresh_tok <> "" ->
    (forall (r : Http.Response) (net : list Http.FetchResult) (d : JsVal)
            (newAccess : string),
        network w = Http.Responds r :: net ->
        Http.ok r = true ->
        Http.json r = Some d ->
        prop d "access" = VStr newAccess ->
        exists w', refresh c w = (Returned (VStr newAccess), w')
                   /\ stored w'
                      = Some (typed_state newAccess refresh_tok (typed_user i e n)))
    /\ (forall (r : Http.Response) (net : list Http.FetchResult),
          network w = Http.Responds r :: net ->
          Http.ok r = false ->
          exists w', refresh c w = (Returned VNull, w')
                     /\ stored w' = None
                     /\ calls w' = (calls w ++ List.map (fun l => (l, None)) (listeners w))%list)
    /\ (forall (err : Exn) (w1 : World),
          attempt c st w = (Thrown err, w1) ->
          exists w', refresh c w = (Returned VNull, w')
                     /\ stored w' = None
                     /\ calls w' = (calls w1 ++ List.map (fun l => (l, None)) (listeners w1))%list).

(** C2: the message the claim gives the typed error. *)
Definition claimed_message (status : Z) (data : JsVal) : string :=
  match prop data "detail" with
  | VStr detail => detail
  | _ =>
      match prop data "message" with
      | VStr message => message
      | _ => generic_message status
      end
  end.

(** C2, for a client and a rule for the message: a call that ends with a
    response [r] that is neither a 204 nor a success, its body read as
    [data], raises the typed error of that status, body and message, having
    cleared the session first when [clears] holds and [r] is a 401 met by a
    call that requires auth. *)
Definition raises_typed_error (message_of : Z -> JsVal -> string) (clears : bool)
    (c : Client) : Prop :=
  forall (path : string) (options : Http.RequestOptions) (w w1 : World)
         (r : Http.Response) (data : JsVal),
    talk c path options w = (Returned r, w1) ->
    Http.status r <> 204 ->
    Http.ok r = false ->
    read c r w1 = (Returned data, w1) ->
    run c path options w =
    (Thrown (ApiError (message_of (Http.status r) data) (Http.status r) data),
     if clears && (Http.status r =? 401) && negb (skips_auth options)
     then cleared w1 else w1).

(** The message [apiRequest] of do-smart-ai gives the typed error. *)
Definition unchecked_message (status : Z) (data : JsVal) : string :=
  to_String (database.optional_prop data "detail"
               ?? database.optional_prop data "message"
               ?? VStr (generic_message status)).

(** C2 (amended), for a client, a rule for the message and a rule for
    clearing. A call that ends with a response [r] that is neither a 204 nor
    a success reads the body of [r] first. With the body read as [data] it
    raises the typed error of that status, body and message, having cleared
    the session first when [clears] holds and [r] is a 401 met by a call
    that requires auth. Reading the body throws only when [r] declares JSON
    and its body is not JSON: the call then throws that syntax error, no
    typed error, and leaves the session as it is. *)
Definition ends_in_error (message_of : Z -> JsVal -> string) (clears : bool)
    (c : Client) : Prop :=
  forall (path : string) (options : Http.RequestOptions) (w w1 : World)
         (r : Http.Response),
    talk c path options w = (Returned r, w1) ->
    Http.status r <> 204 ->
    Http.ok r = false ->
    match read c r w1 with
    | (Returned data, w2) =>
        w2 = w1
        /\ run c path options w =
           (Thrown (ApiError (message_of (Http.status r) data) (Http.status r) data),
            if clears && (Http.status r =? 401) && negb (skips_auth options)
            then cleared w1 else w1)
    | (Thrown e, w2) =>
        w2 = w1
        /\ e = SyntaxError
        /\ includes "application/json" (default "" (Http.content_type r)) = true
        /\ Http.json r = None
        /\ run c path options w = (Thrown SyntaxError, w1)
    end.

(** C5: the body of a response as the claim reads it, by content type. *)
Definition claimed_body (r : Http.Response) : Outcome JsVal :=
  match Http.content_type r with
  | None => Returned VNull
  | Some contentType =>
      if includes "application/json" contentType then
        match Http.json r with
        | Some v => Returned v
        | None => Thrown SyntaxError
        end
      else if negb (String.eqb contentType "") then Returned (VStr (Http.text r))
      else Returned VNull
  end.

(** The body as [apiRequest] of do-smart-ai reads it. *)
Definition json_or_text (r : Http.Response) : Outcome JsVal :=
  if includes "application/json" (default "" (Http.content_type r)) then
    match Http.json r with
    | Some v => Returned v
    | None => Thrown SyntaxError
    end
  else Returned (VStr (Http.text r)).

(** C5, for a client and a rule for the body: a call that ends with a 204
    returns [undefined]; one that ends with another response returns the
    body the rule gives when the response is a success, raises the typed
    error that carries that body when it is not, and throws what reading
    the body throws. *)
Definition reads_body_as (body_of : Http.Response -> Outcome JsVal) (c : Client) : Prop :=
  forall (path : string) (options : Http.RequestOptions) (w w1 : World)
         (r : Http.Response),
    talk c path options w = (Returned r, w1) ->
    if Http.status r =? 204
    then run c path options w = (Returned VUndefined, w1)
    else match body_of r with
         | Returned data =>
             if Http.ok r
             then run c path options w = (Returned data, w1)
             else exists (message : string) (w2 : World),
                    run c path options w
                    = (Thrown (ApiError message (Http.status r) data), w2)
         | Thrown e => run c path options w = (Thrown e, w1)
         end.

(** C6: the method takes a body, as the clients see it. *)
Definition takes_body (method : option string) : bool :=
  match method with
  | Some m => negb (String.eqb m "") && negb (String.eqb m "GET")
  | None => false
  end.

(** C6: the headers the claim has a call send, given the caller's. *)
Definition claimed_headers (options : Http.RequestOptions) (h : Http.Headers) : Prop :=
  let caller := Http.new_Headers (default [] (Http.headers options)) in
  Http.get h "Accept" = Some (default "application/json" (Http.get caller "Accept"))
  /\ Http.get h "Content-Type"
     = match Http.get caller "Content-Type" with
       | Some supplied => Some supplied
       | None =>
           if negb (Http.is_FormData (Http.body options))
              && takes_body (Http.method options)
           then Some "application/json" else None
       end.

(** The headers [apiRequest] of do-smart-ai sends. *)
Definition content_type_only (options : Http.RequestOptions) (h : Http.Headers) : Prop :=
  let caller := Http.new_Headers (default [] (Http.headers options)) in
  Http.get h "Accept" = Http.get caller "Accept"
  /\ Http.get h "Content-Type"
     = match Http.get caller "Content-Type" with
       | Some supplied => Some supplied
       | None =>
           if negb (Http.is_FormData (Http.body options))
           then Some "application/json" else None
       end.

(** C6, for a client and a rule for the headers: the request a call sends
    first carries headers that follow the rule. *)
Definition sends_headers (rule : Http.RequestOptions -> Http.Headers -> Prop)
    (c : Client) : Prop :=
  forall (path : string) (options : Http.RequestOptions) (w : World),
    exists (q : Http.Request) (more : list Http.Request),
      sent (snd (run c path options w)) = (sent w ++ q :: more)%list
      /\ rule options (Http.req_headers q).

(** C10: the message reaches the progress branch of the assistant. *)
Definition on_progress_branch (lowercaseMessage : string) : bool :=
  (includes "progress" lowercaseMessage || includes "status" lowercaseMessage)
  && negb (includes "priority" lowercaseMessage
           || includes "first" lowercaseMessage
           || includes "important" lowercaseMessage
           || includes "overdue" lowercaseMessage
           || includes "late" lowercaseMessage).

Definition completed (tasks : list Task.t) : nat :=
  length (List.filter (fun t => database.is_str (Task.status t) "completed") tasks).

(** C10: [round(100 * completedCount / totalCount)] of the claim, in exact
    arithmetic, halves rounded up; 0 for an empty list. *)
Definition rounded_percentage (completedCount totalCount : nat) : Z :=
  if (0 <? totalCount)%nat
  then (200 * Z.of_nat completedCount + Z.of_nat totalCount) / (2 * Z.of_nat totalCount)
  else 0.

(** C10, as the claim states it. *)
Definition claimed_progress : Prop :=
  forall (overdue : Task.t -> bool) (random : nat) (message : string)
         (tasks : list Task.t),
    on_progress_branch (toLowerCase message) = true ->
    database.askAssistant overdue random message tasks
    = database.progress_report (completed tasks) (length tasks)
        (rounded_percentage (completed tasks) (length tasks)).

(** The percentage of the code is the rounded one for every count up to
    [bound] tasks. *)
Definition agree_up_to (bound : nat) : bool :=
  forallb (fun t => forallb (fun c => database.percentage_of c t =? rounded_percentage c t)
                            (seq 0 (S t)))
          (seq 0 bound).

Definition task_with_status (status : string) : Task.t :=
  Task.mk (VStr "1") (VStr "Write report") (VStr "") VNull (VStr "medium")
          (VStr status) (VStr "") (VStr "") (VStr "7").

(** [done] completed tasks and [open] tasks still to do. *)
Definition some_tasks (done open : nat) : list Task.t :=
  (repeat (task_with_status "completed") done ++ repeat (task_with_status "todo") open)%list.

(** C4: a property the payload does not have. *)
Definition absent (fields : list (string * JsVal)) (k : string) : Prop :=
  get_prop fields k = VUndefined.

(** C4: no field of the task is [undefined]. *)
Definition all_defined (t : Task.t) : Prop :=
  Task.id t <> VUndefined /\ Task.title t <> VUndefined
  /\ Task.description t <> VUndefined /\ Task.dueDate t <> VUndefined
  /\ Task.priority t <> VUndefined /\ Task.status t <> VUndefined
  /\ Task.createdAt t <> VUndefined /\ Task.updatedAt t <> VUndefined
  /\ Task.userId t <> VUndefined.

(** C4: the defaults and the identifier of the claim. *)
Definition claimed_defaults (fields : list (string * JsVal)) (t : Task.t) : Prop :=
  (absent fields "description" -> Task.description t = VStr "")
  /\ (absent fields "priority" -> Task.priority t = VStr "medium")
  /\ (absent fields "status" -> Task.status t = VStr "todo")
  /\ (absent fields "dueDate" -> Task.dueDate t = VNull)
  /\ (absent fields "userId" -> Task.userId t = VStr "")
  /\ Task.id t = VStr (to_String (get_prop fields "id")).

Definition claimed_userId (fields : list (string * JsVal)) (t : Task.t) : Prop :=
  (forall n : Z, get_prop fields "userId" = VNum n -> Task.userId t = VStr (Z_to_string n))
  /\ (forall s : string, get_prop fields "userId" = VStr s -> Task.userId t = VStr s).

Definition claimed_task (normalizeTask : JsVal -> M Task.t) : Prop :=
  forall (fields : list (string * JsVal)) (w : World),
    exists t : Task.t,
      normalizeTask (VObj fields) w = (Returned t, w)
      /\ all_defined t /\ claimed_defaults fields t /\ claimed_userId fields t.

(** C4: what [normalizeTask] of do-smart-ai does instead: three fields are
    copied as they come, and a truthy [userId] is turned into a string. *)
Definition loose_task (normalizeTask : JsVal -> M Task.t) : Prop :=
  forall (fields : list (string * JsVal)) (w : World),
    exists t : Task.t,
      normalizeTask (VObj fields) w = (Returned t, w)
      /\ claimed_defaults fields t
      /\ Task.id t <> VUndefined /\ Task.description t <> VUndefined
      /\ Task.dueDate t <> VUndefined /\ Task.priority t <> VUndefined
      /\ Task.status t <> VUndefined /\ Task.userId t <> VUndefined
      /\ Task.title t = get_prop fields "title"
      /\ Task.createdAt t = get_prop fields "createdAt"
      /\ Task.updatedAt t = get_prop fields "updatedAt"
      /\ (truthy (get_prop fields "userId") = true ->
          Task.userId t = VStr (to_String (get_prop fields "userId"))).


(** C8: the reply of the backend to a login, and the session it makes. *)
Definition login_reply (access refresh_tok : string) (id : Z) (email : string) : JsVal :=
  VObj [("access", VStr access); ("refresh", VStr refresh_tok);
        ("user", VObj [("id", VNum id); ("email", VStr email)])].

Definition logged_session (access refresh_tok : string) (id : Z) (email : string)
  : AuthSession.t :=
  AuthSession.mk (VStr access) (VStr refresh_tok)
                 (typed_user (Z_to_string id) email email).


(** C9: the user [getCurrentUser] makes of the reply, in the two clients. *)
Definition frontend_user (data : JsVal) : User.t :=
  User.mk (VStr (to_String (prop data "id")))
          (prop data "email" ?? VStr "")
          ((prop data "name" ?? prop (prop data "profile" ?? VObj []) "name")
             ?? prop data "email" ?? VStr "").

Definition do_smart_ai_user (data : JsVal) : User.t :=
  User.mk (VStr (to_String (prop data "id")))
          (prop data "email")
          (prop data "name" ?? prop data "email").

Definition current_user_contract (getCurrentUser : M (option User.t)) (me : M JsVal)
    (user_of : JsVal -> User.t) : Prop :=
  forall w : World,
    match me w with
    | (Thrown e, w1) =>
        if is_unauthorized e
        then getCurrentUser w = (Returned None, cleared w1)
        else getCurrentUser w = (Thrown e, w1)
    | (Returned data, w1) =>
        if is_nullish data
        then getCurrentUser w = (Thrown TypeError, w1)
        else getCurrentUser w
             = (Returned (Some (user_of data)),
                snd (authStore.updateUser (user_of data) w1))
    end
    /\ forall (message : string) (data : JsVal) (w' : World),
         getCurrentUser w <> (Thrown (ApiError message 401 data), w').

Definition with_user (st : StoredAuthState.t) (user : User.t) : StoredAuthState.t :=
  StoredAuthState.mk (StoredAuthState.tokens st) user.


(** The [catch] block of [refreshAccessToken]. *)
Definition refresh_handler : Exn -> M JsVal :=
  fun _ => log "Failed to refresh access token" ≫= fun _ =>
           authStore.clear ≫= fun _ => mret VNull.

(** What the proofs use of a client: how its pieces fit together. *)
Record client_laws (c : Client) : Prop := {
  law_split : forall path options w,
    run c path options w = (talk c path options ≫= finish c (skips_auth options)) w;
  law_talk : forall path options w,
    talk c path options w =
    (state ← authStore.getState;
     response ← fetch (sends c path options (headers_of c options state));
     if (Http.status response =? 401) && negb (skips_auth options)
        && truthy (refresh_of state)
     then
       newAccess ← refresh c;
       if truthy newAccess
       then fetch (sends c path options
                     (Http.set (headers_of c options state) "Authorization"
                        ("Bearer " +:+ to_String newAccess)))
       else mret response
     else mret response) w;
  law_refresh : forall w st,
    stored w = Some st -> truthy (refresh_token st) = true ->
    refresh c w = try_catch (attempt c st) refresh_handler w;
  law_attempt : forall st w,
    attempt c st w =
    (response ← fetch (refresh_call c (refresh_token st));
     if negb (Http.ok response) then authStore.clear ≫= fun _ => mret VNull
     else
       data ← response_json response;
       access ← member data "access";
       let nextState :=
         StoredAuthState.mk (AuthTokens.mk access (refresh_token st))
                            (StoredAuthState.user st) in
       authStore.setState nextState ≫= fun _ => mret access) w;
  law_sends : forall path options h, Http.req_headers (sends c path options h) = h;
  law_finish_sent : forall b r w, sent (snd (finish c b r w)) = sent w;
  law_finish_401 : forall b r w data,
    Http.status r = 401 -> read c r w = (Returned data, w) ->
    exists message w', finish c b r w = (Thrown (ApiError message 401 data), w')
}.

(** Worlds and values of the examples. *)
Definition example_world : World :=
  mkWorld true ∅ [1%nat; 2%nat] [] [] [] [].

Definition example_state : StoredAuthState.t :=
  typed_state "A1" "R1" (typed_user "7" "a@b.com" "Ann").

Definition example_base : string := "http://localhost:8000/api".

(** A browser that holds [example_state], before a network that behaves
    as [net]. *)
Definition logged_in (net : list Http.FetchResult) : World :=
  mkWorld true
          {[ authStore.STORAGE_KEY := serialize (authStore.state_to_js example_state) ]}
          [1%nat; 2%nat] [] net [] [].

Definition json_response (status : Z) (body : JsVal) : Http.Response :=
  Http.mkResponse status (Some "application/json") (Some body) "".

Definition expired : Http.Response :=
  json_response 401 (VObj [("detail", VStr "Token expired")]).

Definition refreshed : Http.Response :=
  json_response 200 (VObj [("access", VStr "A2")]).

Definition no_tasks : Http.Response := json_response 200 (VArr []).

(** A response that declares no content type. *)
Definition pong : Http.Response := Http.mkResponse 200 None None "pong".

(** The same call in the two clients. *)
Definition list_tasks (c : Client) : M JsVal := run c "/tasks/" Http.no_options.

End Spec.

(** ** Vocabulary of the further properties

    What the statements about the rest of the two clients, of the store and
    of their callers speak of. *)

Module Further.
Import Spec.

Fixpoint count_char (c : ascii) (s : string) : nat :=
  match s with
  | EmptyString => 0%nat
  | String x rest => ((if Ascii.eqb x c then 1 else 0) + count_char c rest)%nat
  end.

Fixpoint all_chars (p : ascii -> bool) (s : string) : bool :=
  match s with
  | EmptyString => true
  | String x rest => p x && all_chars p rest
  end.

(** The characters of a token that a header carries as they are: the
    printable characters of ASCII but the space. *)
Definition is_token_char (c : ascii) : bool :=
  let n := nat_of_ascii c in (33 <=? n)%nat && (n <=? 126)%nat.

(** The characters a JSON text can start with, once its white space is
    skipped. *)
Definition opens_value (c : ascii) : bool :=
  let n := nat_of_ascii c in
  Ascii.eqb c "{" || Ascii.eqb c "[" || Ascii.eqb c dquote || Ascii.eqb c "-"
  || Ascii.eqb c "t" || Ascii.eqb c "f" || Ascii.eqb c "n"
  || (48 <=? n)%nat && (n <=? 57)%nat.

(** A text that is no JSON text for sure: it is blank, or what it starts
    with opens no JSON value. *)
Definition cannot_be_JSON (raw : string) : bool :=
  match skip_ws raw with
  | EmptyString => true
  | String c _ => negb (opens_value c)
  end.

(** The states listener [l] has been called with, oldest first. *)
Definition heard (l : Listener) (w : World) : list (option StoredAuthState.t) :=
  List.map snd (List.filter (fun c => Nat.eqb (fst c) l) (calls w)).

(** The text the slot of the store holds. *)
Definition slot (w : World) : option string :=
  localStorage w !! authStore.STORAGE_KEY.

(** The slot as the store leaves it, and the session [getState] reads from
    it: no session where there is no browser, or no slot, or an empty one;
    the session [state] that [writeStorage] wrote, its fields strings as
    they are declared and its access token a text a header can carry. *)
Definition written (w : World) (state : option StoredAuthState.t) : Prop :=
  match state with
  | None => isBrowser w = false \/ slot w = None \/ slot w = Some ""
  | Some st =>
      isBrowser w = true
      /\ slot w = Some (serialize (authStore.state_to_js st))
      /\ exists access refresh_tok id email name : string,
           st = typed_state access refresh_tok (typed_user id email name)
           /\ all_chars is_token_char access = true
  end.

(** One of the two clients, with the base URL it was loaded with. *)
Definition is_client (c : Client) : Prop :=
  exists base : string, c = frontend base \/ c = do_smart_ai base.

(** The headers the caller of a request supplied, as a [Headers] object. *)
Definition caller_headers (options : Http.RequestOptions) : Http.Headers :=
  Http.new_Headers (default [] (Http.headers options)).

(** The request a call sends first, from the session the slot holds. *)
Definition opening (c : Client) (path : string) (options : Http.RequestOptions)
    (w : World) : Http.Request :=
  sends c path options (headers_of c options (stored w)).

(** The session [st] with another access token. *)
Definition with_access (st : StoredAuthState.t) (access : JsVal) : StoredAuthState.t :=
  StoredAuthState.mk (AuthTokens.mk access (refresh_token st)) (StoredAuthState.user st).

(** From [w] to [w'] the session [st] was at most refreshed or dropped: the
    slot holds what it held, or nothing, or [st] with another access token;
    no other key of the storage changed, nor did the set of listeners. *)
Definition session_kept (st : StoredAuthState.t) (w w' : World) : Prop :=
  isBrowser w' = isBrowser w
  /\ listeners w' = listeners w
  /\ (forall k : string, k <> authStore.STORAGE_KEY ->
        localStorage w' !! k = localStorage w !! k)
  /\ (slot w' = slot w
      \/ slot w' = None
      \/ exists access : JsVal,
           slot w' = Some (serialize (authStore.state_to_js (with_access st access)))).

(** A successful reply that carries the JSON value [d]. *)
Definition json_reply (r : Http.Response) (d : JsVal) : Prop :=
  Http.ok r = true
  /\ Http.status r <> 204
  /\ includes "application/json" (default "" (Http.content_type r)) = true
  /\ Http.json r = Some d.

(** The reply of the backend to a registration. *)
Definition register_reply (access refresh_tok : string) (id : Z) (email name : string)
  : JsVal :=
  VObj [("access", VStr access); ("refresh", VStr refresh_tok);
        ("user", VObj [("id", VNum id); ("email", VStr email); ("name", VStr name)])].

(** The computation [m], run in [w] where the server answers [r], was
    refused: it throws, the typed error of [r] unless the body of [r] is
    malformed JSON, after one request, with the session as it was. *)
Definition refused {A : Type} (m : M A) (w : World) (r : Http.Response) : Prop :=
  exists (e : Exn) (w' : World),
    m w = (Thrown e, w')
    /\ (e = SyntaxError
        \/ exists (message : string) (data : JsVal),
             e = ApiError message (Http.status r) data)
    /\ length (sent w') = S (length (sent w))
    /\ localStorage w' = localStorage w
    /\ calls w' = calls w.

(** [logout] of a client. *)
Definition logout_of (c : Client) (logout : M unit) : Prop :=
  forall w : World,
    logout w =
    (state ← authStore.getState;
     (if truthy (refresh_of state)
      then
        try_catch
          (run c "/auth/logout/"
             (Http.mkOptions None None (Some "POST")
                (Some (Http.BodyText (stringify_object [("refresh", refresh_of state)]))))
           ≫= fun _ => mret tt)
          (fun error => warn "Failed to revoke refresh token")
      else mret tt) ≫= fun _ =>
     authStore.clear) w.

(** What [logout] of a client loaded with [base] does in [w], where the
    slot holds [state]: it returns, the slot is empty and the listeners have
    been told so; the server was asked to revoke the refresh token when
    [state] holds one, and was not contacted otherwise. *)
Definition signed_out (logout : M unit) (base : string) (w : World)
    (state : option StoredAuthState.t) : Prop :=
  exists w',
    logout w = (Returned tt, w')
    /\ stored w' = None
    /\ (isBrowser w = true -> slot w' = None)
    /\ listeners w' = listeners w
    /\ (exists before,
          calls w' = (before ++ List.map (fun l => (l, None)) (listeners w))%list)
    /\ if truthy (refresh_of state)
       then exists (q : Http.Request) (more : list Http.Request),
              sent w' = (sent w ++ q :: more)%list
              /\ Http.url q = base +:+ "/auth/logout/"
              /\ Http.req_method q = Some "POST"
              /\ Http.req_body q
                 = Some (Http.BodyText
                           (stringify_object [("refresh", refresh_of state)]))
       else sent w' = sent w.

(** The session a sign-in stores, and the one it returns. *)
Definition signed_in (access refresh_tok : string) (id : Z) (email name : string)
  : StoredAuthState.t :=
  typed_state access refresh_tok (typed_user (Z_to_string id) email name).

(** [m], run in [w], has stored the session [st] and told the listeners. *)
Definition stores {A : Type} (m : M A) (w : World) (a : A) (st : StoredAuthState.t)
  : Prop :=
  exists w',
    m w = (Returned a, w')
    /\ stored w' = Some st
    /\ calls w' = (calls w ++ List.map (fun l => (l, Some st)) (listeners w))%list
    /\ length (sent w') = S (length (sent w)).

(** No field of the history item is [null] or [undefined]. *)
Definition history_defined (h : HistoryItem.t) : Prop :=
  is_nullish (HistoryItem.id h) = false /\ is_nullish (HistoryItem.title h) = false
  /\ is_nullish (HistoryItem.query h) = false /\ is_nullish (HistoryItem.response h) = false
  /\ is_nullish (HistoryItem.createdAt h) = false /\ is_nullish (HistoryItem.userId h) = false.

(** [list_call] fetches a value with [fetching] and maps [normalize] over
    it. An array without [null] or [undefined] elements gives the list of
    its normalised elements, in order; an array that holds one, and a value
    that is not an array, give a type error; what [fetching] throws is
    thrown. *)
Definition maps_reply {A : Type} (list_call : M (list A)) (fetching : M JsVal)
    (normalize : JsVal -> M A) : Prop :=
  forall (w w1 : World),
    (forall data : JsVal,
       fetching w = (Returned data, w1) ->
       match data with
       | VArr items =>
           if forallb (fun x => negb (is_nullish x)) items
           then exists results : list A,
                  list_call w = (Returned results, w1)
                  /\ Forall2 (fun item result => normalize item w1 = (Returned result, w1))
                             items results
           else list_call w = (Thrown TypeError, w1)
       | _ => list_call w = (Thrown TypeError, w1)
       end)
    /\ (forall e : Exn,
          fetching w = (Thrown e, w1) -> list_call w = (Thrown e, w1)).

(** A value [buildQueryString] leaves out: [undefined], [null] and the
    empty string. *)
Definition left_out (v : JsVal) : bool :=
  match v with
  | VUndefined | VNull => true
  | VStr s => String.eqb s ""
  | _ => false
  end.

(** The entries that reach the query string. *)
Definition kept_entries (params : option (list (string * JsVal)))
  : list (string * JsVal) :=
  match params with
  | None => []
  | Some entries => List.filter (fun kv => negb (left_out (snd kv))) entries
  end.

(** The characters an encoded name or value is made of. *)
Definition is_encoded_char (c : ascii) : bool :=
  URLSearchParams.is_plain c || Ascii.eqb c "+" || Ascii.eqb c "%".

(** The characters of a query: the encoded ones and the two separators. *)
Definition is_query_char (c : ascii) : bool :=
  is_encoded_char c || Ascii.eqb c "&" || Ascii.eqb c "=".

(** The text of one pair of a query. *)
Definition pair_text (name value : string) : string :=
  URLSearchParams.encode name +:+ "=" +:+ URLSearchParams.encode value.

(** The fields of a task a client may set. *)
Definition task_fields : list string :=
  ["title"; "description"; "dueDate"; "priority"; "status"].

(** The object that holds these fields of [o]. *)
Definition projection (o : list (string * JsVal)) : list (string * JsVal) :=
  List.map (fun k => (k, get_prop o k)) task_fields.

(** The properties of an object list whose value is not [undefined]. *)
Definition defined_fields (fields : list (string * JsVal)) : list (string * JsVal) :=
  List.filter (fun kv => negb (is_undefined (snd kv))) fields.

(** The members [JSON.stringify] prints of an object. *)
Fixpoint members (fields : list (string * JsVal)) : list string :=
  match fields with
  | [] => []
  | (k, VUndefined) :: rest => members rest
  | (k, x) :: rest => (quote k +:+ ":" +:+ serialize x) :: members rest
  end.

(** The computation [m], run in [w], first sends [method] to [url] with
    the JSON text [body]. *)
Definition first_sends {A : Type} (m : M A) (w : World) (method url body : string) : Prop :=
  exists (q : Http.Request) (more : list Http.Request),
    sent (snd (m w)) = (sent w ++ q :: more)%list
    /\ Http.req_method q = Some method
    /\ Http.url q = url
    /\ Http.req_body q = Some (Http.BodyText body).

(** The letter e with an acute accent, two bytes in UTF-8 and one code
    unit, and [n] of them in a row. *)
Definition e_acute : string := String "195" (String "169" EmptyString).

Fixpoint accents (n : nat) : string :=
  match n with
  | O => EmptyString
  | S k => e_acute +:+ accents k
  end.

(** The options of a PUT that carries the JSON text of [body]. *)
Definition put_json (body : list (string * JsVal)) : Http.RequestOptions :=
  Http.mkOptions None None (Some "PUT") (Some (Http.BodyText (stringify_object body))).

(** The object a profile update sends for [payload]. *)
Definition profile_sent (payload : list (string * JsVal)) : list (string * JsVal) :=
  [("name", get_prop payload "name"); ("avatar_url", get_prop payload "avatarUrl")].

(** The object a settings update sends for [payload]. *)
Definition settings_sent (payload : list (string * JsVal)) : list (string * JsVal) :=
  [("theme", get_prop payload "theme");
   ("ai_response_style", get_prop payload "aiStyle");
   ("language", get_prop payload "language")].

(** [m] makes a profile of what [fetching] returns: of a value that is not
    [null] or [undefined] the name and the avatar, with the empty string
    for one that is [null] or [undefined]; of those two a type error. *)
Definition reads_profile (m : M Profile.t) (fetching : M JsVal) : Prop :=
  forall (w w1 : World) (data : JsVal),
    fetching w = (Returned data, w1) ->
    if is_nullish data then m w = (Thrown TypeError, w1)
    else exists p : Profile.t,
           m w = (Returned p, w1)
           /\ is_nullish (Profile.name p) = false
           /\ is_nullish (Profile.avatarUrl p) = false
           /\ (is_nullish (prop data "name") = false -> Profile.name p = prop data "name")
           /\ (is_nullish (prop data "name") = true -> Profile.name p = VStr "")
           /\ (is_nullish (prop data "avatar_url") = false ->
               Profile.avatarUrl p = prop data "avatar_url")
           /\ (is_nullish (prop data "avatar_url") = true -> Profile.avatarUrl p = VStr "").

Definition profile_contract (c : Client) (base : string) (getProfile : M Profile.t)
    (updateProfile : list (string * JsVal) -> M Profile.t) : Prop :=
  reads_profile getProfile (run c "/profile/" Http.no_options)
  /\ forall payload : list (string * JsVal),
       reads_profile (updateProfile payload)
                     (run c "/profile/" (put_json (profile_sent payload)))
       /\ forall w : World,
            first_sends (updateProfile payload) w "PUT" (base +:+ "/profile/")
                        (stringify_object (profile_sent payload)).

(** [m] copies the settings of what [fetching] returns, as they come. *)
Definition reads_settings (m : M Settings.t) (fetching : M JsVal) : Prop :=
  forall (w w1 : World) (data : JsVal),
    fetching w = (Returned data, w1) ->
    if is_nullish data then m w = (Thrown TypeError, w1)
    else m w = (Returned (Settings.mk (prop data "theme")
                                      (prop data "ai_response_style")
                                      (prop data "language")), w1).

Definition settings_contract (c : Client) (base : string) (getSettings : M Settings.t)
    (updateSettings : list (string * JsVal) -> M Settings.t) : Prop :=
  reads_settings getSettings (run c "/settings/" Http.no_options)
  /\ forall payload : list (string * JsVal),
       reads_settings (updateSettings payload)
                      (run c "/settings/" (put_json (settings_sent payload)))
       /\ (forall w : World,
             first_sends (updateSettings payload) w "PUT" (base +:+ "/settings/")
                         (stringify_object (settings_sent payload)))
       /\ forall (w w1 : World),
            run c "/settings/" (put_json (settings_sent payload)) w
            = (Returned (VObj (settings_sent payload)), w1) ->
            updateSettings payload w
            = (Returned (Settings.mk (get_prop payload "theme")
                                     (get_prop payload "aiStyle")
                                     (get_prop payload "language")), w1).

(** The branches of the assistant a message reaches, by the keywords its
    lower-case text contains. *)
Definition on_priority_branch (lowercaseMessage : string) : bool :=
  includes "priority" lowercaseMessage || includes "first" lowercaseMessage
  || includes "important" lowercaseMessage.

Definition on_overdue_branch (lowercaseMessage : string) : bool :=
  (includes "overdue" lowercaseMessage || includes "late" lowercaseMessage)
  && negb (on_priority_branch lowercaseMessage).

Definition on_no_branch (lowercaseMessage : string) : bool :=
  negb (includes "priority" lowercaseMessage || includes "first" lowercaseMessage
        || includes "important" lowercaseMessage || includes "overdue" lowercaseMessage
        || includes "late" lowercaseMessage || includes "progress" lowercaseMessage
        || includes "status" lowercaseMessage).

(** A task of high priority that is not completed. *)
Definition urgent (t : Task.t) : bool :=
  database.is_str (Task.priority t) "high"
  && negb (database.is_str (Task.status t) "completed").

(** A task that has a due date and is not completed. *)
Definition pending (t : Task.t) : bool :=
  truthy (Task.dueDate t) && negb (database.is_str (Task.status t) "completed").

Definition praise : string :=
  "You're doing great! Focus on your medium-priority tasks or take a well-deserved break.".

Definition nothing_overdue : string :=
  "Great news! You don't have any overdue tasks. Keep up the excellent work!".

(** [m], met by a 204, returns nothing after a single DELETE to [url]
    that carries no body, and leaves the session alone. *)
Definition deletes (m : M unit) (url : string) : Prop :=
  forall (w : World) (r : Http.Response) (net : list Http.FetchResult),
    network w = Http.Responds r :: net ->
    Http.status r = 204 ->
    exists (q : Http.Request) (w1 : World),
      m w = (Returned tt, w1)
      /\ sent w1 = (sent w ++ [q])%list
      /\ Http.req_method q = Some "DELETE"
      /\ Http.url q = url
      /\ Http.req_body q = None
      /\ localStorage w1 = localStorage w
      /\ calls w1 = calls w.

(** The path [request] of the frontend asks for, given [path]. *)
Definition normalized (path : string) : string :=
  if startsWith "/" path then path else "/" +:+ path.

(** [m], run in [w], returns the task that [fields], the object the server
    replied, normalises to: none of its fields is [undefined], and the
    defaults stand for what the reply lacks. *)
Definition returns_task_of (m : M Task.t) (w : World) (fields : list (string * JsVal))
  : Prop :=
  exists (t : Task.t) (w1 : World),
    m w = (Returned t, w1)
    /\ all_defined t
    /\ claimed_defaults fields t
    /\ claimed_userId fields t
    /\ localStorage w1 = localStorage w
    /\ calls w1 = calls w.

End Further.

(** * Properties *)

Import Spec.

(** ** Strings and JSON text *)

Lemma append_cons (c : ascii) (a b : string) : String c a +:+ b = String c (a +:+ b).
Proof. reflexivity. Qed.

Lemma append_nil (b : string) : "" +:+ b = b.
Proof. reflexivity. Qed.

Lemma append_assoc (a b c : string) : (a +:+ b) +:+ c = a +:+ (b +:+ c).
Proof.
  induction a as [|x a IH]; [reflexivity|].
  rewrite !append_cons, IH. reflexivity.
Qed.

Lemma append_empty_r (s : string) : s +:+ "" = s.
Proof.
  induction s as [|c s IH]; [reflexivity|]. rewrite append_cons. now rewrite IH.
Qed.

Lemma length_cons (c : ascii) (s : string) :
  String.length (String c s) = S (String.length s).
Proof. reflexivity. Qed.

Lemma length_append (a b : string) :
  String.length (a +:+ b) = (String.length a + String.length b)%nat.
Proof.
  induction a as [|c a IH]; [reflexivity|].
  rewrite append_cons, !length_cons, IH. reflexivity.
Qed.

(** Every character is read back from its quoted form. *)
Lemma parse_quote_char (c : ascii) (tail : string) :
  parse_string_body (quote_char c +:+ tail) =
  match parse_string_body tail with
  | Some (body, rest) => Some (String c body, rest)
  | None => None
  end.
Proof.
  destruct c as [[] [] [] [] [] [] [] []]; reflexivity.
Qed.

Lemma parse_quote_body (s rest : string) :
  parse_string_body (quote_body s +:+ rest) = Some (s, rest).
Proof.
  induction s as [|c s IH].
  - reflexivity.
  - change (quote_body (String c s)) with (quote_char c +:+ quote_body s).
    rewrite append_assoc, parse_quote_char, IH. reflexivity.
Qed.

Lemma parse_value_string (fuel : nat) (s tail : string) :
  parse_value (S fuel) (quote s +:+ tail) = Some (VStr s, tail).
Proof.
  unfold quote. rewrite append_cons.
  change (parse_value (S fuel) (String dquote (quote_body s +:+ tail)))
    with (match parse_string_body (quote_body s +:+ tail) with
          | Some (str, rest1) => Some (VStr str, rest1)
          | None => None
          end).
  now rewrite parse_quote_body.
Qed.

Lemma parse_members_step (fuel : nat) (acc : list (string * JsVal))
    (k text : string) (v : JsVal) (tail : string) :
  parse_value fuel text = Some (v, tail) ->
  parse_members (S fuel) acc (quote k +:+ String ":" text) =
  match skip_ws tail with
  | String "," rest => parse_members fuel (set_prop acc k v) rest
  | String "}" rest => Some (VObj (set_prop acc k v), rest)
  | _ => None
  end.
Proof.
  intros Hv. unfold quote. rewrite append_cons.
  change (parse_members (S fuel) acc (String dquote (quote_body k +:+ String ":" text)))
    with (match parse_string_body (quote_body k +:+ String ":" text) with
          | Some (k, rest1) =>
              match skip_ws rest1 with
              | String ":" rest2 =>
                  match parse_value fuel rest2 with
                  | Some (v, rest3) =>
                      match skip_ws rest3 with
                      | String "," rest4 => parse_members fuel (set_prop acc k v) rest4
                      | String "}" rest4 => Some (VObj (set_prop acc k v), rest4)
                      | _ => None
                      end
                  | None => None
                  end
              | _ => None
              end
          | None => None
          end).
  rewrite parse_quote_body.
  change (skip_ws (String ":" text)) with (String ":" text).
  cbv beta iota. rewrite Hv. reflexivity.
Qed.

Lemma parse_members_more (fuel : nat) (acc : list (string * JsVal))
    (k text : string) (v : JsVal) (rest : string) :
  parse_value fuel text = Some (v, String "," rest) ->
  parse_members (S fuel) acc (quote k +:+ String ":" text) =
  parse_members fuel (set_prop acc k v) rest.
Proof. intros Hv. now rewrite (parse_members_step _ _ _ _ _ _ Hv). Qed.

Lemma parse_members_last (fuel : nat) (acc : list (string * JsVal))
    (k text : string) (v : JsVal) (rest : string) :
  parse_value fuel text = Some (v, String "}" rest) ->
  parse_members (S fuel) acc (quote k +:+ String ":" text) =
  Some (VObj (set_prop acc k v), rest).
Proof. intros Hv. now rewrite (parse_members_step _ _ _ _ _ _ Hv). Qed.

Lemma parse_object_open (fuel : nat) (k rest : string) :
  parse_value (S fuel) (String "{" (quote k +:+ rest)) =
  parse_members fuel [] (quote k +:+ rest).
Proof. reflexivity. Qed.

(** The text [writeStorage] stores for a typed state. *)
Lemma serialize_typed_state (a r i e n : string) :
  serialize (authStore.state_to_js (typed_state a r (typed_user i e n))) =
  String "{" (quote "tokens" +:+ String ":" (String "{"
    (quote "access" +:+ String ":" (quote a +:+ String ","
    (quote "refresh" +:+ String ":" (quote r +:+ String "}" (String ","
    (quote "user" +:+ String ":" (String "{"
    (quote "id" +:+ String ":" (quote i +:+ String ","
    (quote "email" +:+ String ":" (quote e +:+ String ","
    (quote "name" +:+ String ":" (quote n +:+ String "}" (String "}" "")
    ))))))))))))))).
Proof.
  cbv [serialize authStore.state_to_js typed_state typed_user join List.map
       StoredAuthState.tokens StoredAuthState.user AuthTokens.access AuthTokens.refresh
       User.id User.email User.name].
  repeat (rewrite ?append_assoc, ?append_cons, ?append_nil).
  reflexivity.
Qed.

Lemma parse_typed_state (fuel : nat) (a r i e n tail : string) :
  parse_value (8 + fuel)
    (serialize (authStore.state_to_js (typed_state a r (typed_user i e n))) +:+ tail)
  = Some (authStore.state_to_js (typed_state a r (typed_user i e n)), tail).
Proof.
  rewrite serialize_typed_state.
  repeat (rewrite ?append_assoc, ?append_cons, ?append_nil).
  change (8 + fuel)%nat with (S (S (S (S (S (S (S (S fuel)))))))).
  rewrite parse_object_open.
  erewrite parse_members_more; cycle 1.
  { rewrite parse_object_open.
    erewrite parse_members_more by apply parse_value_string.
    erewrite parse_members_last by apply parse_value_string.
    reflexivity. }
  erewrite parse_members_last; cycle 1.
  { rewrite parse_object_open.
    erewrite parse_members_more by apply parse_value_string.
    erewrite parse_members_more by apply parse_value_string.
    erewrite parse_members_last by apply parse_value_string.
    reflexivity. }
  reflexivity.
Qed.

(** [JSON.parse(JSON.stringify(state))] gives the state back. *)
Lemma parse_stringify_typed_state (a r i e n : string) :
  JSON_parse (serialize (authStore.state_to_js (typed_state a r (typed_user i e n))))
  = Some (authStore.state_to_js (typed_state a r (typed_user i e n))).
Proof.
  unfold JSON_parse.
  set (text := serialize (authStore.state_to_js (typed_state a r (typed_user i e n)))).
  assert (Hlen : (8 <= S (String.length text))%nat).
  { subst text. rewrite serialize_typed_state.
    unfold quote. repeat (rewrite ?length_cons, ?length_append). lia. }
  replace (S (String.length text)) with (8 + (S (String.length text) - 8))%nat by lia.
  rewrite <- (append_empty_r text) at 2.
  subst text. rewrite parse_typed_state. reflexivity.
Qed.

Lemma serialize_state_nonempty (state : StoredAuthState.t) :
  String.eqb (serialize (authStore.state_to_js state)) "" = false.
Proof. reflexivity. Qed.

(** ** The monad and the store *)

Lemma bind_run {A B : Type} (m : M A) (k : A -> M B) (w : World) :
  (m ≫= k) w =
  match m w with
  | (Returned a, w') => k a w'
  | (Thrown e, w') => (Thrown e, w')
  end.
Proof. reflexivity. Qed.

Lemma world_eta (w : World) :
  mkWorld (isBrowser w) (localStorage w) (listeners w) (calls w)
          (network w) (sent w) (console w) = w.
Proof. now destruct w. Qed.

Lemma readStorage_stored (w : World) (st : StoredAuthState.t) :
  stored w = Some st -> authStore.readStorage w = (Returned (Some st), w).
Proof.
  unfold stored, authStore.readStorage. intros H.
  rewrite bind_run. unfold window_defined.
  destruct (isBrowser w); [|discriminate]. cbn [negb].
  unfold try_catch. rewrite bind_run. unfold getItem.
  destruct (localStorage w !! authStore.STORAGE_KEY) as [raw|]; [|discriminate].
  destruct (String.eqb raw ""); [discriminate|].
  rewrite bind_run. unfold parse_json.
  destruct (JSON_parse raw) as [v|]; [|discriminate].
  cbn. now rewrite H.
Qed.

Lemma readStorage_none (w : World) :
  isBrowser w = false \/ localStorage w !! authStore.STORAGE_KEY = None ->
  authStore.readStorage w = (Returned None, w).
Proof.
  unfold authStore.readStorage. intros H.
  rewrite bind_run. unfold window_defined.
  destruct (isBrowser w); [|reflexivity]. cbn [negb].
  destruct H as [H|H]; [discriminate|].
  unfold try_catch. rewrite bind_run. unfold getItem. rewrite H. reflexivity.
Qed.

Lemma writeStorage_some (st : StoredAuthState.t) (w : World) :
  authStore.writeStorage (Some st) w = (Returned tt, persisted st w).
Proof.
  unfold authStore.writeStorage, persisted. rewrite bind_run. unfold window_defined.
  destruct (isBrowser w) eqn:Hb; cbn [negb]; [|reflexivity].
  unfold setItem. rewrite Hb. reflexivity.
Qed.

Lemma writeStorage_none (w : World) :
  authStore.writeStorage None w = (Returned tt, erased w).
Proof.
  unfold authStore.writeStorage, erased. rewrite bind_run. unfold window_defined.
  destruct (isBrowser w) eqn:Hb; cbn [negb]; [|reflexivity].
  unfold removeItem. rewrite Hb. reflexivity.
Qed.

Lemma for_each_listeners (state : option StoredAuthState.t) (ls : list Listener) (w : World) :
  for_each ls (fun listener => call_listener listener state) w =
  (Returned tt,
   mkWorld (isBrowser w) (localStorage w) (listeners w)
           (calls w ++ List.map (fun l => (l, state)) ls)
           (network w) (sent w) (console w)).
Proof.
  revert w. induction ls as [|l ls IH]; intros w.
  - cbn. rewrite app_nil_r. now rewrite world_eta.
  - cbn [for_each]. rewrite bind_run. unfold call_listener at 1.
    rewrite IH. cbn. now rewrite <- app_assoc.
Qed.

Lemma notify_run (state : option StoredAuthState.t) (w : World) :
  authStore.notify state w = (Returned tt, notified state w).
Proof.
  unfold authStore.notify. rewrite bind_run. unfold current_listeners.
  apply for_each_listeners.
Qed.

Lemma setState_run (st : StoredAuthState.t) (w : World) :
  authStore.setState st w = (Returned tt, notified (Some st) (persisted st w)).
Proof.
  unfold authStore.setState. rewrite bind_run, writeStorage_some. apply notify_run.
Qed.

Lemma clear_run (w : World) :
  authStore.clear w = (Returned tt, notified None (erased w)).
Proof.
  unfold authStore.clear. rewrite bind_run, writeStorage_none. apply notify_run.
Qed.

Lemma stored_notified (state : option StoredAuthState.t) (w : World) :
  stored (notified state w) = stored w.
Proof. reflexivity. Qed.

Lemma stored_erased (w : World) : stored (erased w) = None.
Proof.
  unfold stored, erased. destruct (isBrowser w) eqn:Hb.
  - cbn [isBrowser localStorage]. now rewrite lookup_delete_eq.
  - now rewrite Hb.
Qed.

Lemma stored_persisted (a r i e n : string) (w : World) :
  isBrowser w = true ->
  stored (persisted (typed_state a r (typed_user i e n)) w)
  = Some (typed_state a r (typed_user i e n)).
Proof.
  intros Hb. unfold stored, persisted. rewrite Hb. cbn [isBrowser localStorage].
  rewrite lookup_insert_eq, serialize_state_nonempty, parse_stringify_typed_state.
  reflexivity.
Qed.

Lemma erased_twice (state : option StoredAuthState.t) (w : World) :
  erased (notified state (erased w)) = notified state (erased w).
Proof.
  destruct w as [b ls l c n s k]. unfold erased, notified. cbn.
  destruct b; cbn; [|reflexivity].
  f_equal. apply delete_id. apply lookup_delete_eq.
Qed.

Lemma ret_run {A : Type} (a : A) (w : World) : (mret a : M A) w = (Returned a, w).
Proof. reflexivity. Qed.

Lemma throw_run {A : Type} (e : Exn) (w : World) : (throw e : M A) w = (Thrown e, w).
Proof. reflexivity. Qed.

Lemma try_catch_run {A : Type} (m : M A) (h : Exn -> M A) (w : World) :
  try_catch m h w =
  match m w with
  | (Returned a, w') => (Returned a, w')
  | (Thrown e, w') => h e w'
  end.
Proof. reflexivity. Qed.

(** Reading the state changes at most the console. *)
Lemma getState_world (w : World) :
  exists w0, authStore.getState w = (Returned (stored w), w0)
             /\ (w0 = w \/ w0 = logged "Failed to read auth storage" w).
Proof.
  unfold authStore.getState, authStore.readStorage, stored.
  rewrite bind_run. unfold window_defined.
  destruct (isBrowser w) eqn:Hb; cbn [negb]; [|exists w; auto].
  rewrite try_catch_run, bind_run. unfold getItem.
  destruct (localStorage w !! authStore.STORAGE_KEY) as [raw|] eqn:Hraw;
    [|exists w; auto].
  destruct (String.eqb raw "") eqn:He; [exists w; auto|].
  rewrite bind_run. unfold parse_json.
  destruct (JSON_parse raw) as [v|] eqn:Hp.
  - exists w. rewrite !ret_run. auto.
  - rewrite throw_run, bind_run. unfold log at 1. rewrite ret_run.
    eexists. split; [reflexivity|]. now right.
Qed.

(** Reading the state returns what is stored and sends nothing. *)
Lemma getState_run (w : World) :
  exists w0, authStore.getState w = (Returned (stored w), w0)
             /\ sent w0 = sent w /\ stored w0 = stored w.
Proof.
  destruct (getState_world w) as (w0 & Hg & Hw0). exists w0. split; [exact Hg|].
  destruct Hw0 as [-> | ->]; split; reflexivity.
Qed.

(** ** The clients *)

Lemma request_split (base path : string) (options : Http.RequestOptions) (w : World) :
  djangoApi.request base path options w =
  (djangoApi.exchange base path options
     ≫= djangoApi.conclude (default false (Http.skipAuth options))) w.
Proof.
  unfold djangoApi.request, djangoApi.exchange, djangoApi.conclude,
    djangoApi.first_headers, djangoApi.original.
  rewrite !bind_run.
  destruct (authStore.getState w) as [[state|e] w1]; [|reflexivity].
  rewrite !bind_run.
  destruct (fetch _ w1) as [[r1|e] w2]; [|reflexivity].
  destruct ((Http.status r1 =? 401) && negb (default false (Http.skipAuth options))
            && truthy (refresh_of state)); [|reflexivity].
  rewrite !bind_run.
  destruct (djangoApi.refreshAccessToken base w2) as [[v|e] w3]; [|reflexivity].
  destruct (truthy v); [|reflexivity].
  destruct (fetch _ w3) as [[r2|e] w4]; reflexivity.
Qed.

Lemma apiRequest_split (base path : string) (options : Http.RequestOptions) (w : World) :
  database.apiRequest base path options w =
  (database.exchange base path options ≫= database.conclude) w.
Proof.
  unfold database.apiRequest, database.exchange, database.conclude,
    database.first_headers, database.original, database.authStore.getState.
  rewrite !bind_run.
  destruct (authStore.getState w) as [[state|e] w1]; [|reflexivity].
  rewrite !bind_run.
  destruct (fetch _ w1) as [[r1|e] w2]; [|reflexivity].
  destruct ((Http.status r1 =? 401) && negb (default false (Http.skipAuth options))
            && truthy (refresh_of state)); [|reflexivity].
  rewrite !bind_run.
  destruct (database.refreshAccessToken base w2) as [[v|e] w3]; [|reflexivity].
  destruct (truthy v); [|reflexivity].
  destruct (fetch _ w3) as [[r2|e] w4]; reflexivity.
Qed.

Lemma fetch_responds (req : Http.Request) (w : World) (r : Http.Response)
    (net : list Http.FetchResult) :
  network w = Http.Responds r :: net -> fetch req w = (Returned r, fetched req w).
Proof. intros H. unfold fetch, fetched. now rewrite H. Qed.

Lemma fetch_sent (req : Http.Request) (w : World) :
  sent (snd (fetch req w)) = (sent w ++ [req])%list
  /\ snd (fetch req w) = fetched req w.
Proof. unfold fetch, fetched. destruct (network w) as [|[r|] net]; now cbn. Qed.

Lemma stored_browser (w : World) (st : StoredAuthState.t) :
  stored w = Some st -> isBrowser w = true.
Proof. unfold stored. now destruct (isBrowser w). Qed.

Lemma getState_stored (w : World) (st : StoredAuthState.t) :
  stored w = Some st -> authStore.getState w = (Returned (Some st), w).
Proof. apply readStorage_stored. Qed.

Lemma truthy_VStr (s : string) : s <> "" -> truthy (VStr s) = true.
Proof.
  intros H. cbn. destruct (String.eqb_spec s ""); [contradiction|reflexivity].
Qed.

Lemma clear_cleared (w : World) : authStore.clear w = (Returned tt, cleared w).
Proof. apply clear_run. Qed.

Lemma handler_run (w : World) :
  (log "Failed to refresh access token" ≫= fun _ =>
   authStore.clear ≫= fun _ => mret VNull) w
  = (Returned VNull, cleared (logged "Failed to refresh access token" w)).
Proof. rewrite bind_run. unfold log at 1. rewrite bind_run, clear_cleared. reflexivity. Qed.

Lemma stored_cleared (w : World) : stored (cleared w) = None.
Proof. unfold cleared. rewrite stored_notified. apply stored_erased. Qed.

Lemma calls_cleared (w : World) :
  calls (cleared w) = (calls w ++ List.map (fun l => (l, None)) (listeners w))%list.
Proof. unfold cleared, notified, erased. now destruct (isBrowser w). Qed.


(** *** The two clients fit the laws *)

Lemma read_R_pure (r : Http.Response) (w : World) :
  snd (djangoApi.read_body r w) = w.
Proof.
  unfold djangoApi.read_body, response_json.
  destruct (includes _ _); [destruct (Http.json r); reflexivity|].
  destruct (0 <? _)%nat; reflexivity.
Qed.

Lemma read_A_pure (r : Http.Response) (w : World) :
  snd (database.read_body r w) = w.
Proof.
  unfold database.read_body, response_json.
  destruct (includes _ _); [destruct (Http.json r); reflexivity|reflexivity].
Qed.

Lemma sent_cleared (w : World) : sent (cleared w) = sent w.
Proof. unfold cleared, notified, erased. now destruct (isBrowser w). Qed.

Lemma frontend_laws (base : string) : client_laws (frontend base).
Proof.
  split; cbn [run talk finish refresh attempt read sends headers_of refresh_call frontend].
  - intros. apply request_split.
  - reflexivity.
  - intros w st Hs Ht. unfold djangoApi.refreshAccessToken. rewrite bind_run.
    rewrite (getState_stored _ _ Hs). unfold refresh_token in Ht. rewrite Ht. reflexivity.
  - reflexivity.
  - reflexivity.
  - intros b r w. unfold djangoApi.conclude.
    destruct (Http.status r =? 204); [reflexivity|].
    rewrite bind_run. pose proof (read_R_pure r w) as Hp.
    destruct (djangoApi.read_body r w) as [[data|e] w1]; cbn [snd] in Hp; subst w1;
      [|reflexivity].
    destruct (negb (Http.ok r)); [|reflexivity].
    rewrite bind_run.
    destruct ((Http.status r =? 401) && negb b); [|reflexivity].
    rewrite clear_cleared. cbn [snd]. apply sent_cleared.
  - intros b r w data Hst Hr. unfold djangoApi.conclude.
    rewrite Hst. cbn [Z.eqb Pos.eqb]. rewrite bind_run, Hr.
    unfold Http.ok. rewrite Hst. cbn [Z.leb Z.compare Pos.compare Pos.compare_cont andb negb].
    rewrite bind_run.
    destruct (negb b); cbn [andb].
    + rewrite clear_cleared. eexists _, _. reflexivity.
    + eexists _, _. reflexivity.
Qed.

Lemma do_smart_ai_laws (base : string) : client_laws (do_smart_ai base).
Proof.
  split; cbn [run talk finish refresh attempt read sends headers_of refresh_call do_smart_ai].
  - intros. apply apiRequest_split.
  - reflexivity.
  - intros w st Hs Ht. unfold database.refreshAccessToken, database.authStore.getState.
    rewrite bind_run.
    rewrite (getState_stored _ _ Hs). reflexivity.
  - reflexivity.
  - reflexivity.
  - intros b r w. unfold database.conclude.
    destruct (Http.status r =? 204); [reflexivity|].
    rewrite bind_run. pose proof (read_A_pure r w) as Hp.
    destruct (database.read_body r w) as [[data|e] w1]; cbn [snd] in Hp; subst w1;
      [|reflexivity].
    destruct (negb (Http.ok r)); reflexivity.
  - intros b r w data Hst Hr. unfold database.conclude.
    rewrite Hst. cbn [Z.eqb Pos.eqb]. rewrite bind_run, Hr.
    unfold Http.ok. rewrite Hst. cbn [Z.leb Z.compare Pos.compare Pos.compare_cont andb negb].
    eexists _, _. reflexivity.
Qed.

Section Laws.

Variable c : Client.
Hypothesis laws : client_laws c.

Lemma attempt_sent (st : StoredAuthState.t) (w : World) :
  sent (snd (attempt c st w)) = (sent w ++ [refresh_call c (refresh_token st)])%list.
Proof.
  rewrite (law_attempt c laws), bind_run.
  destruct (fetch_sent (refresh_call c (refresh_token st)) w) as [_ Hw].
  destruct (fetch _ w) as [[r|e] w1] eqn:Hf; cbn [snd] in Hw; subst w1;
    [|reflexivity].
  destruct (negb (Http.ok r)).
  - rewrite bind_run, clear_cleared. cbv beta iota. rewrite ret_run. cbn [snd].
    now rewrite sent_cleared.
  - rewrite bind_run. unfold response_json.
    destruct (Http.json r) as [d|]; [|reflexivity].
    rewrite ret_run, bind_run. unfold member.
    destruct (is_nullish d); [reflexivity|].
    rewrite ret_run, bind_run, setState_run. unfold notified, persisted, fetched.
    now destruct (isBrowser w).
Qed.

(** The refresh never throws, and sends its one request. *)
Lemma refresh_runs (w : World) (st : StoredAuthState.t) :
  stored w = Some st ->
  truthy (refresh_token st) = true ->
  exists (v : JsVal) (w2 : World),
    refresh c w = (Returned v, w2)
    /\ sent w2 = (sent w ++ [refresh_call c (refresh_token st)])%list.
Proof.
  intros Hs Ht. rewrite (law_refresh c laws w st Hs Ht), try_catch_run.
  pose proof (attempt_sent st w) as Hsent.
  destruct (attempt c st w) as [[v|e] w1]; cbn [snd] in Hsent.
  - now exists v, w1.
  - unfold refresh_handler. rewrite handler_run. eexists _, _. split; [reflexivity|].
    now rewrite sent_cleared.
Qed.

Lemma get_set (h : Http.Headers) (name value : string) :
  Http.get (Http.set h name value) name = Some value.
Proof. unfold Http.get, Http.set. apply lookup_insert_eq. Qed.

Lemma refreshes_once_of_laws : refreshes_once c.
Proof.
  intros path options w st r1 net Hskip Hs Ht Hn H401.
  set (o1 := first_request c path options st).
  assert (Hs1 : stored (fetched o1 w) = Some st) by exact Hs.
  destruct (refresh_runs (fetched o1 w) st Hs1 Ht) as (v & w2 & Hr & Hsent).
  exists v, w2. split; [exact Hr|].
  assert (Hsent2 : sent w2 = (sent w ++ [o1; refresh_call c (refresh_token st)])%list).
  { rewrite Hsent. cbn [fetched sent]. now rewrite <- app_assoc. }
  split; [exact Hsent2|].
  assert (Hrun : run c path options w =
                 if truthy v
                 then (fetch (second_request c path options st v) ≫= finish c false) w2
                 else finish c false r1 w2).
  { rewrite (law_split c laws), bind_run, (law_talk c laws), bind_run.
    rewrite (getState_stored _ _ Hs), bind_run.
    fold (first_request c path options st). fold o1.
    rewrite (fetch_responds o1 w r1 net Hn).
    rewrite H401, Hskip. change (refresh_of (Some st)) with (refresh_token st).
    rewrite Ht. cbn [Z.eqb Pos.eqb negb andb].
    rewrite bind_run, Hr.
    unfold second_request. destruct (truthy v); reflexivity. }
  destruct (truthy v) eqn:Hv.
  - split; [exact Hrun|]. split.
    + rewrite Hrun, bind_run.
      destruct (fetch_sent (second_request c path options st v) w2) as [Hq _].
      destruct (fetch _ w2) as [[r2|e] w3]; cbn [snd] in Hq.
      * rewrite (law_finish_sent c laws), Hq, Hsent2, <- app_assoc. reflexivity.
      * cbn [snd]. rewrite Hq, Hsent2, <- app_assoc. reflexivity.
    + unfold second_request. rewrite (law_sends c laws). apply get_set.
  - split; [exact Hrun|]. split.
    + now rewrite Hrun, (law_finish_sent c laws).
    + intros data Hread. rewrite Hrun.
      apply (law_finish_401 c laws); assumption.
Qed.

Lemma refresh_contract_of_laws : refresh_contract c.
Proof.
  intros w a r i e n st Hs Hr.
  assert (Ht : truthy (refresh_token st) = true) by now apply truthy_VStr.
  pose proof (stored_browser _ _ Hs) as Hb.
  repeat split.
  - intros r0 net d newA Hn Hok Hj Hp.
    assert (Hd : is_nullish d = false) by (destruct d; cbn in Hp; try discriminate; reflexivity).
    rewrite (law_refresh c laws w st Hs Ht), try_catch_run, (law_attempt c laws), bind_run.
    rewrite (fetch_responds _ w r0 net Hn), Hok. cbn [negb].
    rewrite bind_run. unfold response_json. rewrite Hj, ret_run, bind_run.
    unfold member. rewrite Hd, ret_run, bind_run, setState_run, Hp.
    eexists. split; [reflexivity|].
    rewrite stored_notified. now apply stored_persisted.
  - intros r0 net Hn Hok.
    rewrite (law_refresh c laws w st Hs Ht), try_catch_run, (law_attempt c laws), bind_run.
    rewrite (fetch_responds _ w r0 net Hn), Hok. cbn [negb].
    rewrite bind_run, clear_cleared.
    eexists. split; [reflexivity|]. split; [apply stored_cleared|].
    now rewrite calls_cleared.
  - intros err w1 Ha.
    rewrite (law_refresh c laws w st Hs Ht), try_catch_run, Ha.
    unfold refresh_handler. rewrite handler_run.
    eexists. split; [reflexivity|]. split; [apply stored_cleared|].
    now rewrite calls_cleared.
Qed.

End Laws.

(** *** The typed error and the body *)

Lemma error_message_claimed (status : Z) (data : JsVal) :
  djangoApi.error_message status data = claimed_message status data.
Proof.
  unfold djangoApi.error_message, claimed_message.
  destruct data as [| |b|n|s|items|fields]; try reflexivity.
  - cbn [truthy typeof_object andb prop]. now destruct b.
  - cbn [truthy typeof_object andb prop]. now rewrite andb_false_r.
  - cbn [truthy typeof_object andb prop]. now rewrite andb_false_r.
Qed.

Lemma read_R_claimed (r : Http.Response) (w : World) :
  djangoApi.read_body r w = (claimed_body r, w).
Proof.
  unfold djangoApi.read_body, claimed_body, response_json.
  destruct (Http.content_type r) as [ct|]; [|reflexivity].
  change (default "" (Some ct)) with ct.
  destruct (includes "application/json" ct).
  - destruct (Http.json r); reflexivity.
  - destruct ct; reflexivity.
Qed.

Lemma read_A_json_or_text (r : Http.Response) (w : World) :
  database.read_body r w = (json_or_text r, w).
Proof.
  unfold database.read_body, json_or_text, response_json.
  destruct (includes "application/json" _); [|reflexivity].
  destruct (Http.json r); reflexivity.
Qed.

Lemma frontend_raises_typed_error (base : string) :
  raises_typed_error claimed_message true (frontend base).
Proof.
  intros path options w w1 r data Htalk H204 Hok Hread.
  cbn [run talk read frontend] in *.
  rewrite request_split, bind_run, Htalk. unfold djangoApi.conclude.
  apply Z.eqb_neq in H204. rewrite H204, bind_run, Hread, Hok. cbn [negb andb].
  rewrite bind_run, error_message_claimed.
  fold (skips_auth options).
  destruct ((Http.status r =? 401) && negb (skips_auth options)).
  - now rewrite clear_cleared.
  - reflexivity.
Qed.

Lemma do_smart_ai_raises_error (base : string) :
  raises_typed_error unchecked_message false (do_smart_ai base).
Proof.
  intros path options w w1 r data Htalk H204 Hok Hread.
  cbn [run talk read do_smart_ai] in *.
  rewrite apiRequest_split, bind_run, Htalk. unfold database.conclude.
  apply Z.eqb_neq in H204. rewrite H204, bind_run, Hread, Hok. reflexivity.
Qed.

Lemma frontend_reads_body (base : string) :
  reads_body_as claimed_body (frontend base).
Proof.
  intros path options w w1 r Htalk. cbn [run talk frontend] in *.
  rewrite request_split, bind_run, Htalk. unfold djangoApi.conclude.
  destruct (Http.status r =? 204); [reflexivity|].
  rewrite bind_run, read_R_claimed.
  destruct (claimed_body r) as [data|e]; [|reflexivity].
  destruct (Http.ok r); cbn [negb]; [reflexivity|].
  rewrite bind_run.
  destruct ((Http.status r =? 401) && negb (default false (Http.skipAuth options))).
  - rewrite clear_cleared. eexists _, _. reflexivity.
  - eexists _, _. reflexivity.
Qed.

Lemma do_smart_ai_reads_body (base : string) :
  reads_body_as json_or_text (do_smart_ai base).
Proof.
  intros path options w w1 r Htalk. cbn [run talk do_smart_ai] in *.
  rewrite apiRequest_split, bind_run, Htalk. unfold database.conclude.
  destruct (Http.status r =? 204); [reflexivity|].
  rewrite bind_run, read_A_json_or_text.
  destruct (json_or_text r) as [data|e]; [|reflexivity].
  destruct (Http.ok r); cbn [negb]; [reflexivity|].
  eexists _, _. reflexivity.
Qed.

(** *** The headers *)

Lemma has_get (h : Http.Headers) (name : string) :
  Http.has h name = match Http.get h name with Some _ => true | None => false end.
Proof.
  unfold Http.has, Http.get. destruct (h !! toLowerCase name) as [v|].
  - apply bool_decide_eq_true_2. now exists v.
  - apply bool_decide_eq_false_2. intros [v Hv]. discriminate.
Qed.

Lemma get_set_other (h : Http.Headers) (name other value : string) :
  toLowerCase name <> toLowerCase other ->
  Http.get (Http.set h name value) other = Http.get h other.
Proof. intros Hne. unfold Http.get, Http.set. now apply lookup_insert_ne. Qed.

Lemma frontend_merge_headers (options : Http.RequestOptions) :
  claimed_headers options (djangoApi.merge_headers options).
Proof.
  unfold claimed_headers, djangoApi.merge_headers.
  set (caller := Http.new_Headers (default [] (Http.headers options))).
  fold (takes_body (Http.method options)).
  rewrite (has_get caller "Accept").
  destruct (Http.get caller "Accept") as [accept|] eqn:Ha; cbn [negb default from_option id].
  - rewrite (has_get caller "Content-Type").
    destruct (Http.get caller "Content-Type") as [ct|] eqn:Hc; cbn [negb andb].
    + rewrite andb_false_r. cbn [andb]. now rewrite Ha, Hc.
    + rewrite andb_true_r.
      destruct (negb (Http.is_FormData (Http.body options)) && takes_body (Http.method options)).
      * rewrite get_set_other by discriminate. rewrite get_set. now rewrite Ha.
      * now rewrite Ha, Hc.
  - rewrite (has_get (Http.set caller "Accept" "application/json") "Content-Type").
    rewrite (get_set_other caller "Accept" "Content-Type") by discriminate.
    destruct (Http.get caller "Content-Type") as [ct|] eqn:Hc; cbn [negb andb].
    + rewrite andb_false_r. cbn [andb].
      rewrite get_set, (get_set_other caller "Accept" "Content-Type") by discriminate.
      now rewrite Hc.
    + rewrite andb_true_r.
      destruct (negb (Http.is_FormData (Http.body options)) && takes_body (Http.method options)).
      * rewrite get_set_other by discriminate. now rewrite !get_set.
      * rewrite get_set, (get_set_other caller "Accept" "Content-Type") by discriminate.
        now rewrite Hc.
Qed.

Lemma do_smart_ai_merge_headers (options : Http.RequestOptions) :
  content_type_only options (database.merge_headers options).
Proof.
  unfold content_type_only, database.merge_headers.
  set (caller := Http.new_Headers (default [] (Http.headers options))).
  rewrite (has_get caller "Content-Type").
  destruct (Http.get caller "Content-Type") as [ct|] eqn:Hc; cbn [negb andb].
  - rewrite andb_false_r. now rewrite Hc.
  - rewrite andb_true_r.
    destruct (negb (Http.is_FormData (Http.body options))).
    + rewrite get_set_other by discriminate. now rewrite get_set.
    + now rewrite Hc.
Qed.

(** Attaching the bearer token leaves the other headers alone. *)
Lemma frontend_first_headers (options : Http.RequestOptions)
    (state : option StoredAuthState.t) :
  claimed_headers options (djangoApi.first_headers options state).
Proof.
  pose proof (frontend_merge_headers options) as [Ha Hc].
  unfold djangoApi.first_headers.
  destruct (negb (default false (Http.skipAuth options)) && truthy (access_of state));
    [|now split].
  split; rewrite get_set_other by discriminate; assumption.
Qed.

Lemma do_smart_ai_first_headers (options : Http.RequestOptions)
    (state : option StoredAuthState.t) :
  content_type_only options (database.first_headers options state).
Proof.
  pose proof (do_smart_ai_merge_headers options) as [Ha Hc].
  unfold database.first_headers.
  destruct (negb (default false (Http.skipAuth options)) && truthy (access_of state));
    [|now split].
  split; rewrite get_set_other by discriminate; assumption.
Qed.

Section Sent.

Variable c : Client.
Hypothesis laws : client_laws c.

Lemma talk_sent (path : string) (options : Http.RequestOptions) (w : World) :
  exists more : list Http.Request,
    sent (snd (talk c path options w))
    = (sent w ++ sends c path options (headers_of c options (stored w)) :: more)%list.
Proof.
  rewrite (law_talk c laws), bind_run.
  destruct (getState_run w) as (w0 & Hg & Hs0 & Hst0). rewrite Hg, bind_run.
  set (q := sends c path options (headers_of c options (stored w))).
  destruct (fetch_sent q w0) as [Hq Hw1].
  destruct (fetch q w0) as [[r1|e] w1]; cbn [snd] in Hq, Hw1;
    [|exists []; cbn [snd]; now rewrite Hq, Hs0].
  destruct ((Http.status r1 =? 401) && negb (skips_auth options)
            && truthy (refresh_of (stored w))) eqn:Hcond;
    [|exists []; rewrite ret_run; cbn [snd]; now rewrite Hq, Hs0].
  apply andb_true_iff in Hcond as [_ Ht].
  destruct (stored w) as [st|] eqn:Hst; [|discriminate].
  assert (Hs1 : stored w1 = Some st) by (subst w1; exact Hst0).
  destruct (refresh_runs c laws w1 st Hs1 Ht) as (v & w2 & Hr & Hsent).
  rewrite bind_run, Hr.
  destruct (truthy v).
  - destruct (fetch_sent (sends c path options
                 (Http.set (headers_of c options (Some st)) "Authorization"
                    ("Bearer " +:+ to_String v))) w2) as [Hq2 _].
    eexists. rewrite Hq2, Hsent, Hq, Hs0, <- !app_assoc. reflexivity.
  - eexists. rewrite ret_run. cbn [snd]. rewrite Hsent, Hq, Hs0, <- !app_assoc. reflexivity.
Qed.

Lemma run_sent (path : string) (options : Http.RequestOptions) (w : World) :
  exists more : list Http.Request,
    sent (snd (run c path options w))
    = (sent w ++ sends c path options (headers_of c options (stored w)) :: more)%list.
Proof.
  destruct (talk_sent path options w) as [more Hm]. exists more.
  rewrite (law_split c laws), bind_run.
  destruct (talk c path options w) as [[r|e] w1]; cbn [snd] in Hm.
  - now rewrite (law_finish_sent c laws).
  - exact Hm.
Qed.

End Sent.

Lemma frontend_sends_headers (base : string) :
  sends_headers claimed_headers (frontend base).
Proof.
  intros path options w.
  destruct (run_sent _ (frontend_laws base) path options w) as [more Hm].
  eexists _, more. split; [exact Hm|]. apply frontend_first_headers.
Qed.

Lemma do_smart_ai_sends_headers (base : string) :
  sends_headers content_type_only (do_smart_ai base).
Proof.
  intros path options w.
  destruct (run_sent _ (do_smart_ai_laws base) path options w) as [more Hm].
  eexists _, more. split; [exact Hm|]. apply do_smart_ai_first_headers.
Qed.

(** ** The assistant *)

Lemma agree_40 : agree_up_to 40 = true.
Proof. vm_compute. reflexivity. Qed.

Lemma percentage_rounded (c t : nat) :
  (c <= t)%nat -> (t < 40)%nat -> database.percentage_of c t = rounded_percentage c t.
Proof.
  intros Hc Ht. pose proof agree_40 as H. unfold agree_up_to in H.
  rewrite forallb_forall in H. specialize (H t).
  assert (Hin : In t (seq 0 40)) by (apply in_seq; lia).
  specialize (H Hin). rewrite forallb_forall in H.
  apply Z.eqb_eq. apply H. apply in_seq. lia.
Qed.

Lemma completed_le (tasks : list Task.t) : (completed tasks <= length tasks)%nat.
Proof.
  unfold completed. induction tasks as [|t tasks IH]; [reflexivity|].
  cbn [List.filter]. destruct (database.is_str _ _); cbn [length]; lia.
Qed.

(** On the progress branch the answer is the report, whatever the clock and
    the random generator say. *)
Lemma progress_is_pure (overdue : Task.t -> bool) (random : nat) (message : string)
    (tasks : list Task.t) :
  on_progress_branch (toLowerCase message) = true ->
  database.askAssistant overdue random message tasks =
  database.progress_report (completed tasks) (length tasks)
    (database.percentage_of (completed tasks) (length tasks)).
Proof.
  unfold on_progress_branch, database.askAssistant. intros H.
  apply andb_true_iff in H as [Hp Hn]. apply negb_true_iff in Hn.
  repeat (apply orb_false_iff in Hn as [Hn ?]).
  rewrite Hn, H2, H1, H0, H, Hp. reflexivity.
Qed.

(** ** Normalization, login and the current user *)

Lemma coalesce_defined (a b : JsVal) : b <> VUndefined -> a ?? b <> VUndefined.
Proof. unfold coalesce. destruct a; cbn; congruence. Qed.

Lemma frontend_task : claimed_task (djangoApi.normalizeTask).
Proof.
  intros fields w. eexists. split; [reflexivity|].
  cbn [prop]. split; [|split].
  - unfold all_defined. cbn [Task.id Task.title Task.description Task.dueDate
      Task.priority Task.status Task.createdAt Task.updatedAt Task.userId].
    repeat split; try (apply coalesce_defined; discriminate); try discriminate.
    destruct (negb _); discriminate.
  - unfold claimed_defaults, absent. cbn [Task.id Task.title Task.description Task.dueDate
      Task.priority Task.status Task.createdAt Task.updatedAt Task.userId].
    repeat split; try (intros ->; reflexivity).
  - unfold claimed_userId. cbn [Task.userId]. split; intros x ->; reflexivity.
Qed.

Lemma do_smart_ai_task : loose_task (database.normalizeTask).
Proof.
  intros fields w. eexists. split; [reflexivity|].
  cbn [prop]. unfold claimed_defaults, absent.
  cbn [Task.id Task.title Task.description Task.dueDate
      Task.priority Task.status Task.createdAt Task.updatedAt Task.userId].
  repeat split; try (intros ->; reflexivity); try (apply coalesce_defined; discriminate);
    try discriminate.
  destruct (truthy _); discriminate.
Qed.


Lemma updateUser_stored (user : User.t) (w : World) (st : StoredAuthState.t) :
  stored w = Some st ->
  authStore.updateUser user w
  = (Returned tt, notified (Some (with_user st user)) (persisted (with_user st user) w)).
Proof.
  intros Hs. unfold authStore.updateUser. rewrite bind_run.
  rewrite (readStorage_stored _ _ Hs). rewrite bind_run, writeStorage_some.
  apply notify_run.
Qed.

Lemma updateUser_returns (user : User.t) (w : World) :
  fst (authStore.updateUser user w) = Returned tt.
Proof.
  unfold authStore.updateUser. rewrite bind_run.
  destruct (getState_run w) as (w0 & Hg & _). unfold authStore.getState in Hg.
  rewrite Hg. destruct (stored w) as [st|]; [|reflexivity].
  rewrite bind_run, writeStorage_some, notify_run. reflexivity.
Qed.

Lemma updateUser_absent (user : User.t) (w : World) :
  stored w = None ->
  stored (snd (authStore.updateUser user w)) = None
  /\ calls (snd (authStore.updateUser user w)) = calls w.
Proof.
  intros Hs. unfold authStore.updateUser. rewrite bind_run.
  unfold authStore.readStorage, stored in *.
  rewrite bind_run. unfold window_defined.
  destruct (isBrowser w) eqn:Hb; cbn [negb]; [|cbn; now rewrite Hb].
  rewrite try_catch_run, bind_run. unfold getItem.
  destruct (localStorage w !! authStore.STORAGE_KEY) as [raw|] eqn:Hraw;
    [|cbn; now rewrite Hb, Hraw].
  destruct (String.eqb raw "") eqn:He; [cbn; now rewrite Hb, Hraw, He|].
  rewrite bind_run. unfold parse_json.
  destruct (JSON_parse raw) as [v|] eqn:Hp.
  - rewrite !ret_run, Hs. cbn. now rewrite Hb, Hraw, He, Hp.
  - rewrite throw_run, bind_run. unfold log at 1. rewrite ret_run.
    cbn. now rewrite Hb, Hraw, He, Hp.
Qed.

Lemma frontend_current_user (base : string) :
  current_user_contract (djangoApi.getCurrentUser base)
    (djangoApi.request base "/auth/me/" Http.no_options) frontend_user.
Proof.
  intros w.
  destruct (djangoApi.request base "/auth/me/" Http.no_options w) as [[data|e] w1] eqn:Hme.
  - destruct (is_nullish data) eqn:Hd.
    + assert (E : djangoApi.getCurrentUser base w = (Thrown TypeError, w1)).
      { unfold djangoApi.getCurrentUser. rewrite try_catch_run, bind_run, Hme, bind_run.
        unfold member. rewrite Hd, throw_run. reflexivity. }
      split; [exact E|]. intros ? ? ? H. rewrite E in H. discriminate H.
    + assert (E : djangoApi.getCurrentUser base w
                  = (Returned (Some (frontend_user data)),
                     snd (authStore.updateUser (frontend_user data) w1))).
      { unfold djangoApi.getCurrentUser. rewrite try_catch_run, bind_run, Hme, bind_run.
        unfold member. rewrite Hd, ret_run, bind_run.
        unfold djangoApi.normalizeUser, reading. cbn [is_nullish]. rewrite ret_run, bind_run.
        change (User.mk _ _ _) with (frontend_user data).
        pose proof (updateUser_returns (frontend_user data) w1) as Hu.
        destruct (authStore.updateUser (frontend_user data) w1) as [o w2].
        cbn [fst] in Hu. subst o. reflexivity. }
      split; [exact E|]. intros ? ? ? H. rewrite E in H. discriminate H.
  - destruct (is_unauthorized e) eqn:He.
    + assert (E : djangoApi.getCurrentUser base w = (Returned None, cleared w1)).
      { unfold djangoApi.getCurrentUser. rewrite try_catch_run, bind_run, Hme, He.
        rewrite bind_run, clear_cleared. reflexivity. }
      split; [exact E|]. intros ? ? ? H. rewrite E in H. discriminate H.
    + assert (E : djangoApi.getCurrentUser base w = (Thrown e, w1)).
      { unfold djangoApi.getCurrentUser. rewrite try_catch_run, bind_run, Hme, He.
        reflexivity. }
      split; [exact E|]. intros ? ? ? H. rewrite E in H.
      injection H as -> _. cbn in He. discriminate He.
Qed.

Lemma do_smart_ai_current_user (base : string) :
  current_user_contract (database.getCurrentUser base)
    (database.apiRequest base "/auth/me/" Http.no_options) do_smart_ai_user.
Proof.
  intros w.
  destruct (database.apiRequest base "/auth/me/" Http.no_options w) as [[data|e] w1] eqn:Hme.
  - destruct (is_nullish data) eqn:Hd.
    + assert (E : database.getCurrentUser base w = (Thrown TypeError, w1)).
      { unfold database.getCurrentUser. rewrite try_catch_run, bind_run, Hme, bind_run.
        unfold database.normalizeUser, reading. rewrite Hd, throw_run. reflexivity. }
      split; [exact E|]. intros ? ? ? H. rewrite E in H. discriminate H.
    + assert (E : database.getCurrentUser base w
                  = (Returned (Some (do_smart_ai_user data)),
                     snd (authStore.updateUser (do_smart_ai_user data) w1))).
      { unfold database.getCurrentUser, database.authStore.updateUser.
        rewrite try_catch_run, bind_run, Hme, bind_run.
        unfold database.normalizeUser, reading. rewrite Hd, ret_run, bind_run.
        change (User.mk _ _ _) with (do_smart_ai_user data).
        pose proof (updateUser_returns (do_smart_ai_user data) w1) as Hu.
        destruct (authStore.updateUser (do_smart_ai_user data) w1) as [o w2].
        cbn [fst] in Hu. subst o. reflexivity. }
      split; [exact E|]. intros ? ? ? H. rewrite E in H. discriminate H.
  - destruct (is_unauthorized e) eqn:He.
    + assert (E : database.getCurrentUser base w = (Returned None, cleared w1)).
      { unfold database.getCurrentUser, database.authStore.clear.
        rewrite try_catch_run, bind_run, Hme, He.
        rewrite bind_run, clear_cleared. reflexivity. }
      split; [exact E|]. intros ? ? ? H. rewrite E in H. discriminate H.
    + assert (E : database.getCurrentUser base w = (Thrown e, w1)).
      { unfold database.getCurrentUser. rewrite try_catch_run, bind_run, Hme, He.
        reflexivity. }
      split; [exact E|]. intros ? ? ? H. rewrite E in H.
      injection H as -> _. cbn in He. discriminate He.
Qed.

(** ** The model on concrete inputs *)

Example String_of_a_numeric_id : to_String (VNum 7) = "7".
Proof. reflexivity. Qed.

Example String_of_an_array : to_String (VArr [VNum 1; VNull; VStr "a"]) = "1,,a".
Proof. reflexivity. Qed.

Example parse_reads_an_array :
  JSON_parse " [1, -2 ,30] " = Some (VArr [VNum 1; VNum (-2); VNum 30]).
Proof. vm_compute. reflexivity. Qed.

Example parse_refuses_truncated_text : JSON_parse "{oops" = None.
Proof. vm_compute. reflexivity. Qed.

Example parse_refuses_a_leading_zero : JSON_parse "[01]" = None.
Proof. vm_compute. reflexivity. Qed.

Example stringify_then_parse :
  let v := VObj [("list", VArr [VNull; VBool true; VStr "tab	and \ slash"]);
                 ("count", VNum (-12)); ("inner", VObj [])] in
  JSON_parse (serialize v) = Some v.
Proof. vm_compute. reflexivity. Qed.

Example stringify_drops_undefined :
  JSON_parse (serialize (VObj [("a", VUndefined); ("b", VNum 1)]))
  = Some (VObj [("b", VNum 1)]).
Proof. vm_compute. reflexivity. Qed.

(** A corrupt slot reads as no session, and the failure is logged. *)
Example corrupt_slot_reads_null :
  let w := mkWorld true {[ authStore.STORAGE_KEY := "{oops" ]} [] [] [] [] [] in
  fst (authStore.getState w) = Returned None
  /\ console (snd (authStore.getState w)) = ["Failed to read auth storage"].
Proof. vm_compute. split; reflexivity. Qed.

(** Outside a browser nothing is stored. *)
Example no_window_no_session :
  let w := mkWorld false ∅ [] [] [] [] [] in
  stored (snd (authStore.setState example_state w)) = None.
Proof. vm_compute. reflexivity. Qed.

Example subscribe_twice_is_once :
  listeners (snd (authStore.subscribe 1%nat (snd (authStore.subscribe 1%nat
                (mkWorld true ∅ [] [] [] [] []))))) = [1%nat].
Proof. vm_compute. reflexivity. Qed.

(** Without a 401 nothing is refreshed: one request, with the bearer token. *)
Example no_refresh_without_401 :
  let w := logged_in [Http.Responds no_tasks] in
  let w' := snd (djangoApi.request example_base "tasks/" Http.no_options w) in
  fst (djangoApi.request example_base "tasks/" Http.no_options w) = Returned (VArr [])
  /\ List.map Http.url (sent w') = ["http://localhost:8000/api/tasks/"]
  /\ List.map (fun q => Http.get (Http.req_headers q) "Authorization") (sent w')
     = [Some "Bearer A1"]
  /\ stored w' = Some example_state.
Proof. vm_compute. repeat split; reflexivity. Qed.

(** A 204 yields [undefined]. *)
Example delete_yields_undefined :
  let w := logged_in [Http.Responds (Http.mkResponse 204 None None "")] in
  fst (djangoApi.request example_base "/tasks/3/"
         (Http.mkOptions None None (Some "DELETE") None) w) = Returned VUndefined.
Proof. vm_compute. reflexivity. Qed.

Example percentage_of_23_in_40 :
  database.percentage_of 23 40 = 57 /\ rounded_percentage 23 40 = 58.
Proof. vm_compute. split; reflexivity. Qed.

Example percentage_of_an_empty_list : database.percentage_of 0 0 = 0.
Proof. reflexivity. Qed.
(** * Further properties of the store, the clients and their callers *)

Import Further.

(** ** The session store: listeners, and the store without a browser *)

Lemma heard_app (l : Listener) (w : World) (more : list (Listener * option StoredAuthState.t)) :
  heard l (mkWorld (isBrowser w) (localStorage w) (listeners w) (calls w ++ more)
                   (network w) (sent w) (console w))
  = (heard l w ++ List.map snd (List.filter (fun c => Nat.eqb (fst c) l) more))%list.
Proof.
  unfold heard. cbn [calls]. rewrite List.filter_app, List.map_app. reflexivity.
Qed.

Lemma heard_absent (l : Listener) (state : option StoredAuthState.t) (ls : list Listener) :
  l ∉ ls ->
  List.filter (fun c => Nat.eqb (fst c) l) (List.map (fun x => (x, state)) ls) = [].
Proof.
  induction ls as [|x ls IH]; intros Hl; [reflexivity|].
  cbn [List.map List.filter fst].
  destruct (Nat.eqb_spec x l) as [->|Hx].
  - exfalso. apply Hl. left.
  - apply IH. intros Hin. apply Hl. right. exact Hin.
Qed.

Lemma heard_once (l : Listener) (state : option StoredAuthState.t) (ls : list Listener) :
  NoDup ls -> l ∈ ls ->
  List.map snd (List.filter (fun c => Nat.eqb (fst c) l) (List.map (fun x => (x, state)) ls))
  = [state].
Proof.
  induction 1 as [|x ls Hx Hnd IH]; intros Hl.
  - inversion Hl.
  - cbn [List.map List.filter fst].
    destruct (Nat.eqb_spec x l) as [->|Hxl].
    + cbn [List.map snd]. rewrite heard_absent by exact Hx. reflexivity.
    + apply IH. inversion Hl; subst; [congruence | assumption].
Qed.

Lemma heard_notified (l : Listener) (state : option StoredAuthState.t) (w : World) :
  heard l (notified state w)
  = (heard l w ++ List.map snd (List.filter (fun c => Nat.eqb (fst c) l)
                                  (List.map (fun x => (x, state)) (listeners w))))%list.
Proof. unfold notified. apply heard_app. Qed.

Lemma subscribe_run (l : Listener) (w : World) :
  authStore.subscribe l w
  = (Returned tt,
     mkWorld (isBrowser w) (localStorage w)
             (if bool_decide (l ∈ listeners w) then listeners w else (listeners w ++ [l])%list)
             (calls w) (network w) (sent w) (console w)).
Proof. reflexivity. Qed.

Lemma unsubscribe_run (l : Listener) (w : World) :
  authStore.unsubscribe l w
  = (Returned tt,
     mkWorld (isBrowser w) (localStorage w) (filter (fun x => x ≠ l) (listeners w))
             (calls w) (network w) (sent w) (console w)).
Proof. reflexivity. Qed.

Lemma subscribed_NoDup (l : Listener) (ls : list Listener) :
  NoDup ls -> NoDup (if bool_decide (l ∈ ls) then ls else (ls ++ [l])%list).
Proof.
  intros Hnd. destruct (bool_decide_reflect (l ∈ ls)) as [Hin|Hin]; [exact Hnd|].
  apply NoDup_app. split; [exact Hnd|]. split.
  - intros x Hx Hx'. apply list_elem_of_singleton in Hx'. subst. contradiction.
  - apply NoDup_singleton.
Qed.

Lemma subscribed_elem (l : Listener) (ls : list Listener) :
  l ∈ (if bool_decide (l ∈ ls) then ls else (ls ++ [l])%list).
Proof.
  destruct (bool_decide_reflect (l ∈ ls)) as [Hin|Hin]; [exact Hin|].
  apply elem_of_app. right. apply list_elem_of_singleton. reflexivity.
Qed.

Lemma heard_persisted (l : Listener) (st : StoredAuthState.t) (w : World) :
  heard l (persisted st w) = heard l w.
Proof. unfold persisted. destruct (isBrowser w); reflexivity. Qed.

Lemma heard_erased (l : Listener) (w : World) : heard l (erased w) = heard l w.
Proof. unfold erased. destruct (isBrowser w); reflexivity. Qed.

Lemma listeners_persisted (st : StoredAuthState.t) (w : World) :
  listeners (persisted st w) = listeners w.
Proof. unfold persisted. destruct (isBrowser w); reflexivity. Qed.

Lemma listeners_erased (w : World) : listeners (erased w) = listeners w.
Proof. unfold erased. destruct (isBrowser w); reflexivity. Qed.

(** X1. [subscribe], [notify] and [unsubscribe] of the store. With the
    listeners a set (no listener twice), a listener that subscribes, even
    one that was subscribed already, is called exactly once by the next
    [setState], with the state set, and exactly once by the next [clear],
    with [null]; the set stays without duplicates. Once it has
    unsubscribed, [setState] and [clear] call it no more. *)
Theorem subscribed_listener_is_called_once (l : Listener) (st : StoredAuthState.t)
    (w : World) :
  NoDup (listeners w) ->
  let subscribed := snd (authStore.subscribe l w) in
  let unsubscribed := snd (authStore.unsubscribe l subscribed) in
  NoDup (listeners subscribed)
  /\ heard l (snd (authStore.setState st subscribed)) = (heard l w ++ [Some st])%list
  /\ heard l (snd (authStore.clear subscribed)) = (heard l w ++ [None])%list
  /\ heard l (snd (authStore.setState st unsubscribed)) = heard l w
  /\ heard l (snd (authStore.clear unsubscribed)) = heard l w.
Proof.
  intros Hnd subscribed unsubscribed.
  assert (Hs : NoDup (listeners subscribed))
    by (apply (subscribed_NoDup l _ Hnd)).
  assert (Hin : l ∈ listeners subscribed) by (apply subscribed_elem).
  assert (Hout : l ∉ listeners unsubscribed).
  { unfold unsubscribed. rewrite unsubscribe_run. cbn [snd listeners].
    intros Hl. apply list_elem_of_filter in Hl. destruct Hl as [Hl _]. congruence. }
  assert (Hh : heard l subscribed = heard l w) by reflexivity.
  assert (Hu : heard l unsubscribed = heard l w) by reflexivity.
  split; [exact Hs|].
  repeat split.
  - rewrite setState_run. cbn [snd]. rewrite heard_notified, heard_persisted, Hh.
    rewrite listeners_persisted, (heard_once l (Some st) _ Hs Hin). reflexivity.
  - rewrite clear_run. cbn [snd]. rewrite heard_notified, heard_erased, Hh.
    rewrite listeners_erased, (heard_once l None _ Hs Hin). reflexivity.
  - rewrite setState_run. cbn [snd]. rewrite heard_notified, heard_persisted, Hu.
    rewrite listeners_persisted, (heard_absent l (Some st) _ Hout).
    apply app_nil_r.
  - rewrite clear_run. cbn [snd]. rewrite heard_notified, heard_erased, Hu.
    rewrite listeners_erased, (heard_absent l None _ Hout).
    apply app_nil_r.
Qed.

Lemma subscribed_listener_is_called_once_witness :
  NoDup (listeners example_world)
  /\ heard 2%nat (snd (authStore.setState example_state
                        (snd (authStore.subscribe 2%nat example_world))))
     = [Some example_state]
  /\ heard 2%nat (snd (authStore.clear
                        (snd (authStore.unsubscribe 2%nat
                                (snd (authStore.subscribe 2%nat example_world))))))
     = [].
Proof.
  assert (Hnd : NoDup (listeners example_world)).
  { cbn [example_world listeners]. apply NoDup_cons. split.
    - intros H. apply list_elem_of_singleton in H. discriminate H.
    - apply NoDup_singleton. }
  split; [exact Hnd|].
  destruct (subscribed_listener_is_called_once 2%nat example_state example_world Hnd)
    as (_ & H1 & _ & _ & H2).
  split; [exact H1 | exact H2].
Defined.

Lemma getTokens_run (w : World) :
  authStore.getTokens w
  = (Returned (StoredAuthState.tokens <$> stored w), snd (authStore.getState w)).
Proof.
  unfold authStore.getTokens. rewrite bind_run.
  destruct (getState_world w) as (w0 & Hg & _).
  unfold authStore.getState in Hg. unfold authStore.getState. rewrite Hg. reflexivity.
Qed.

(** X2. The store where there is no [window] (server-side rendering):
    [getState] and [getTokens] return [null], [updateUser] does nothing,
    and [setState] and [clear] write nothing, while they still call every
    listener, with the state set and with [null]. *)
Theorem store_without_a_browser (st : StoredAuthState.t) (user : User.t) (w : World) :
  isBrowser w = false ->
  authStore.getState w = (Returned None, w)
  /\ authStore.getTokens w = (Returned None, w)
  /\ authStore.updateUser user w = (Returned tt, w)
  /\ localStorage (snd (authStore.setState st w)) = localStorage w
  /\ calls (snd (authStore.setState st w))
     = (calls w ++ List.map (fun l => (l, Some st)) (listeners w))%list
  /\ stored (snd (authStore.setState st w)) = None
  /\ localStorage (snd (authStore.clear w)) = localStorage w
  /\ calls (snd (authStore.clear w))
     = (calls w ++ List.map (fun l => (l, None)) (listeners w))%list.
Proof.
  intros Hb.
  assert (Hg : authStore.getState w = (Returned None, w))
    by (apply readStorage_none; left; exact Hb).
  assert (Hs : stored w = None) by (unfold stored; rewrite Hb; reflexivity).
  split; [exact Hg|]. split.
  { rewrite getTokens_run, Hs, Hg. reflexivity. }
  split.
  { unfold authStore.updateUser. rewrite bind_run.
    unfold authStore.getState in Hg. rewrite Hg. reflexivity. }
  rewrite setState_run, clear_run. unfold persisted, erased. rewrite Hb.
  cbn [snd]. rewrite stored_notified.
  split; [reflexivity|]. split; [reflexivity|]. split; [exact Hs|].
  split; reflexivity.
Qed.

Lemma store_without_a_browser_witness :
  let w := mkWorld false ∅ [1%nat] [] [] [] [] in
  isBrowser w = false
  /\ authStore.getState w = (Returned None, w)
  /\ calls (snd (authStore.setState example_state w)) = [(1%nat, Some example_state)].
Proof.
  intros w.
  destruct (store_without_a_browser example_state (typed_user "7" "a@b.com" "Ann") w
              eq_refl) as (H1 & _ & _ & _ & H2 & _).
  split; [reflexivity|]. split; [exact H1 | exact H2].
Defined.

Lemma stored_written (w : World) (state : option StoredAuthState.t) :
  written w state -> stored w = state.
Proof.
  destruct state as [st|]; cbn [written]; unfold slot, stored.
  - intros (Hb & Hs & a & r & i & e & n & -> & _).
    rewrite Hb, Hs, serialize_state_nonempty, parse_stringify_typed_state. reflexivity.
  - intros [Hb | [Hs | Hs]].
    + rewrite Hb. reflexivity.
    + rewrite Hs. destruct (isBrowser w); reflexivity.
    + rewrite Hs. destruct (isBrowser w); reflexivity.
Qed.

Lemma getState_written (w : World) (state : option StoredAuthState.t) :
  written w state -> authStore.getState w = (Returned state, w).
Proof.
  intros Hw. pose proof (stored_written w state Hw) as Hs.
  destruct state as [st|]; [apply getState_stored; exact Hs|].
  cbn [written] in Hw. unfold slot in Hw.
  destruct (isBrowser w) eqn:Hb; [|apply readStorage_none; left; exact Hb].
  destruct Hw as [Hw | [Hw | Hw]]; [discriminate Hw | apply readStorage_none; right; exact Hw|].
  unfold authStore.getState, authStore.readStorage.
  rewrite bind_run. unfold window_defined. rewrite Hb. cbn [negb].
  rewrite try_catch_run, bind_run. unfold getItem. rewrite Hw. reflexivity.
Qed.

Lemma parse_value_refuses (fuel : nat) (s rest : string) (c : ascii) :
  skip_ws s = String c rest -> opens_value c = false -> parse_value fuel s = None.
Proof.
  intros Hs Hc. destruct fuel as [|fuel]; [reflexivity|].
  cbn [parse_value]. rewrite Hs.
  destruct c as [[] [] [] [] [] [] [] []];
    first [discriminate Hc | reflexivity].
Qed.

Lemma cannot_be_JSON_parse (raw : string) :
  cannot_be_JSON raw = true -> JSON_parse raw = None.
Proof.
  unfold cannot_be_JSON, JSON_parse. intros H.
  destruct (skip_ws raw) as [|c rest] eqn:Hs.
  - cbn [parse_value]. rewrite Hs. reflexivity.
  - apply negb_true_iff in H. rewrite (parse_value_refuses _ raw rest c Hs H). reflexivity.
Qed.

(** X3. Reading the slot is tolerant. [getState] never throws and changes
    neither the slot nor the listeners' record nor the network, whatever the
    slot holds. From a slot the store left it returns the session written,
    or [null] when there is none, and [getTokens] the tokens of that
    session. When the slot holds a text that is no JSON text (a blank one,
    or one that starts with what opens no JSON value) it returns [null] and
    reports the failure on the console once. *)
Theorem getState_is_tolerant (w : World) :
  (exists (v : option StoredAuthState.t) (w' : World),
     authStore.getState w = (Returned v, w')
     /\ localStorage w' = localStorage w
     /\ listeners w' = listeners w
     /\ calls w' = calls w
     /\ network w' = network w
     /\ sent w' = sent w)
  /\ (forall state : option StoredAuthState.t,
        written w state ->
        authStore.getState w = (Returned state, w)
        /\ authStore.getTokens w = (Returned (StoredAuthState.tokens <$> state), w))
  /\ (forall raw : string,
        isBrowser w = true ->
        slot w = Some raw ->
        raw <> "" ->
        cannot_be_JSON raw = true ->
        authStore.getState w
        = (Returned None, logged "Failed to read auth storage" w)
        /\ authStore.getTokens w
           = (Returned None, logged "Failed to read auth storage" w)).
Proof.
  split; [|split].
  - destruct (getState_world w) as (w0 & Hg & Hw0).
    exists (stored w), w0. split; [exact Hg|].
    destruct Hw0 as [-> | ->]; repeat split.
  - intros state Hw. pose proof (getState_written w state Hw) as Hg.
    split; [exact Hg|].
    rewrite getTokens_run, Hg, (stored_written w state Hw). reflexivity.
  - intros raw Hb Hraw Hne Hc. pose proof (cannot_be_JSON_parse raw Hc) as Hp.
    assert (Hs : stored w = None).
    { unfold stored. unfold slot in Hraw. rewrite Hb, Hraw, Hp.
      destruct (String.eqb raw ""); reflexivity. }
    assert (Hrun : authStore.getState w
                   = (Returned None, logged "Failed to read auth storage" w)).
    { unfold authStore.getState, authStore.readStorage.
      rewrite bind_run. unfold window_defined. rewrite Hb. cbn [negb].
      rewrite try_catch_run, bind_run. unfold getItem.
      unfold slot in Hraw. rewrite Hraw.
      apply String.eqb_neq in Hne. rewrite Hne.
      rewrite bind_run. unfold parse_json. rewrite Hp, throw_run.
      rewrite bind_run. reflexivity. }
    split; [exact Hrun|].
    rewrite getTokens_run, Hrun, Hs. reflexivity.
Qed.

Lemma getState_is_tolerant_witness :
  let w := mkWorld true {[ authStore.STORAGE_KEY := "<html>oops" ]} [] [] [] [] [] in
  written (logged_in []) (Some example_state)
  /\ authStore.getState (logged_in []) = (Returned (Some example_state), logged_in [])
  /\ cannot_be_JSON "<html>oops" = true
  /\ authStore.getState w = (Returned None, logged "Failed to read auth storage" w).
Proof.
  intros w.
  assert (Hw : written (logged_in []) (Some example_state)).
  { split; [reflexivity|]. split; [reflexivity|].
    exists "A1", "R1", "7", "a@b.com", "Ann". split; reflexivity. }
  destruct (getState_is_tolerant (logged_in [])) as (_ & H & _).
  destruct (getState_is_tolerant w) as (_ & _ & H').
  split; [exact Hw|]. split; [exact (proj1 (H _ Hw))|]. split; [reflexivity|].
  exact (proj1 (H' "<html>oops" eq_refl eq_refl ltac:(discriminate) eq_refl)).
Defined.

(** ** The request functions: when nothing is refreshed *)

Lemma client_has_laws (c : Client) : is_client c -> client_laws c.
Proof.
  intros (base & [-> | ->]); [apply frontend_laws | apply do_smart_ai_laws].
Qed.

Lemma fetch_fails (req : Http.Request) (w : World) :
  network w = [] \/ (exists net, network w = Http.Fails :: net) ->
  fetch req w = (Thrown FetchError, fetched req w).
Proof.
  intros [H | (net & H)]; unfold fetch, fetched; rewrite H; reflexivity.
Qed.

Lemma finish_world (c : Client) (b : bool) (r : Http.Response) (w : World) :
  is_client c ->
  snd (finish c b r w) = w
  \/ (b = false /\ Http.status r = 401 /\ snd (finish c b r w) = cleared w).
Proof.
  intros (base & [-> | ->]); cbn [finish frontend do_smart_ai].
  - unfold djangoApi.conclude.
    destruct (Http.status r =? 204) eqn:E204; [left; reflexivity|].
    rewrite bind_run, read_R_claimed.
    destruct (claimed_body r) as [data | e]; [|left; reflexivity].
    destruct (negb (Http.ok r)); [|left; reflexivity].
    rewrite bind_run.
    destruct (Http.status r =? 401) eqn:E401; cbn [andb].
    + destruct b; cbn [negb].
      * left. reflexivity.
      * right. rewrite clear_cleared. cbv beta iota. rewrite throw_run.
        apply Z.eqb_eq in E401. repeat split. exact E401.
    + left. reflexivity.
  - left. unfold database.conclude.
    destruct (Http.status r =? 204); [reflexivity|].
    rewrite bind_run, read_A_json_or_text.
    destruct (json_or_text r) as [data | e]; [|reflexivity].
    destruct (negb (Http.ok r)); reflexivity.
Qed.

Section Single.

Variable c : Client.
Hypothesis laws : client_laws c.

Lemma talk_single (path : string) (options : Http.RequestOptions) (w : World)
    (r : Http.Response) (net : list Http.FetchResult) :
  network w = Http.Responds r :: net ->
  Http.status r <> 401 \/ skips_auth options = true
  \/ truthy (refresh_of (stored w)) = false ->
  exists w0,
    (w0 = w \/ w0 = logged "Failed to read auth storage" w)
    /\ talk c path options w = (Returned r, fetched (opening c path options w) w0).
Proof.
  intros Hn Hcase.
  destruct (getState_world w) as (w0 & Hg & Hw0).
  exists w0. split; [exact Hw0|].
  rewrite (law_talk c laws), bind_run, Hg, bind_run.
  assert (Hn0 : network w0 = Http.Responds r :: net) by (destruct Hw0 as [-> | ->]; exact Hn).
  rewrite (fetch_responds _ w0 r net Hn0).
  assert (Hc : (Http.status r =? 401) && negb (skips_auth options)
               && truthy (refresh_of (stored w)) = false).
  { destruct Hcase as [H | [H | H]].
    - apply Z.eqb_neq in H. rewrite H. reflexivity.
    - rewrite H. cbn [negb]. rewrite andb_false_r. reflexivity.
    - rewrite H. apply andb_false_r. }
  rewrite Hc. reflexivity.
Qed.

Lemma talk_fails (path : string) (options : Http.RequestOptions) (w : World) :
  network w = [] \/ (exists net, network w = Http.Fails :: net) ->
  exists w0,
    (w0 = w \/ w0 = logged "Failed to read auth storage" w)
    /\ talk c path options w = (Thrown FetchError, fetched (opening c path options w) w0).
Proof.
  intros Hn.
  destruct (getState_world w) as (w0 & Hg & Hw0).
  exists w0. split; [exact Hw0|].
  rewrite (law_talk c laws), bind_run, Hg, bind_run.
  assert (Hn0 : network w0 = [] \/ (exists net, network w0 = Http.Fails :: net))
    by (destruct Hw0 as [-> | ->]; exact Hn).
  rewrite (fetch_fails _ w0 Hn0). reflexivity.
Qed.

End Single.

(** X4. A call of [request] or [apiRequest], made where the slot is as the
    store left it, whose first response is not a 401, or that skips auth, or
    that finds no refresh token in the slot, runs no refresh: it sends
    exactly one request, leaves the slot and the listeners alone while it
    talks to the server, and ends with what it makes of that first
    response. *)
Theorem no_refresh_without_need (c : Client) (path : string)
    (options : Http.RequestOptions) (w : World) (state : option StoredAuthState.t)
    (r : Http.Response) (net : list Http.FetchResult) :
  is_client c ->
  written w state ->
  network w = Http.Responds r :: net ->
  Http.status r <> 401 \/ skips_auth options = true
  \/ truthy (refresh_of state) = false ->
  let q := sends c path options (headers_of c options state) in
  talk c path options w = (Returned r, fetched q w)
  /\ run c path options w = finish c (skips_auth options) r (fetched q w)
  /\ sent (snd (run c path options w)) = (sent w ++ [q])%list.
Proof.
  intros Hc Hw Hn Hcase q. pose proof (client_has_laws c Hc) as laws.
  pose proof (stored_written w state Hw) as Hs.
  assert (Ht : talk c path options w = (Returned r, fetched q w)).
  { rewrite (law_talk c laws), bind_run, (getState_written w state Hw), bind_run.
    fold q. rewrite (fetch_responds q w r net Hn).
    assert (Hno : (Http.status r =? 401) && negb (skips_auth options)
                  && truthy (refresh_of state) = false).
    { destruct Hcase as [H | [H | H]].
      - apply Z.eqb_neq in H. rewrite H. reflexivity.
      - rewrite H. cbn [negb]. rewrite andb_false_r. reflexivity.
      - rewrite H. apply andb_false_r. }
    rewrite Hno. reflexivity. }
  assert (Hrun : run c path options w = finish c (skips_auth options) r (fetched q w)).
  { rewrite (law_split c laws), bind_run, Ht. reflexivity. }
  split; [exact Ht|]. split; [exact Hrun|].
  rewrite Hrun, (law_finish_sent c laws). reflexivity.
Qed.

Lemma no_refresh_without_need_witness :
  let c := frontend example_base in
  let w := logged_in [Http.Responds no_tasks] in
  let q := sends c "/tasks/" Http.no_options (headers_of c Http.no_options (Some example_state)) in
  written w (Some example_state)
  /\ talk c "/tasks/" Http.no_options w = (Returned no_tasks, fetched q w)
  /\ sent (snd (run c "/tasks/" Http.no_options w)) = [q].
Proof.
  intros c w q.
  assert (Hc : is_client c) by (exists example_base; left; reflexivity).
  assert (Hw : written w (Some example_state)).
  { split; [reflexivity|]. split; [reflexivity|].
    exists "A1", "R1", "7", "a@b.com", "Ann". split; reflexivity. }
  assert (H200 : Http.status no_tasks <> 401 \/ skips_auth Http.no_options = true
                 \/ truthy (refresh_of (Some example_state)) = false)
    by (left; cbn; lia).
  destruct (no_refresh_without_need c "/tasks/" Http.no_options w (Some example_state)
              no_tasks [] Hc Hw eq_refl H200) as (Ht & _ & Hs).
  split; [exact Hw|]. split; [exact Ht | exact Hs].
Defined.

Lemma skipAuth_world (c : Client) (path : string)
    (options : Http.RequestOptions) (w : World) :
  is_client c ->
  skips_auth options = true ->
  exists w0,
    (w0 = w \/ w0 = logged "Failed to read auth storage" w)
    /\ snd (run c path options w) = fetched (opening c path options w) w0.
Proof.
  intros Hc Hskip. pose proof (client_has_laws c Hc) as laws.
  assert (Hcases :
    exists (w0 : World) (out : Outcome Http.Response),
      (w0 = w \/ w0 = logged "Failed to read auth storage" w)
      /\ talk c path options w = (out, fetched (opening c path options w) w0)).
  { destruct (network w) as [|[r|] net] eqn:Hn.
    - destruct (talk_fails c laws path options w) as (w0 & Hw0 & Ht); [left; exact Hn|].
      exists w0, (Thrown FetchError). split; assumption.
    - destruct (talk_single c laws path options w r net Hn) as (w0 & Hw0 & Ht);
        [right; left; exact Hskip|].
      exists w0, (Returned r). split; assumption.
    - destruct (talk_fails c laws path options w) as (w0 & Hw0 & Ht);
        [right; exists net; exact Hn|].
      exists w0, (Thrown FetchError). split; assumption. }
  destruct Hcases as (w0 & out & Hw0 & Ht).
  exists w0. split; [exact Hw0|].
  rewrite (law_split c laws), bind_run, Ht.
  destruct out as [r | e]; [|reflexivity].
  destruct (finish_world c (skips_auth options) r
              (fetched (opening c path options w) w0) Hc) as [H | (H & _)]; [exact H|].
  rewrite Hskip in H. discriminate H.
Qed.

(** X5. A call that skips auth (as [login] and [register] do) never touches
    the session, whatever the network does: it sends exactly one request,
    whose [Authorization] header is the caller's own, if any, and it leaves
    the slot, the listeners and their record as they were, on a 401 too. *)
Theorem skipAuth_leaves_the_session (c : Client) (path : string)
    (options : Http.RequestOptions) (w : World) :
  is_client c ->
  skips_auth options = true ->
  let w' := snd (run c path options w) in
  sent w' = (sent w ++ [opening c path options w])%list
  /\ Http.get (Http.req_headers (opening c path options w)) "Authorization"
     = Http.get (caller_headers options) "Authorization"
  /\ localStorage w' = localStorage w
  /\ listeners w' = listeners w
  /\ calls w' = calls w.
Proof.
  intros Hc Hskip w'. pose proof (client_has_laws c Hc) as laws.
  assert (Hauth : Http.get (Http.req_headers (opening c path options w)) "Authorization"
                  = Http.get (caller_headers options) "Authorization").
  { unfold opening. rewrite (law_sends c laws).
    destruct Hc as (base & [-> | ->]); cbn [headers_of frontend do_smart_ai].
    - unfold djangoApi.first_headers. unfold skips_auth in Hskip. rewrite Hskip.
      cbn [negb andb]. unfold djangoApi.merge_headers, caller_headers.
      repeat match goal with
             | |- context [if ?b then _ else _] => destruct b
             end;
      rewrite ?get_set_other by (vm_compute; discriminate); reflexivity.
    - unfold database.first_headers. unfold skips_auth in Hskip. rewrite Hskip.
      cbn [negb andb]. unfold database.merge_headers, caller_headers.
      repeat match goal with
             | |- context [if ?b then _ else _] => destruct b
             end;
      rewrite ?get_set_other by (vm_compute; discriminate); reflexivity. }
  destruct (skipAuth_world c path options w Hc Hskip) as (w0 & Hw0 & Hend).
  unfold w'. rewrite Hend.
  split; [destruct Hw0 as [-> | ->]; reflexivity|]. split; [exact Hauth|].
  destruct Hw0 as [-> | ->]; repeat split.
Qed.

Lemma skipAuth_leaves_the_session_witness :
  let c := frontend example_base in
  let options := Http.mkOptions (Some true) None (Some "POST") None in
  let w := logged_in [Http.Responds expired] in
  skips_auth options = true
  /\ sent (snd (run c "/auth/login/" options w)) = [opening c "/auth/login/" options w]
  /\ localStorage (snd (run c "/auth/login/" options w)) = localStorage w.
Proof.
  intros c options w.
  assert (Hc : is_client c) by (exists example_base; left; reflexivity).
  destruct (skipAuth_leaves_the_session c "/auth/login/" options w Hc eq_refl)
    as (H1 & _ & H2 & _).
  split; [reflexivity|]. split; [exact H1 | exact H2].
Defined.

(** X6. When the network fails on the first request, [request] and
    [apiRequest] throw that failure as it is: one request was sent, no
    refresh was tried, and the slot and the listeners are untouched. *)
Theorem transport_failure_propagates (c : Client) (path : string)
    (options : Http.RequestOptions) (w : World) :
  is_client c ->
  network w = [] \/ (exists net, network w = Http.Fails :: net) ->
  exists w',
    run c path options w = (Thrown FetchError, w')
    /\ sent w' = (sent w ++ [opening c path options w])%list
    /\ localStorage w' = localStorage w
    /\ calls w' = calls w.
Proof.
  intros Hc Hn. pose proof (client_has_laws c Hc) as laws.
  destruct (talk_fails c laws path options w Hn) as (w0 & Hw0 & Ht).
  exists (fetched (opening c path options w) w0). split.
  - rewrite (law_split c laws), bind_run, Ht. reflexivity.
  - destruct Hw0 as [-> | ->]; repeat split.
Qed.

Lemma transport_failure_propagates_witness :
  let c := do_smart_ai example_base in
  let w := logged_in [Http.Fails] in
  exists w', run c "/tasks/" Http.no_options w = (Thrown FetchError, w')
             /\ localStorage w' = localStorage w.
Proof.
  intros c w.
  assert (Hc : is_client c) by (exists example_base; right; reflexivity).
  destruct (transport_failure_propagates c "/tasks/" Http.no_options w Hc)
    as (w' & Hr & _ & Hl & _).
  - right. exists []. reflexivity.
  - exists w'. split; [exact Hr | exact Hl].
Defined.

(** ** What a request may do to the session *)

Lemma kept_refl (st : StoredAuthState.t) (w : World) : session_kept st w w.
Proof. repeat split. left. reflexivity. Qed.

Lemma kept_trans (st : StoredAuthState.t) (w1 w2 w3 : World) :
  session_kept st w1 w2 -> session_kept st w2 w3 -> session_kept st w1 w3.
Proof.
  intros (B1 & L1 & K1 & S1) (B2 & L2 & K2 & S2).
  split; [congruence|]. split; [congruence|]. split.
  - intros k Hk. rewrite (K2 k Hk). apply K1. exact Hk.
  - destruct S2 as [S2 | [S2 | S2]].
    + rewrite S2. exact S1.
    + right. left. exact S2.
    + right. right. exact S2.
Qed.

Lemma kept_fetched (st : StoredAuthState.t) (q : Http.Request) (w : World) :
  session_kept st w (fetched q w).
Proof. repeat split. left. reflexivity. Qed.

Lemma kept_logged (st : StoredAuthState.t) (msg : string) (w : World) :
  session_kept st w (logged msg w).
Proof. repeat split. left. reflexivity. Qed.

Lemma kept_cleared (st : StoredAuthState.t) (w : World) : session_kept st w (cleared w).
Proof.
  unfold cleared, erased, session_kept, slot. destruct (isBrowser w) eqn:Hb.
  - cbn [notified isBrowser listeners localStorage].
    split; [reflexivity|]. split; [reflexivity|]. split.
    + intros k Hk. apply lookup_delete_ne. congruence.
    + right. left. apply lookup_delete_eq.
  - cbn [notified isBrowser listeners localStorage].
    split; [exact Hb|]. split; [reflexivity|]. split; [reflexivity|]. left. reflexivity.
Qed.

Lemma kept_set (st : StoredAuthState.t) (access : JsVal) (w : World) :
  session_kept st w
    (notified (Some (with_access st access)) (persisted (with_access st access) w)).
Proof.
  unfold persisted, session_kept, slot. destruct (isBrowser w) eqn:Hb.
  - cbn [notified isBrowser listeners localStorage].
    split; [reflexivity|]. split; [reflexivity|]. split.
    + intros k Hk. apply lookup_insert_ne. congruence.
    + right. right. exists access. apply lookup_insert_eq.
  - cbn [notified isBrowser listeners localStorage].
    split; [exact Hb|]. split; [reflexivity|]. split; [reflexivity|]. left. reflexivity.
Qed.

Lemma stored_fetched (q : Http.Request) (w : World) : stored (fetched q w) = stored w.
Proof. reflexivity. Qed.

Lemma fetch_run (req : Http.Request) (w : World) :
  exists out, fetch req w = (out, fetched req w).
Proof.
  unfold fetch, fetched. destruct (network w) as [|[r|] net]; eexists; reflexivity.
Qed.

Section Kept.

Variable c : Client.
Hypothesis laws : client_laws c.

Lemma refresh_kept (w : World) (st : StoredAuthState.t) :
  stored w = Some st ->
  truthy (refresh_token st) = true ->
  exists (v : JsVal) (w2 : World),
    refresh c w = (Returned v, w2) /\ session_kept st w w2.
Proof.
  intros Hs Ht.
  rewrite (law_refresh c laws w st Hs Ht), try_catch_run.
  rewrite (law_attempt c laws), bind_run.
  destruct (fetch_run (refresh_call c (refresh_token st)) w) as (out & Hf).
  rewrite Hf. set (w1 := fetched (refresh_call c (refresh_token st)) w).
  assert (K1 : session_kept st w w1) by apply kept_fetched.
  assert (Hhandler : forall w', session_kept st w w' ->
            exists v w2, refresh_handler SyntaxError w' = (Returned v, w2)
                         /\ session_kept st w w2).
  { intros w' K. exists VNull, (cleared (logged "Failed to refresh access token" w')).
    split; [apply handler_run|].
    eapply kept_trans; [exact K|].
    eapply kept_trans; [apply kept_logged | apply kept_cleared]. }
  destruct out as [r | e]; [|apply (Hhandler w1 K1)].
  destruct (negb (Http.ok r)).
  - rewrite bind_run, clear_cleared. cbv beta iota. rewrite ret_run.
    exists VNull, (cleared w1). split; [reflexivity|].
    eapply kept_trans; [exact K1 | apply kept_cleared].
  - rewrite bind_run. unfold response_json.
    destruct (Http.json r) as [d|]; [|rewrite throw_run; apply (Hhandler w1 K1)].
    rewrite ret_run, bind_run. unfold member.
    destruct (is_nullish d); [rewrite throw_run; apply (Hhandler w1 K1)|].
    rewrite ret_run, bind_run.
    change (StoredAuthState.mk (AuthTokens.mk (prop d "access") (refresh_token st))
                               (StoredAuthState.user st))
      with (with_access st (prop d "access")).
    rewrite setState_run. cbv beta iota. rewrite ret_run.
    eexists _, _. split; [reflexivity|].
    eapply kept_trans; [exact K1 | apply kept_set].
Qed.

Lemma talk_kept (path : string) (options : Http.RequestOptions) (w : World)
    (st : StoredAuthState.t) :
  stored w = Some st ->
  session_kept st w (snd (talk c path options w)).
Proof.
  intros Hs.
  rewrite (law_talk c laws), bind_run, (getState_stored w st Hs), bind_run.
  destruct (fetch_run (sends c path options (headers_of c options (Some st))) w)
    as (out & Hf).
  rewrite Hf. set (w1 := fetched _ w).
  assert (K1 : session_kept st w w1) by apply kept_fetched.
  destruct out as [r | e]; [|exact K1].
  destruct ((Http.status r =? 401) && negb (skips_auth options)
            && truthy (refresh_of (Some st))) eqn:Hc; [|exact K1].
  apply andb_prop in Hc. destruct Hc as (_ & Ht).
  destruct (refresh_kept w1 st Hs Ht) as (v & w2 & Hr & K2).
  rewrite bind_run, Hr.
  pose proof (kept_trans st w w1 w2 K1 K2) as K.
  destruct (truthy v); [|exact K].
  match goal with
  | |- context [fetch ?q w2] => destruct (fetch_run q w2) as (out2 & Hf2); rewrite Hf2
  end.
  eapply kept_trans; [exact K | apply kept_fetched].
Qed.

Lemma run_frame (path : string) (options : Http.RequestOptions) (w : World)
    (st : StoredAuthState.t) :
  is_client c ->
  stored w = Some st ->
  isBrowser (snd (run c path options w)) = isBrowser w
  /\ listeners (snd (run c path options w)) = listeners w.
Proof.
  intros Hc Hs. destruct (talk_kept path options w st Hs) as (KB & KL & _).
  rewrite (law_split c laws), bind_run.
  destruct (talk c path options w) as [[r | e] w1]; cbn [snd] in KB, KL;
    [|split; assumption].
  destruct (finish_world c (skips_auth options) r w1 Hc) as [H | (_ & _ & H)]; rewrite H.
  - split; assumption.
  - unfold cleared, erased. destruct (isBrowser w1) eqn:E;
      cbn [notified isBrowser listeners]; rewrite <- ?KB, ?KL; split; congruence.
Qed.

End Kept.

(** X7. What [request] and [apiRequest] may do to a stored session [st],
    whatever the server answers: when the call ends, the slot holds what it
    held before, or nothing, or [st] with a new access token. The refresh
    token and the user of the session are never rewritten, no other key of
    the storage is touched, and the set of listeners is unchanged. *)
Theorem request_keeps_the_refresh_token (c : Client) (path : string)
    (options : Http.RequestOptions) (w : World) (st : StoredAuthState.t) :
  is_client c ->
  stored w = Some st ->
  session_kept st w (snd (run c path options w)).
Proof.
  intros Hc Hs. pose proof (client_has_laws c Hc) as laws.
  pose proof (talk_kept c laws path options w st Hs) as K.
  rewrite (law_split c laws), bind_run.
  destruct (talk c path options w) as [[r | e] w1]; [|exact K].
  cbn [snd] in K.
  destruct (finish_world c (skips_auth options) r w1 Hc) as [H | (_ & _ & H)]; rewrite H.
  - exact K.
  - eapply kept_trans; [exact K | apply kept_cleared].
Qed.

Lemma request_keeps_the_refresh_token_witness :
  let c := frontend example_base in
  let w := logged_in [Http.Responds expired; Http.Responds refreshed;
                      Http.Responds no_tasks] in
  stored w = Some example_state
  /\ session_kept example_state w (snd (run c "/tasks/" Http.no_options w)).
Proof.
  intros c w.
  assert (Hc : is_client c) by (exists example_base; left; reflexivity).
  assert (Hs : stored w = Some example_state) by (vm_compute; reflexivity).
  split; [exact Hs|].
  exact (request_keeps_the_refresh_token c "/tasks/" Http.no_options w example_state Hc Hs).
Defined.

(** ** Signing in, signing up and signing out *)

Lemma claimed_body_json (r : Http.Response) (d : JsVal) :
  json_reply r d -> claimed_body r = Returned d /\ json_or_text r = Returned d.
Proof.
  intros (_ & _ & Hct & Hj). unfold claimed_body, json_or_text.
  rewrite Hct, Hj. destruct (Http.content_type r) as [ct|].
  - cbn [default] in Hct. change (id ct) with ct in Hct. rewrite Hct. split; reflexivity.
  - discriminate Hct.
Qed.

Lemma finish_json (c : Client) (b : bool) (r : Http.Response) (d : JsVal) (w : World) :
  is_client c -> json_reply r d -> finish c b r w = (Returned d, w).
Proof.
  intros (base & [-> | ->]) Hr; destruct (claimed_body_json r d Hr) as (H1 & H2);
    destruct Hr as (Hok & H204 & _ & _); apply Z.eqb_neq in H204;
    cbn [finish frontend do_smart_ai].
  - unfold djangoApi.conclude. rewrite H204, bind_run, read_R_claimed, H1, Hok. reflexivity.
  - unfold database.conclude. rewrite H204, bind_run, read_A_json_or_text, H2, Hok. reflexivity.
Qed.

Lemma ok_not_401 (r : Http.Response) : Http.ok r = true -> Http.status r <> 401.
Proof. unfold Http.ok. intros H. apply andb_prop in H. destruct H as (_ & H). lia. Qed.

Lemma run_json (c : Client) (path : string) (options : Http.RequestOptions) (w : World)
    (r : Http.Response) (net : list Http.FetchResult) (d : JsVal) :
  is_client c ->
  network w = Http.Responds r :: net ->
  json_reply r d ->
  exists w0,
    (w0 = w \/ w0 = logged "Failed to read auth storage" w)
    /\ run c path options w = (Returned d, fetched (opening c path options w) w0).
Proof.
  intros Hc Hn Hr. pose proof (client_has_laws c Hc) as laws.
  destruct (talk_single c laws path options w r net Hn) as (w0 & Hw0 & Ht).
  { left. apply ok_not_401. apply Hr. }
  exists w0. split; [exact Hw0|].
  rewrite (law_split c laws), bind_run, Ht. apply finish_json; assumption.
Qed.

Lemma finish_refused (c : Client) (b : bool) (r : Http.Response) (w : World) :
  is_client c ->
  Http.ok r = false ->
  exists e, fst (finish c b r w) = Thrown e
            /\ (e = SyntaxError
                \/ exists message data, e = ApiError message (Http.status r) data).
Proof.
  intros (base & [-> | ->]) Hok; cbn [finish frontend do_smart_ai].
  - unfold djangoApi.conclude.
    destruct (Http.status r =? 204) eqn:E.
    { apply Z.eqb_eq in E. unfold Http.ok in Hok. rewrite E in Hok. discriminate Hok. }
    rewrite bind_run, read_R_claimed. unfold claimed_body.
    destruct (Http.content_type r) as [ct|].
    + destruct (includes "application/json" ct).
      * destruct (Http.json r) as [d|].
        -- rewrite Hok. cbn [negb]. rewrite bind_run.
           destruct ((Http.status r =? 401) && negb b).
           ++ rewrite clear_cleared. cbv beta iota. rewrite throw_run.
              eexists. split; [reflexivity|]. right. eexists _, _. reflexivity.
           ++ rewrite ret_run, throw_run.
              eexists. split; [reflexivity|]. right. eexists _, _. reflexivity.
        -- exists SyntaxError. split; [reflexivity | left; reflexivity].
      * destruct (negb (String.eqb ct "")); rewrite Hok; cbn [negb]; rewrite bind_run;
          (destruct ((Http.status r =? 401) && negb b);
           [rewrite clear_cleared; cbv beta iota; rewrite throw_run
           |rewrite ret_run, throw_run];
           eexists; (split; [reflexivity|]); right; eexists _, _; reflexivity).
    + rewrite Hok. cbn [negb]. rewrite bind_run.
      destruct ((Http.status r =? 401) && negb b);
        [rewrite clear_cleared; cbv beta iota; rewrite throw_run
        |rewrite ret_run, throw_run];
        eexists; (split; [reflexivity|]); right; eexists _, _; reflexivity.
  - unfold database.conclude.
    destruct (Http.status r =? 204) eqn:E.
    { apply Z.eqb_eq in E. unfold Http.ok in Hok. rewrite E in Hok. discriminate Hok. }
    rewrite bind_run, read_A_json_or_text. unfold json_or_text.
    destruct (includes "application/json" (default "" (Http.content_type r))).
    + destruct (Http.json r) as [d|].
      * rewrite Hok. cbn [negb]. rewrite throw_run.
        eexists. split; [reflexivity|]. right. eexists _, _. reflexivity.
      * exists SyntaxError. split; [reflexivity | left; reflexivity].
    + rewrite Hok. cbn [negb]. rewrite throw_run.
      eexists. split; [reflexivity|]. right. eexists _, _. reflexivity.
Qed.

(** A call that skips auth and meets a reply that is not a success. *)
Lemma run_refused (c : Client) (path : string) (options : Http.RequestOptions)
    (w : World) (r : Http.Response) (net : list Http.FetchResult) :
  is_client c ->
  skips_auth options = true ->
  network w = Http.Responds r :: net ->
  Http.ok r = false ->
  refused (run c path options) w r.
Proof.
  intros Hc Hskip Hn Hok. pose proof (client_has_laws c Hc) as laws.
  destruct (skipAuth_world c path options w Hc Hskip) as (wa & Hwa & Hend).
  assert (H1 : sent (snd (run c path options w))
               = (sent w ++ [opening c path options w])%list)
    by (rewrite Hend; destruct Hwa as [-> | ->]; reflexivity).
  assert (H2 : localStorage (snd (run c path options w)) = localStorage w)
    by (rewrite Hend; destruct Hwa as [-> | ->]; reflexivity).
  assert (H3 : calls (snd (run c path options w)) = calls w)
    by (rewrite Hend; destruct Hwa as [-> | ->]; reflexivity).
  destruct (talk_single c laws path options w r net Hn) as (w0 & Hw0 & Ht);
    [right; left; exact Hskip|].
  destruct (finish_refused c (skips_auth options) r
              (fetched (opening c path options w) w0) Hc Hok) as (e & He & Hshape).
  assert (Hrun : run c path options w
                 = (Thrown e, snd (run c path options w))).
  { rewrite (law_split c laws), bind_run, Ht.
    destruct (finish c (skips_auth options) r (fetched (opening c path options w) w0))
      as [o w2]. cbn [fst] in He. subst o. reflexivity. }
  exists e, (snd (run c path options w)).
  split; [exact Hrun|]. split; [exact Hshape|].
  split; [rewrite H1, length_app; cbn [length]; lia|]. split; assumption.
Qed.

Lemma refused_bind {A B : Type} (m : M A) (k : A -> M B) (w : World) (r : Http.Response) :
  refused m w r -> refused (m ≫= k) w r.
Proof.
  intros (e & w' & Hm & rest). exists e, w'. split; [|exact rest].
  rewrite bind_run, Hm. reflexivity.
Qed.

(** X9. A login or a registration that the server refuses (any reply that is
    not a success, a 401 included) throws the typed error of that reply, or
    the syntax error of its malformed JSON body, after a single request; it
    stores nothing, calls no listener and leaves a session that was stored
    before in place. This holds of the four functions of the two clients. *)
Theorem refused_sign_in_stores_nothing (base email password name : string) (w : World)
    (r : Http.Response) (net : list Http.FetchResult) :
  network w = Http.Responds r :: net ->
  Http.ok r = false ->
  refused (djangoApi.login base email password) w r
  /\ refused (djangoApi.register base email password name) w r
  /\ refused (database.login base email password) w r
  /\ refused (database.register base email password name) w r.
Proof.
  intros Hn Hok.
  assert (HF : is_client (frontend base)) by (exists base; left; reflexivity).
  assert (HD : is_client (do_smart_ai base)) by (exists base; right; reflexivity).
  split; [|split; [|split]].
  - unfold djangoApi.login. apply refused_bind.
    change (djangoApi.request base) with (run (frontend base)).
    apply (run_refused _ _ _ w r net HF); [reflexivity | exact Hn | exact Hok].
  - unfold djangoApi.register. apply refused_bind.
    change (djangoApi.request base) with (run (frontend base)).
    apply (run_refused _ _ _ w r net HF); [reflexivity | exact Hn | exact Hok].
  - unfold database.login. apply refused_bind.
    change (database.apiRequest base) with (run (do_smart_ai base)).
    apply (run_refused _ _ _ w r net HD); [reflexivity | exact Hn | exact Hok].
  - unfold database.register. apply refused_bind.
    change (database.apiRequest base) with (run (do_smart_ai base)).
    apply (run_refused _ _ _ w r net HD); [reflexivity | exact Hn | exact Hok].
Qed.

Lemma refused_sign_in_stores_nothing_witness :
  let r := json_response 401 (VObj [("detail", VStr "No active account")]) in
  let w := logged_in [Http.Responds r] in
  Http.ok r = false
  /\ refused (djangoApi.login example_base "a@b.com" "wrong") w r
  /\ refused (database.register example_base "a@b.com" "wrong" "Ann") w r.
Proof.
  intros r w.
  destruct (refused_sign_in_stores_nothing example_base "a@b.com" "wrong" "Ann" w r []
              eq_refl eq_refl) as (H1 & _ & _ & H4).
  split; [reflexivity|]. split; [exact H1 | exact H4].
Defined.

Lemma slot_cleared (w : World) : isBrowser w = true -> slot (cleared w) = None.
Proof.
  intros Hb. unfold cleared, erased, slot. rewrite Hb.
  cbn [notified localStorage]. apply lookup_delete_eq.
Qed.

Lemma listeners_cleared (w : World) : listeners (cleared w) = listeners w.
Proof. unfold cleared, erased. destruct (isBrowser w); reflexivity. Qed.

Lemma logout_signed_out (c : Client) (logout : M unit) (base : string) (w : World) :
  is_client c ->
  logout_of c logout ->
  (forall options h,
     sends c "/auth/logout/" options h
     = Http.mkRequest (base +:+ "/auth/logout/") (Http.method options) h
                      (Http.body options)) ->
  signed_out logout base w (stored w).
Proof.
  intros Hc Hl Hsends. pose proof (client_has_laws c Hc) as laws.
  unfold signed_out. rewrite Hl, bind_run.
  destruct (truthy (refresh_of (stored w))) eqn:Ht.
  - destruct (stored w) as [st|] eqn:Hs; [|discriminate Ht].
    rewrite (getState_stored w st Hs), bind_run. cbn [refresh_of] in *. rewrite Ht.
    rewrite try_catch_run, bind_run.
    set (options := Http.mkOptions None None (Some "POST")
                      (Some (Http.BodyText
                               (stringify_object
                                  [("refresh", AuthTokens.refresh (StoredAuthState.tokens st))])))).
    pose proof (run_frame c laws "/auth/logout/" options w st Hc Hs) as K.
    destruct (run_sent c laws "/auth/logout/" options w) as (more & Hsent).
    destruct (run c "/auth/logout/" options w) as [out w1] eqn:Hrun.
    cbn [snd] in K, Hsent. destruct K as (KB & KL).
    assert (Hfinal : forall w2 : World,
              isBrowser w2 = isBrowser w -> listeners w2 = listeners w ->
              calls w2 = calls w1 -> sent w2 = sent w1 ->
              exists w',
                authStore.clear w2 = (Returned tt, w')
                /\ stored w' = None
                /\ (isBrowser w = true -> slot w' = None)
                /\ listeners w' = listeners w
                /\ (exists before,
                      calls w' = (before ++ List.map (fun l => (l, None)) (listeners w))%list)
                /\ exists q more0,
                     sent w' = (sent w ++ q :: more0)%list
                     /\ Http.url q = base +:+ "/auth/logout/"
                     /\ Http.req_method q = Some "POST"
                     /\ Http.req_body q
                        = Some (Http.BodyText
                                  (stringify_object
                                     [("refresh", AuthTokens.refresh (StoredAuthState.tokens st))]))).
    { intros w2 HB HL HC HS. exists (cleared w2).
      split; [apply clear_cleared|]. split; [apply stored_cleared|].
      split; [intros Hb; apply slot_cleared; congruence|].
      split; [rewrite listeners_cleared; exact HL|].
      split; [exists (calls w2); rewrite calls_cleared, HL; reflexivity|].
      exists (opening c "/auth/logout/" options w), more.
      split; [rewrite sent_cleared, HS; exact Hsent|].
      unfold opening. rewrite Hsends. repeat split. }
    destruct out as [v | e].
    + rewrite ret_run. cbv beta iota. apply Hfinal; [exact KB | exact KL | reflexivity | reflexivity].
    + unfold warn. cbv beta iota.
      change (log "Failed to revoke refresh token" w1)
        with (Returned tt, logged "Failed to revoke refresh token" w1).
      cbv beta iota. apply Hfinal; [exact KB | exact KL | reflexivity | reflexivity].
  - destruct (getState_world w) as (w0 & Hg & Hw0).
    rewrite Hg, bind_run, Ht, ret_run. cbv beta iota.
    exists (cleared w0).
    split; [apply clear_cleared|]. split; [apply stored_cleared|].
    split; [intros Hb; apply slot_cleared; destruct Hw0 as [-> | ->]; exact Hb|].
    split; [rewrite listeners_cleared; destruct Hw0 as [-> | ->]; reflexivity|].
    split.
    + exists (calls w). rewrite calls_cleared. destruct Hw0 as [-> | ->]; reflexivity.
    + rewrite sent_cleared. destruct Hw0 as [-> | ->]; reflexivity.
Qed.

(** X10. [logout] of the two clients, where the slot is as the store left
    it, always signs out locally. Whatever the server answers, and when the
    network fails, it returns without throwing, leaves the slot empty and
    calls every listener with [null]. When the slot held a session with a
    refresh token that is not empty it first asks the server to revoke it,
    with a POST to /auth/logout/ that carries that token; when it held no
    session, or an empty refresh token, no request is sent. *)
Theorem logout_always_clears (base : string) (w : World)
    (state : option StoredAuthState.t) :
  written w state ->
  signed_out (djangoApi.logout base) base w state
  /\ signed_out (database.logout base) base w state.
Proof.
  intros Hw. rewrite <- (stored_written w state Hw). split.
  - apply (logout_signed_out (frontend base)).
    + exists base. left. reflexivity.
    + intros w0. reflexivity.
    + intros options h. reflexivity.
  - apply (logout_signed_out (do_smart_ai base)).
    + exists base. right. reflexivity.
    + intros w0. reflexivity.
    + intros options h. reflexivity.
Qed.

Lemma logout_always_clears_witness :
  let w := logged_in [Http.Fails] in
  written w (Some example_state)
  /\ exists w',
       djangoApi.logout example_base w = (Returned tt, w')
       /\ stored w' = None
       /\ exists q more,
            sent w' = (sent w ++ q :: more)%list
            /\ Http.url q = "http://localhost:8000/api/auth/logout/".
Proof.
  intros w.
  assert (Hw : written w (Some example_state)).
  { split; [reflexivity|]. split; [reflexivity|].
    exists "A1", "R1", "7", "a@b.com", "Ann". split; reflexivity. }
  split; [exact Hw|].
  destruct (proj1 (logout_always_clears example_base w (Some example_state) Hw))
    as (w' & Hl & Hs & _ & _ & _ & q & more & Hq & Hu & _).
  exists w'. split; [exact Hl|]. split; [exact Hs|].
  exists q, more. split; [exact Hq | exact Hu].
Defined.

Lemma length_sent_fetched (q : Http.Request) (w w0 : World) :
  w0 = w \/ w0 = logged "Failed to read auth storage" w ->
  length (sent (fetched q w0)) = S (length (sent w)).
Proof.
  intros [-> | ->]; cbn [fetched sent logged]; rewrite length_app; cbn [length]; lia.
Qed.

Lemma stores_typed (access refresh_tok i e n : string) (w1 : World) :
  isBrowser w1 = true ->
  let st := typed_state access refresh_tok (typed_user i e n) in
  authStore.setState st w1 = (Returned tt, notified (Some st) (persisted st w1))
  /\ stored (notified (Some st) (persisted st w1)) = Some st
  /\ calls (notified (Some st) (persisted st w1))
     = (calls w1 ++ List.map (fun l => (l, Some st)) (listeners w1))%list
  /\ sent (notified (Some st) (persisted st w1)) = sent w1.
Proof.
  intros Hb st. split; [apply setState_run|]. split.
  - rewrite stored_notified. apply stored_persisted. exact Hb.
  - unfold persisted. rewrite Hb. split; reflexivity.
Qed.

(** X11. [register] of the frontend, met by a successful JSON reply
    {access, refresh, user: {id, email, name}} with a numeric id, returns
    the session (access, refresh, user {String(id), email, name}), has
    stored it (so that [getSession] returns it afterwards) and has called
    every listener with it, after a single request. *)
Theorem register_persists_session (base email password name : string) (w : World)
    (r : Http.Response) (net : list Http.FetchResult)
    (access refresh_tok user_email user_name : string) (uid : Z) :
  isBrowser w = true ->
  network w = Http.Responds r :: net ->
  json_reply r (register_reply access refresh_tok uid user_email user_name) ->
  let st := signed_in access refresh_tok uid user_email user_name in
  stores (djangoApi.register base email password name) w (session_of st) st
  /\ forall w',
       djangoApi.register base email password name w = (Returned (session_of st), w') ->
       djangoApi.getSession w' = (Returned (Some (session_of st)), w').
Proof.
  intros Hb Hn Hr st.
  assert (Hc : is_client (frontend base)) by (exists base; left; reflexivity).
  set (options := Http.mkOptions (Some true) None (Some "POST")
                    (Some (Http.BodyText
                             (stringify_object [("email", VStr email);
                                                ("password", VStr password);
                                                ("name", VStr name)])))).
  destruct (run_json (frontend base) "/auth/register/" options w r net _ Hc Hn Hr)
    as (w0 & Hw0 & Hrun).
  set (w1 := fetched (opening (frontend base) "/auth/register/" options w) w0) in *.
  assert (Hb1 : isBrowser w1 = true) by (destruct Hw0 as [-> | ->]; exact Hb).
  destruct (stores_typed access refresh_tok (Z_to_string uid) user_email user_name w1 Hb1)
    as (Hset & Hst & Hcalls & Hsent).
  assert (Hreg : djangoApi.register base email password name w
                 = (Returned (session_of st),
                    notified (Some st) (persisted st w1))).
  { unfold djangoApi.register. fold options.
    change (djangoApi.request base) with (run (frontend base)).
    rewrite bind_run, Hrun, bind_run.
    unfold member, register_reply. cbn [is_nullish]. rewrite ret_run, bind_run.
    unfold djangoApi.normalizeUser, reading.
    cbn [prop get_prop String.eqb Ascii.eqb Bool.eqb is_nullish].
    rewrite ret_run, bind_run. cbn [coalesce is_nullish to_String].
    rewrite setState_run. reflexivity. }
  split.
  - exists (notified (Some st) (persisted st w1)).
    split; [exact Hreg|]. split; [exact Hst|]. split.
    + refine (eq_trans Hcalls _). destruct Hw0 as [-> | ->]; reflexivity.
    + refine (eq_trans (f_equal (@length _) Hsent) _). apply length_sent_fetched. exact Hw0.
  - intros w' Hw'. rewrite Hreg in Hw'. injection Hw' as <-.
    unfold djangoApi.getSession. rewrite bind_run.
    rewrite (getState_stored (notified (Some st) (persisted st w1)) st Hst). reflexivity.
Qed.

Lemma register_persists_session_witness :
  let r := json_response 201 (register_reply "A1" "R1" 7 "a@b.com" "Ann") in
  let w := mkWorld true ∅ [1%nat] [] [Http.Responds r] [] [] in
  json_reply r (register_reply "A1" "R1" 7 "a@b.com" "Ann")
  /\ stores (djangoApi.register example_base "a@b.com" "secret" "Ann") w
            (session_of example_state) example_state.
Proof.
  intros r w.
  assert (Hr : json_reply r (register_reply "A1" "R1" 7 "a@b.com" "Ann")).
  { split; [reflexivity|]. split; [cbn; lia|]. split; reflexivity. }
  split; [exact Hr|].
  exact (proj1 (register_persists_session example_base "a@b.com" "secret" "Ann" w r []
                  "A1" "R1" "a@b.com" "Ann" 7 eq_refl eq_refl Hr)).
Defined.

(** X12. [login] and [register] of do-smart-ai, met by a successful JSON
    reply that carries the tokens and the user with a numeric id, store the
    session (access, refresh, user {String(id), email, name}) and call every
    listener with it, after a single request; a reply to a login that names
    no user name stores the email as the name. *)
Theorem do_smart_ai_sign_in_persists (base email password name : string) (w : World)
    (r : Http.Response) (net : list Http.FetchResult)
    (access refresh_tok user_email user_name : string) (uid : Z) :
  isBrowser w = true ->
  network w = Http.Responds r :: net ->
  (json_reply r (login_reply access refresh_tok uid user_email) ->
   stores (database.login base email password) w tt
          (signed_in access refresh_tok uid user_email user_email))
  /\ (json_reply r (register_reply access refresh_tok uid user_email user_name) ->
      stores (database.register base email password name) w tt
             (signed_in access refresh_tok uid user_email user_name)).
Proof.
  intros Hb Hn.
  assert (Hc : is_client (do_smart_ai base)) by (exists base; right; reflexivity).
  split; intros Hr.
  - set (options := Http.mkOptions (Some true) None (Some "POST")
                      (Some (Http.BodyText
                               (stringify_object [("email", VStr email);
                                                  ("password", VStr password)])))).
    destruct (run_json (do_smart_ai base) "/auth/login/" options w r net _ Hc Hn Hr)
      as (w0 & Hw0 & Hrun).
    set (w1 := fetched (opening (do_smart_ai base) "/auth/login/" options w) w0) in *.
    assert (Hb1 : isBrowser w1 = true) by (destruct Hw0 as [-> | ->]; exact Hb).
    destruct (stores_typed access refresh_tok (Z_to_string uid) user_email user_email w1 Hb1)
      as (Hset & Hst & Hcalls & Hsent).
    eexists. split; [|split; [exact Hst|split]].
    + unfold database.login. fold options.
      change (database.apiRequest base) with (run (do_smart_ai base)).
      rewrite bind_run, Hrun, bind_run.
      unfold member, login_reply. cbn [is_nullish]. rewrite ret_run, bind_run.
      unfold database.normalizeUser, reading.
      cbn [prop get_prop String.eqb Ascii.eqb Bool.eqb is_nullish].
      rewrite ret_run. cbn [coalesce is_nullish to_String].
      unfold database.authStore.setState. rewrite setState_run. reflexivity.
    + refine (eq_trans Hcalls _). destruct Hw0 as [-> | ->]; reflexivity.
    + refine (eq_trans (f_equal (@length _) Hsent) _). apply length_sent_fetched. exact Hw0.
  - set (options := Http.mkOptions (Some true) None (Some "POST")
                      (Some (Http.BodyText
                               (stringify_object [("email", VStr email);
                                                  ("password", VStr password);
                                                  ("name", VStr name)])))).
    destruct (run_json (do_smart_ai base) "/auth/register/" options w r net _ Hc Hn Hr)
      as (w0 & Hw0 & Hrun).
    set (w1 := fetched (opening (do_smart_ai base) "/auth/register/" options w) w0) in *.
    assert (Hb1 : isBrowser w1 = true) by (destruct Hw0 as [-> | ->]; exact Hb).
    destruct (stores_typed access refresh_tok (Z_to_string uid) user_email user_name w1 Hb1)
      as (Hset & Hst & Hcalls & Hsent).
    eexists. split; [|split; [exact Hst|split]].
    + unfold database.register. fold options.
      change (database.apiRequest base) with (run (do_smart_ai base)).
      rewrite bind_run, Hrun, bind_run.
      unfold member, register_reply. cbn [is_nullish]. rewrite ret_run, bind_run.
      unfold database.normalizeUser, reading.
      cbn [prop get_prop String.eqb Ascii.eqb Bool.eqb is_nullish].
      rewrite ret_run. cbn [coalesce is_nullish to_String].
      unfold database.authStore.setState. rewrite setState_run. reflexivity.
    + refine (eq_trans Hcalls _). destruct Hw0 as [-> | ->]; reflexivity.
    + refine (eq_trans (f_equal (@length _) Hsent) _). apply length_sent_fetched. exact Hw0.
Qed.

Lemma do_smart_ai_sign_in_persists_witness :
  let r := json_response 200 (login_reply "A1" "R1" 7 "a@b.com") in
  let w := mkWorld true ∅ [1%nat] [] [Http.Responds r] [] [] in
  json_reply r (login_reply "A1" "R1" 7 "a@b.com")
  /\ stores (database.login example_base "a@b.com" "secret") w tt
            (signed_in "A1" "R1" 7 "a@b.com" "a@b.com").
Proof.
  intros r w.
  assert (Hr : json_reply r (login_reply "A1" "R1" 7 "a@b.com")).
  { split; [reflexivity|]. split; [cbn; lia|]. split; reflexivity. }
  split; [exact Hr|].
  exact (proj1 (do_smart_ai_sign_in_persists example_base "a@b.com" "secret" "Ann" w r []
                  "A1" "R1" "a@b.com" "Ann" 7 eq_refl eq_refl) Hr).
Defined.

(** ** The bearer token, and a refresh with nothing to refresh *)

Lemma merge_keeps_authorization (c : Client) (options : Http.RequestOptions) :
  is_client c ->
  Http.get (headers_of c options None) "Authorization"
  = Http.get (caller_headers options) "Authorization".
Proof.
  intros (base & [-> | ->]); cbn [headers_of frontend do_smart_ai].
  - unfold djangoApi.first_headers. cbn [access_of truthy]. rewrite andb_false_r.
    unfold djangoApi.merge_headers, caller_headers.
    repeat match goal with
           | |- context [if ?b then _ else _] => destruct b
           end;
    rewrite ?get_set_other by (vm_compute; discriminate); reflexivity.
  - unfold database.first_headers. cbn [access_of truthy]. rewrite andb_false_r.
    unfold database.merge_headers, caller_headers.
    repeat match goal with
           | |- context [if ?b then _ else _] => destruct b
           end;
    rewrite ?get_set_other by (vm_compute; discriminate); reflexivity.
Qed.

Lemma headers_of_state (c : Client) (options : Http.RequestOptions)
    (state : option StoredAuthState.t) :
  is_client c ->
  headers_of c options state
  = if negb (skips_auth options) && truthy (access_of state)
    then Http.set (headers_of c options None) "Authorization"
           ("Bearer " +:+ to_String (access_of state))
    else headers_of c options None.
Proof.
  intros (base & [-> | ->]); cbn [headers_of frontend do_smart_ai];
    [unfold djangoApi.first_headers | unfold database.first_headers];
    unfold skips_auth; cbn [access_of truthy]; rewrite andb_false_r;
    destruct (negb (default false (Http.skipAuth options)) && truthy (access_of state));
    reflexivity.
Qed.

(** X8. The [Authorization] header of the request a call sends first,
    where the slot is as the store left it. When the call does not skip auth
    and the slot holds a session with an access token that is not empty,
    the header is [Bearer] followed by that token, and it replaces an
    [Authorization] header of the caller; otherwise (the call skips auth,
    the slot holds no session, or an empty access token) the caller's
    header, if any, is sent as it is. This holds of [request] and of
    [apiRequest]. *)
Theorem bearer_token_rule (c : Client) (path : string) (options : Http.RequestOptions)
    (w : World) (state : option StoredAuthState.t) :
  is_client c ->
  written w state ->
  exists (q : Http.Request) (more : list Http.Request),
    sent (snd (run c path options w)) = (sent w ++ q :: more)%list
    /\ Http.get (Http.req_headers q) "Authorization"
       = if negb (skips_auth options) && truthy (access_of state)
         then Some ("Bearer " +:+ to_String (access_of state))
         else Http.get (caller_headers options) "Authorization".
Proof.
  intros Hc Hw. pose proof (client_has_laws c Hc) as laws.
  pose proof (stored_written w state Hw) as Hst.
  destruct (run_sent c laws path options w) as (more & Hs).
  exists (sends c path options (headers_of c options state)), more.
  split; [rewrite Hs, Hst; reflexivity|].
  rewrite (law_sends c laws), (headers_of_state c options state Hc).
  destruct (negb (skips_auth options) && truthy (access_of state)).
  - apply get_set.
  - apply merge_keeps_authorization. exact Hc.
Qed.

Lemma bearer_token_rule_witness :
  let c := do_smart_ai example_base in
  let options := Http.mkOptions None (Some [("Authorization", "Basic abc")]) None None in
  let w := logged_in [Http.Responds no_tasks] in
  written w (Some example_state)
  /\ exists (q : Http.Request) (more : list Http.Request),
       sent (snd (run c "/tasks/" options w)) = (sent w ++ q :: more)%list
       /\ Http.get (Http.req_headers q) "Authorization" = Some "Bearer A1".
Proof.
  intros c options w.
  assert (Hc : is_client c) by (exists example_base; right; reflexivity).
  assert (Hw : written w (Some example_state)).
  { split; [reflexivity|]. split; [reflexivity|].
    exists "A1", "R1", "7", "a@b.com", "Ann". split; reflexivity. }
  split; [exact Hw|].
  destruct (bearer_token_rule c "/tasks/" options w (Some example_state) Hc Hw)
    as (q & more & Hs & H).
  exists q, more. split; [exact Hs | exact H].
Defined.

(** X13. [refreshAccessToken] with nothing to refresh, where the slot is as
    the store left it. In the frontend it returns [null] without a request
    and without touching the store when the slot holds no session or a
    session whose refresh token is empty. In do-smart-ai it does so only
    when the slot holds no session: with a session it posts to the refresh
    endpoint, an empty refresh token included. *)
Theorem refresh_without_a_token (base : string) (w : World)
    (state : option StoredAuthState.t) :
  written w state ->
  (truthy (refresh_of state) = false ->
   djangoApi.refreshAccessToken base w = (Returned VNull, w))
  /\ (state = None ->
      database.refreshAccessToken base w = (Returned VNull, w))
  /\ (forall st : StoredAuthState.t,
        state = Some st ->
        sent (snd (database.refreshAccessToken base w))
        = (sent w ++ [database.refresh_request base (refresh_token st)])%list).
Proof.
  intros Hw. pose proof (getState_written w state Hw) as Hg.
  split; [|split].
  - intros Ht. unfold djangoApi.refreshAccessToken. rewrite bind_run, Hg.
    destruct state as [st|]; [|reflexivity].
    cbn [refresh_of] in Ht. rewrite Ht. reflexivity.
  - intros ->. unfold database.refreshAccessToken, database.authStore.getState.
    rewrite bind_run, Hg. reflexivity.
  - intros st ->.
    assert (Hr : database.refreshAccessToken base w
                 = try_catch (database.refresh_attempt base st) refresh_handler w).
    { unfold database.refreshAccessToken, database.authStore.getState.
      rewrite bind_run, Hg. reflexivity. }
    rewrite Hr, try_catch_run.
    pose proof (attempt_sent (do_smart_ai base) (do_smart_ai_laws base) st w) as Ha.
    cbn [attempt do_smart_ai refresh_call] in Ha.
    destruct (database.refresh_attempt base st w) as [[v | e] w1]; cbn [snd] in Ha.
    + exact Ha.
    + unfold refresh_handler. rewrite handler_run. cbn [snd].
      rewrite sent_cleared. exact Ha.
Qed.

Lemma refresh_without_a_token_witness :
  let w := mkWorld true ∅ [] [] [Http.Responds refreshed] [] [] in
  written w None
  /\ djangoApi.refreshAccessToken example_base w = (Returned VNull, w)
  /\ database.refreshAccessToken example_base w = (Returned VNull, w).
Proof.
  intros w.
  assert (Hw : written w None) by (right; left; reflexivity).
  destruct (refresh_without_a_token example_base w None Hw) as (H1 & H2 & _).
  split; [exact Hw|]. split; [exact (H1 eq_refl) | exact (H2 eq_refl)].
Defined.

(** ** Normalising what the server lists *)

(** X14. [normalizeHistoryItem] of the frontend, given an object, returns a
    history item without a [null] or [undefined] field: the id as a string;
    for the creation time [createdAt], else [created_at], else the empty
    string; for the user [userId], else [user], as strings, else the empty
    string. Given [null] or [undefined] it throws a type error. *)
Theorem normalizeHistoryItem_defaults (fields : list (string * JsVal)) (w : World) :
  (exists h : HistoryItem.t,
     djangoApi.normalizeHistoryItem (VObj fields) w = (Returned h, w)
     /\ history_defined h
     /\ HistoryItem.id h = VStr (to_String (get_prop fields "id"))
     /\ (is_nullish (get_prop fields "createdAt") = false ->
         HistoryItem.createdAt h = get_prop fields "createdAt")
     /\ (is_nullish (get_prop fields "createdAt") = true ->
         is_nullish (get_prop fields "created_at") = false ->
         HistoryItem.createdAt h = get_prop fields "created_at")
     /\ (is_nullish (get_prop fields "createdAt") = true ->
         is_nullish (get_prop fields "created_at") = true ->
         HistoryItem.createdAt h = VStr "")
     /\ (is_nullish (get_prop fields "userId") = false ->
         HistoryItem.userId h = VStr (to_String (get_prop fields "userId")))
     /\ (is_nullish (get_prop fields "userId") = true ->
         is_nullish (get_prop fields "user") = false ->
         HistoryItem.userId h = VStr (to_String (get_prop fields "user")))
     /\ (is_nullish (get_prop fields "userId") = true ->
         is_nullish (get_prop fields "user") = true ->
         HistoryItem.userId h = VStr ""))
  /\ djangoApi.normalizeHistoryItem VNull w = (Thrown TypeError, w)
  /\ djangoApi.normalizeHistoryItem VUndefined w = (Thrown TypeError, w).
Proof.
  split; [|split; reflexivity].
  eexists. split; [reflexivity|].
  cbn [prop HistoryItem.id HistoryItem.title HistoryItem.query HistoryItem.response
       HistoryItem.createdAt HistoryItem.userId].
  unfold history_defined, coalesce.
  cbn [HistoryItem.id HistoryItem.title HistoryItem.query HistoryItem.response
       HistoryItem.createdAt HistoryItem.userId].
  destruct (is_nullish (get_prop fields "title")) eqn:Et;
  destruct (is_nullish (get_prop fields "query")) eqn:Eq;
  destruct (is_nullish (get_prop fields "response")) eqn:Er;
  destruct (is_nullish (get_prop fields "createdAt")) eqn:Ec;
  destruct (is_nullish (get_prop fields "created_at")) eqn:Ec';
  destruct (is_nullish (get_prop fields "userId")) eqn:Eu;
  destruct (is_nullish (get_prop fields "user")) eqn:Eu';
  cbn [negb is_nullish];
  repeat split; try reflexivity; try assumption; intros; try discriminate; try reflexivity.
Qed.

Lemma normalizeHistoryItem_defaults_witness :
  let fields := [("id", VNum 4); ("query", VStr "what next?");
                 ("created_at", VStr "2024-05-01"); ("user", VNum 7)] in
  exists h : HistoryItem.t,
    djangoApi.normalizeHistoryItem (VObj fields) example_world = (Returned h, example_world)
    /\ HistoryItem.createdAt h = VStr "2024-05-01"
    /\ HistoryItem.userId h = VStr "7"
    /\ HistoryItem.title h = VStr "".
Proof.
  intros fields.
  destruct (proj1 (normalizeHistoryItem_defaults fields example_world))
    as (h & Hn & _ & _ & _ & Hc & _ & _ & Hu & _).
  exists h. split; [exact Hn|].
  split; [exact (Hc eq_refl eq_refl)|]. split; [exact (Hu eq_refl eq_refl)|].
  injection Hn as <-. reflexivity.
Defined.

Section Mapping.

Context {A : Type}.
Variable normalize : JsVal -> M A.
Variable result_of : JsVal -> A.
Hypothesis reads : forall (x : JsVal) (w : World),
  normalize x w = if is_nullish x then (Thrown TypeError, w) else (Returned (result_of x), w).

Lemma map_each_run (items : list JsVal) (w : World) :
  if forallb (fun x => negb (is_nullish x)) items
  then map_each normalize items w = (Returned (List.map result_of items), w)
       /\ Forall2 (fun item result => normalize item w = (Returned result, w))
                  items (List.map result_of items)
  else map_each normalize items w = (Thrown TypeError, w).
Proof.
  induction items as [|x items IH]; cbn [forallb map_each List.map].
  - split; [reflexivity | constructor].
  - rewrite bind_run, reads.
    destruct (is_nullish x) eqn:Ex; cbn [negb andb]; [reflexivity|].
    rewrite bind_run.
    destruct (forallb (fun x => negb (is_nullish x)) items).
    + destruct IH as (IH1 & IH2). rewrite IH1. split; [reflexivity|].
      constructor; [|exact IH2]. rewrite reads, Ex. reflexivity.
    + rewrite IH. reflexivity.
Qed.

Lemma maps_reply_of (fetching : M JsVal) :
  maps_reply (data ← fetching; array_map data normalize) fetching normalize.
Proof.
  intros w w1. split.
  - intros data Hf. rewrite bind_run, Hf. unfold array_map.
    destruct data as [| | b | n | s | items | fields]; try reflexivity.
    pose proof (map_each_run items w1) as H.
    destruct (forallb (fun x => negb (is_nullish x)) items).
    + destruct H as (H1 & H2). eexists. split; [exact H1 | exact H2].
    + exact H.
  - intros e Hf. rewrite bind_run, Hf. reflexivity.
Qed.

End Mapping.

(** X15. The calls that list tasks and history items, [getTasks] and
    [getHistory] of the frontend, [getTasks] of do-smart-ai and
    [historyApi.list]: a reply that is an array without [null] elements
    gives the list of its normalised elements, one for each and in order; a
    reply that is not an array (an object that wraps the list, say) and an
    array that holds [null] give a type error; an error of the request is
    thrown as it is. *)
Theorem list_calls_normalize_each (base : string)
    (params : option (list (string * JsVal))) :
  maps_reply (djangoApi.getTasks base params)
             (djangoApi.request base ("/tasks/" +:+ djangoApi.buildQueryString params)
                Http.no_options)
             djangoApi.normalizeTask
  /\ maps_reply (djangoApi.getHistory base)
                (djangoApi.request base "/ai/history/" Http.no_options)
                djangoApi.normalizeHistoryItem
  /\ maps_reply (database.getTasks base)
                (database.apiRequest base "/tasks/" Http.no_options)
                database.normalizeTask
  /\ maps_reply (historyApi.list base)
                (database.apiRequest base "/ai-history/" Http.no_options)
                historyApi.normalize.
Proof.
  split; [|split; [|split]].
  - unfold djangoApi.getTasks.
    eapply maps_reply_of. intros x w. unfold djangoApi.normalizeTask, reading.
    destruct (is_nullish x); [reflexivity|]. reflexivity.
  - unfold djangoApi.getHistory.
    eapply maps_reply_of. intros x w. unfold djangoApi.normalizeHistoryItem, reading.
    destruct (is_nullish x); [reflexivity|]. reflexivity.
  - unfold database.getTasks.
    eapply maps_reply_of. intros x w. unfold database.normalizeTask, reading.
    destruct (is_nullish x); [reflexivity|]. reflexivity.
  - unfold historyApi.list.
    eapply maps_reply_of. intros x w. unfold historyApi.normalize, reading.
    destruct (is_nullish x); [reflexivity|]. reflexivity.
Qed.

Lemma list_calls_normalize_each_witness :
  let wrapped := json_response 200 (VObj [("results", VArr [])]) in
  let w := logged_in [Http.Responds wrapped] in
  fst (djangoApi.getTasks example_base None w) = Thrown TypeError.
Proof.
  intros wrapped w.
  pose proof (proj1 (list_calls_normalize_each example_base None) w
                (snd (djangoApi.request example_base "/tasks/" Http.no_options w))) as H.
  destruct H as (H & _).
  specialize (H (VObj [("results", VArr [])])).
  cbv beta iota in H. rewrite H; [reflexivity|].
  vm_compute. reflexivity.
Defined.

(** ** The query string of [getTasks] *)

Lemma count_char_app (c : ascii) (a b : string) :
  count_char c (a +:+ b) = (count_char c a + count_char c b)%nat.
Proof.
  induction a as [|x a IH]; [rewrite append_nil; reflexivity|].
  rewrite append_cons. cbn [count_char]. rewrite IH. lia.
Qed.

Lemma all_chars_app (p : ascii -> bool) (a b : string) :
  all_chars p (a +:+ b) = all_chars p a && all_chars p b.
Proof.
  induction a as [|x a IH]; [rewrite append_nil; reflexivity|].
  rewrite append_cons. cbn [all_chars]. rewrite IH. apply andb_assoc.
Qed.

Lemma all_chars_count (p : ascii -> bool) (c : ascii) (s : string) :
  all_chars p s = true -> p c = false -> count_char c s = 0%nat.
Proof.
  intros Hs Hc. induction s as [|x s IH]; [reflexivity|].
  cbn [all_chars] in Hs. apply andb_prop in Hs. destruct Hs as (Hx & Hs).
  cbn [count_char]. rewrite (IH Hs).
  destruct (Ascii.eqb_spec x c) as [->|_]; [congruence | reflexivity].
Qed.

Lemma all_chars_weaken (p q : ascii -> bool) (s : string) :
  (forall c, p c = true -> q c = true) -> all_chars p s = true -> all_chars q s = true.
Proof.
  intros Hpq. induction s as [|x s IH]; [reflexivity|].
  cbn [all_chars]. intros H. apply andb_prop in H. destruct H as (Hx & Hs).
  rewrite (Hpq x Hx), (IH Hs). reflexivity.
Qed.

Lemma encode_byte_chars (c : ascii) :
  all_chars is_encoded_char (URLSearchParams.encode_byte c) = true.
Proof. destruct c as [[] [] [] [] [] [] [] []]; vm_compute; reflexivity. Qed.

Lemma encode_chars (s : string) :
  all_chars is_encoded_char (URLSearchParams.encode s) = true.
Proof.
  induction s as [|c s IH]; [reflexivity|].
  cbn [URLSearchParams.encode]. rewrite all_chars_app, encode_byte_chars, IH. reflexivity.
Qed.

Lemma pair_text_counts (name value : string) :
  count_char "&" (pair_text name value) = 0%nat
  /\ count_char "=" (pair_text name value) = 1%nat
  /\ count_char "?" (pair_text name value) = 0%nat
  /\ all_chars is_query_char (pair_text name value) = true.
Proof.
  unfold pair_text.
  pose proof (encode_chars name) as Hn. pose proof (encode_chars value) as Hv.
  rewrite !count_char_app, !all_chars_app.
  rewrite !(all_chars_count is_encoded_char _ _ Hn) by reflexivity.
  rewrite !(all_chars_count is_encoded_char _ _ Hv) by reflexivity.
  assert (Hw : forall c, is_encoded_char c = true -> is_query_char c = true).
  { intros c Hc. unfold is_query_char. rewrite Hc. reflexivity. }
  rewrite (all_chars_weaken _ _ _ Hw Hn), (all_chars_weaken _ _ _ Hw Hv).
  repeat split.
Qed.

Lemma join_counts (parts : list string) :
  Forall (fun p => count_char "&" p = 0%nat /\ count_char "=" p = 1%nat
                   /\ count_char "?" p = 0%nat /\ all_chars is_query_char p = true) parts ->
  count_char "&" (join "&" parts) = (length parts - 1)%nat
  /\ count_char "=" (join "&" parts) = length parts
  /\ count_char "?" (join "&" parts) = 0%nat
  /\ all_chars is_query_char (join "&" parts) = true.
Proof.
  induction 1 as [|p parts (H1 & H2 & H3 & H4) Hrest IH].
  - repeat split.
  - destruct parts as [|p' parts].
    + cbn [join length]. repeat split; assumption.
    + change (join "&" (p :: p' :: parts)) with (p +:+ "&" +:+ join "&" (p' :: parts)).
      destruct IH as (I1 & I2 & I3 & I4).
      rewrite !count_char_app, !all_chars_app, H1, H2, H3, H4, I1, I2, I3, I4.
      cbn [length]. repeat split; cbn; lia.
Qed.

Lemma entries_fold (entries : list (string * JsVal)) (acc : URLSearchParams.t) :
  fold_left
    (fun searchParams kv =>
       let value := snd kv in
       if is_nullish value
          || match value with VStr s => String.eqb s "" | _ => false end
       then searchParams
       else URLSearchParams.append searchParams (fst kv) (to_String value))
    entries acc
  = (acc ++ List.map (fun kv => (fst kv, to_String (snd kv)))
              (List.filter (fun kv => negb (left_out (snd kv))) entries))%list.
Proof.
  revert acc. induction entries as [|[k v] entries IH]; intros acc.
  - cbn. rewrite app_nil_r. reflexivity.
  - cbn [fold_left List.filter snd fst]. rewrite IH.
    destruct v as [| | b | n | s | items | fields]; cbn [is_nullish left_out negb orb];
      try reflexivity;
      try (unfold URLSearchParams.append; rewrite <- app_assoc; reflexivity).
    destruct (String.eqb s ""); cbn [negb]; [reflexivity|].
    unfold URLSearchParams.append. rewrite <- app_assoc. reflexivity.
Qed.

(** X16. [buildQueryString] is well formed. Entries whose value is
    [undefined], [null] or the empty string are left out; when none is left
    (or no object is given) the result is empty. Otherwise it is [?] and a
    query with one [name=value] pair for each entry kept, in order, joined
    by [&]: the query has exactly one [=] for each pair, one [&] between
    two pairs and no [?], and all its other characters are letters, digits
    and [* - . _ + %], so that no name or value can add a pair. *)
Theorem buildQueryString_is_well_formed (params : option (list (string * JsVal))) :
  let kept := kept_entries params in
  (kept = [] -> djangoApi.buildQueryString params = "")
  /\ (kept <> [] ->
      exists query : string,
        djangoApi.buildQueryString params = "?" +:+ query
        /\ query = join "&" (List.map (fun kv => pair_text (fst kv) (to_String (snd kv)))
                               kept)
        /\ count_char "=" query = length kept
        /\ count_char "&" query = (length kept - 1)%nat
        /\ count_char "?" query = 0%nat
        /\ all_chars is_query_char query = true).
Proof.
  intros kept.
  destruct params as [entries|]; [|split; [reflexivity | intros H; contradiction H; reflexivity]].
  unfold djangoApi.buildQueryString. rewrite entries_fold, app_nil_l.
  unfold URLSearchParams.toString. rewrite List.map_map. cbn [fst snd].
  change (List.filter (fun kv => negb (left_out (snd kv))) entries) with kept.
  change (fun x : string * JsVal =>
            URLSearchParams.encode (fst x) +:+ "=" +:+ URLSearchParams.encode (to_String (snd x)))
    with (fun kv : string * JsVal => pair_text (fst kv) (to_String (snd kv))).
  set (parts := List.map (fun kv => pair_text (fst kv) (to_String (snd kv))) kept).
  assert (Hparts : Forall (fun p => count_char "&" p = 0%nat /\ count_char "=" p = 1%nat
                            /\ count_char "?" p = 0%nat
                            /\ all_chars is_query_char p = true) parts).
  { unfold parts. apply Forall_forall. intros p Hp.
    apply list_elem_of_In, in_map_iff in Hp. destruct Hp as (kv & <- & _).
    apply pair_text_counts. }
  destruct (join_counts parts Hparts) as (J1 & J2 & J3 & J4).
  assert (Hlen : length parts = length kept) by (unfold parts; apply length_map).
  split.
  - intros Hk. unfold parts. rewrite Hk. reflexivity.
  - intros Hk.
    assert (Hq : String.eqb (join "&" parts) "" = false).
    { destruct (join "&" parts) as [|c q] eqn:E; [|reflexivity].
      cbn [count_char] in J2. destruct kept; [contradiction Hk; reflexivity|].
      cbn [length] in Hlen. lia. }
    rewrite Hq. cbn [negb]. exists (join "&" parts).
    split; [reflexivity|]. split; [reflexivity|].
    rewrite <- Hlen. repeat split; assumption.
Qed.

Lemma buildQueryString_is_well_formed_witness :
  let params := Some [("status", VStr "todo"); ("search", VStr "a&b=c d");
                      ("priority", VNull); ("page", VNum 2)] in
  kept_entries params <> []
  /\ djangoApi.buildQueryString params = "?status=todo&search=a%26b%3Dc+d&page=2".
Proof.
  intros params.
  assert (Hk : kept_entries params <> []) by discriminate.
  split; [exact Hk|].
  destruct (proj2 (buildQueryString_is_well_formed params) Hk) as (query & Hb & Hq & _).
  rewrite Hb, Hq. vm_compute. reflexivity.
Defined.

(** ** What the task calls of do-smart-ai send *)

Lemma serialize_members (fields : list (string * JsVal)) :
  serialize (VObj fields) = "{" +:+ join "," (members fields) +:+ "}".
Proof. reflexivity. Qed.

Lemma members_defined (fields : list (string * JsVal)) :
  members (defined_fields fields) = members fields.
Proof.
  induction fields as [|[k v] fields IH]; [reflexivity|].
  unfold defined_fields in *. cbn [List.filter snd].
  destruct v; cbn [is_undefined negb members]; rewrite ?IH; reflexivity.
Qed.

Lemma stringify_defined (fields : list (string * JsVal)) :
  stringify_object (defined_fields fields) = stringify_object fields.
Proof.
  unfold stringify_object, JSON_stringify. rewrite !serialize_members, members_defined.
  reflexivity.
Qed.

Lemma is_undefined_eq (v : JsVal) : is_undefined v = true -> v = VUndefined.
Proof. destruct v; intros H; (reflexivity || discriminate H). Qed.

Lemma update_payload_defined (updates : list (string * JsVal)) :
  database.update_payload updates = defined_fields (projection updates).
Proof.
  unfold database.update_payload, database.copy_defined, defined_fields, projection,
    task_fields.
  cbn [List.map List.filter snd].
  destruct (is_undefined (get_prop updates "title"));
  destruct (is_undefined (get_prop updates "description"));
  destruct (is_undefined (get_prop updates "dueDate"));
  destruct (is_undefined (get_prop updates "priority"));
  destruct (is_undefined (get_prop updates "status"));
  reflexivity.
Qed.

Lemma snd_bind_pure {A B : Type} (m : M A) (k : A -> M B) (w : World) :
  (forall a w', snd (k a w') = w') -> snd ((m ≫= k) w) = snd (m w).
Proof.
  intros Hk. rewrite bind_run. destruct (m w) as [[a | e] w']; [apply Hk | reflexivity].
Qed.

Lemma reading_world {A : Type} (payload : JsVal) (result : A) (w : World) :
  snd (reading payload result w) = w.
Proof. unfold reading. destruct (is_nullish payload); reflexivity. Qed.

Lemma apiRequest_first_sends (base path method body : string) (w : World) :
  first_sends (database.apiRequest base path
                 (Http.mkOptions None None (Some method) (Some (Http.BodyText body))))
              w method (base +:+ path) body.
Proof.
  destruct (run_sent (do_smart_ai base) (do_smart_ai_laws base) path
              (Http.mkOptions None None (Some method) (Some (Http.BodyText body))) w)
    as (more & Hs).
  eexists _, more. split; [exact Hs|]. repeat split.
Qed.

Lemma first_sends_bind {A B : Type} (m : M A) (k : A -> M B) (w : World)
    (method url body : string) :
  (forall a w', snd (k a w') = w') ->
  first_sends m w method url body -> first_sends (m ≫= k) w method url body.
Proof.
  intros Hk (q & more & Hs & rest). exists q, more.
  rewrite (snd_bind_pure m k w Hk). split; [exact Hs | exact rest].
Qed.

(** X17. What [createTask] and [updateTask] of do-smart-ai send. Both send
    the JSON text of the same fields of their argument: title, description,
    dueDate, priority and status, those that are not [undefined]; [null] is
    sent. No other property of the argument (an id, a user id, the
    timestamps) reaches the body. [createTask] posts it to /tasks/,
    [updateTask] patches /tasks/id/ with it. *)
Theorem task_calls_send_five_fields (base id : string) (o : list (string * JsVal))
    (w : World) :
  let body := stringify_object (projection o) in
  first_sends (database.createTask base o) w "POST" (base +:+ "/tasks/") body
  /\ first_sends (database.updateTask base id o) w "PATCH"
                 (base +:+ "/tasks/" +:+ id +:+ "/") body
  /\ database.update_payload o = defined_fields (projection o)
  /\ forall k : string,
       get_prop (database.update_payload o) k
       = if bool_decide (k ∈ task_fields) then get_prop o k else VUndefined.
Proof.
  intros body.
  assert (Hpure : forall (a : JsVal) (w' : World), snd (database.normalizeTask a w') = w')
    by (intros a w'; apply reading_world).
  split; [|split; [|split]].
  - unfold database.createTask. apply first_sends_bind; [exact Hpure|].
    apply apiRequest_first_sends.
  - unfold database.updateTask. apply first_sends_bind; [exact Hpure|].
    rewrite update_payload_defined, stringify_defined. fold body.
    apply (apiRequest_first_sends base ("/tasks/" +:+ id +:+ "/") "PATCH" body w).
  - apply update_payload_defined.
  - intros k. rewrite update_payload_defined.
    unfold defined_fields, projection. cbn [task_fields List.map List.filter snd].
    destruct (bool_decide_reflect (k ∈ task_fields)) as [Hin | Hout].
    + unfold task_fields in Hin.
      repeat (apply elem_of_cons in Hin; destruct Hin as [-> | Hin]);
        [| | | | |inversion Hin];
        destruct (is_undefined (get_prop o "title")) eqn:E1;
        destruct (is_undefined (get_prop o "description")) eqn:E2;
        destruct (is_undefined (get_prop o "dueDate")) eqn:E3;
        destruct (is_undefined (get_prop o "priority")) eqn:E4;
        destruct (is_undefined (get_prop o "status")) eqn:E5;
        cbn [negb get_prop String.eqb Ascii.eqb Bool.eqb];
        first [reflexivity
              | symmetry; apply is_undefined_eq; assumption].
    + assert (Hne : forall a, a ∈ task_fields -> String.eqb a k = false).
      { intros a Ha. apply String.eqb_neq. intros ->. apply Hout. exact Ha. }
      assert (H1 := Hne "title" ltac:(repeat constructor)).
      assert (H2 := Hne "description" ltac:(repeat constructor)).
      assert (H3 := Hne "dueDate" ltac:(repeat constructor)).
      assert (H4 := Hne "priority" ltac:(repeat constructor)).
      assert (H5 := Hne "status" ltac:(repeat constructor)).
      destruct (is_undefined (get_prop o "title"));
      destruct (is_undefined (get_prop o "description"));
      destruct (is_undefined (get_prop o "dueDate"));
      destruct (is_undefined (get_prop o "priority"));
      destruct (is_undefined (get_prop o "status"));
      cbn [negb get_prop]; rewrite ?H1, ?H2, ?H3, ?H4, ?H5; reflexivity.
Qed.

Lemma task_calls_send_five_fields_witness :
  let o := [("id", VStr "3"); ("title", VStr "Plan"); ("dueDate", VNull);
            ("userId", VStr "7")] in
  database.update_payload o = [("title", VStr "Plan"); ("dueDate", VNull)]
  /\ get_prop (database.update_payload o) "userId" = VUndefined
  /\ first_sends (database.updateTask example_base "3" o) (logged_in []) "PATCH"
                 "http://localhost:8000/api/tasks/3/"
                 (String "{" (quote "title" +:+ ":" +:+ quote "Plan" +:+ ","
                              +:+ quote "dueDate" +:+ ":null}")).
Proof.
  intros o.
  destruct (task_calls_send_five_fields example_base "3" o (logged_in []))
    as (_ & H2 & H3 & H4).
  split; [exact H3|]. split; [exact (H4 "userId") | exact H2].
Defined.

(** ** The history title, the profile and the settings *)

Lemma js_length_app (a b : string) :
  js_length (a +:+ b) = (js_length a + js_length b)%nat.
Proof.
  induction a as [|c a IH]; [rewrite append_nil; reflexivity|].
  rewrite append_cons. cbn [js_length]. rewrite IH. lia.
Qed.

Lemma continuation_byte (k : N) :
  (k < 64)%N -> is_continuation (ascii_of_N (128 + k)) = true.
Proof.
  intros Hk. unfold is_continuation.
  rewrite N_ascii_embedding by lia.
  apply andb_true_intro. split; [apply N.leb_le | apply N.ltb_lt]; lia.
Qed.

Lemma high_surrogate_length (b1 b2 b3 : N) : js_length (high_surrogate b1 b2 b3) = 1%nat.
Proof.
  unfold high_surrogate. cbn [js_length]. unfold code_units at 2 3.
  rewrite !continuation_byte by (apply N.mod_lt; discriminate).
  reflexivity.
Qed.

Lemma code_units_bound (c : ascii) : (code_units c <= 2)%nat.
Proof.
  unfold code_units. destruct (is_continuation c); [lia|].
  destruct (240 <=? N_of_ascii c)%N; lia.
Qed.

Lemma js_slice_length (n : nat) (s : string) :
  js_length (js_slice n s) = Nat.min n (js_length s).
Proof.
  revert n. induction s as [|c s IH]; intros n; cbn [js_slice js_length].
  - lia.
  - destruct (is_continuation c) eqn:Ec.
    + cbn [js_length]. rewrite IH. unfold code_units. rewrite Ec. reflexivity.
    + pose proof (code_units_bound c) as Hu.
      assert (H1 : (1 <= code_units c)%nat).
      { unfold code_units. rewrite Ec. destruct (240 <=? N_of_ascii c)%N; lia. }
      destruct (Nat.leb_spec (code_units c) n) as [Hle | Hgt].
      * cbn [js_length]. rewrite IH. lia.
      * destruct (Nat.eqb_spec n 0) as [-> | Hn]; [reflexivity|].
        rewrite high_surrogate_length. lia.
Qed.

Lemma js_slice_all (n : nat) (s : string) :
  (js_length s <= n)%nat -> js_slice n s = s.
Proof.
  revert n. induction s as [|c s IH]; intros n H; cbn [js_slice js_length] in *;
    [reflexivity|].
  destruct (is_continuation c) eqn:Ec.
  - rewrite IH; [reflexivity|]. unfold code_units in H. rewrite Ec in H. exact H.
  - destruct (Nat.leb_spec (code_units c) n) as [Hle | Hgt]; [|lia].
    rewrite IH by lia. reflexivity.
Qed.

(** X18. The title [saveInteraction] gives an interaction, with lengths
    counted in UTF-16 code units as [length] and [slice] count them. A
    query of at most 50 units is its own title; a longer one is cut to its
    first 50 units and followed by three dots, which makes 53. When the cut
    does not fall between the two surrogates of a character (the slice is
    then the start of the query), the call posts title, query and response
    to /ai-history/. *)
Theorem saveInteraction_title (base query response : string) (w : World) :
  let title := historyApi.title_of query in
  (js_length title <= 53)%nat
  /\ ((js_length query <= 50)%nat -> title = query)
  /\ ((50 < js_length query)%nat ->
      title = js_slice 50 query +:+ "..."
      /\ js_length (js_slice 50 query) = 50%nat
      /\ js_length title = 53%nat)
  /\ (String.prefix (js_slice 50 query) query = true ->
      first_sends (historyApi.saveInteraction base query response) w "POST"
                  (base +:+ "/ai-history/")
                  (stringify_object [("title", VStr title); ("query", VStr query);
                                     ("response", VStr response)])).
Proof.
  intros title.
  assert (Hsend : first_sends (historyApi.saveInteraction base query response) w "POST"
                    (base +:+ "/ai-history/")
                    (stringify_object [("title", VStr title); ("query", VStr query);
                                       ("response", VStr response)])).
  { unfold historyApi.saveInteraction. apply first_sends_bind.
    - intros a w'. apply reading_world.
    - apply apiRequest_first_sends. }
  enough (H3 : (js_length title <= 53)%nat
               /\ ((js_length query <= 50)%nat -> title = query)
               /\ ((50 < js_length query)%nat ->
                   title = js_slice 50 query +:+ "..."
                   /\ js_length (js_slice 50 query) = 50%nat
                   /\ js_length title = 53%nat))
    by exact (conj (proj1 H3) (conj (proj1 (proj2 H3))
                (conj (proj2 (proj2 H3)) (fun _ => Hsend)))).
  clear Hsend. unfold title, historyApi.title_of.
  destruct (Nat.ltb_spec 50 (js_length query)) as [Hlong | Hshort].
  - assert (H50 : js_length (js_slice 50 query) = 50%nat)
      by (rewrite js_slice_length; lia).
    assert (H53 : js_length (js_slice 50 query +:+ "...") = 53%nat)
      by (rewrite js_length_app, H50; reflexivity).
    split; [rewrite H53; lia|]. split; [lia|].
    intros _. repeat split; assumption.
  - rewrite append_empty_r, (js_slice_all 50 query Hshort).
    split; [lia|]. split; [reflexivity | lia].
Qed.

Lemma saveInteraction_title_witness :
  let long := "Which of my tasks should I do first, given that the report is due on Friday?" in
  ((String.length (accents 26) = 52)%nat
   /\ (js_length (accents 26) <= 50)%nat
   /\ historyApi.title_of (accents 26) = accents 26)
  /\ ((50 < js_length long)%nat
      /\ historyApi.title_of long
         = "Which of my tasks should I do first, given that th...").
Proof.
  intros long.
  assert (Hs : (js_length (accents 26) <= 50)%nat) by (vm_compute; lia).
  assert (Hl : (50 < js_length long)%nat) by (vm_compute; lia).
  destruct (saveInteraction_title example_base (accents 26) "ok" example_world)
    as (_ & H1 & _).
  destruct (saveInteraction_title example_base long "ok" example_world)
    as (_ & _ & H2 & _).
  split.
  - split; [reflexivity|]. split; [exact Hs | exact (H1 Hs)].
  - split; [exact Hl|]. destruct (H2 Hl) as (-> & _). vm_compute. reflexivity.
Defined.

Lemma profile_body_defined (payload : list (string * JsVal)) :
  profile_body (get_prop payload "name") (get_prop payload "avatarUrl")
  = defined_fields (profile_sent payload).
Proof.
  unfold profile_body, defined_fields, profile_sent. cbn [List.filter snd].
  destruct (is_undefined (get_prop payload "name"));
  destruct (is_undefined (get_prop payload "avatarUrl")); reflexivity.
Qed.

Lemma settings_body_defined (payload : list (string * JsVal)) :
  settings_body (get_prop payload "theme") (get_prop payload "aiStyle")
                (get_prop payload "language")
  = defined_fields (settings_sent payload).
Proof.
  unfold settings_body, defined_fields, settings_sent. cbn [List.filter snd].
  destruct (is_undefined (get_prop payload "theme"));
  destruct (is_undefined (get_prop payload "aiStyle"));
  destruct (is_undefined (get_prop payload "language")); reflexivity.
Qed.

Lemma reads_profile_of (fetching : M JsVal) :
  reads_profile (data ← fetching; profile_of data) fetching.
Proof.
  intros w w1 data Hf. rewrite bind_run, Hf. unfold profile_of, reading.
  destruct (is_nullish data); [reflexivity|].
  eexists. split; [reflexivity|]. cbn [Profile.name Profile.avatarUrl]. unfold coalesce.
  destruct (is_nullish (prop data "name")) eqn:En;
  destruct (is_nullish (prop data "avatar_url")) eqn:Ea;
  repeat split; intros; try reflexivity; try assumption; try discriminate.
Qed.

Lemma reads_settings_of (fetching : M JsVal) :
  reads_settings (data ← fetching; settings_of data) fetching.
Proof.
  intros w w1 data Hf. rewrite bind_run, Hf. unfold settings_of, reading.
  destruct (is_nullish data); reflexivity.
Qed.

Lemma run_first_sends (c : Client) (base path method body : string) (w : World) :
  client_laws c ->
  (forall options h,
     sends c path options h
     = Http.mkRequest (base +:+ path) (Http.method options) h (Http.body options)) ->
  first_sends (run c path (Http.mkOptions None None (Some method)
                             (Some (Http.BodyText body))))
              w method (base +:+ path) body.
Proof.
  intros laws Hsends.
  destruct (run_sent c laws path
              (Http.mkOptions None None (Some method) (Some (Http.BodyText body))) w)
    as (more & Hs).
  eexists _, more. split; [exact Hs|]. rewrite Hsends. repeat split.
Qed.

(** X19. [profileApi], in the frontend and in do-smart-ai. [updateProfile]
    puts to /profile/ the JSON text of the name and the avatar of its
    argument, the avatar under the wire name [avatar_url], each only when it
    is not [undefined]. [getProfile] and [updateProfile] return a profile
    whose name and avatar are never [null] or [undefined]: the empty string
    stands for a missing one; a reply without a body (a 204) gives a type
    error. *)
Theorem profile_calls (base : string) :
  profile_contract (frontend base) base (frontend_database.getProfile base)
                   (frontend_database.updateProfile base)
  /\ profile_contract (do_smart_ai base) base (database.getProfile base)
                      (database.updateProfile base).
Proof.
  split; (split; [apply reads_profile_of|]); intros payload; split.
  - unfold frontend_database.updateProfile.
    rewrite profile_body_defined, stringify_defined. apply reads_profile_of.
  - intros w. unfold frontend_database.updateProfile.
    rewrite profile_body_defined, stringify_defined.
    apply first_sends_bind.
    + intros a w'. apply reading_world.
    + apply (run_first_sends (frontend base) base "/profile/" "PUT" _ w
               (frontend_laws base)).
      intros options h. reflexivity.
  - unfold database.updateProfile.
    rewrite profile_body_defined, stringify_defined. apply reads_profile_of.
  - intros w. unfold database.updateProfile.
    rewrite profile_body_defined, stringify_defined.
    apply first_sends_bind.
    + intros a w'. apply reading_world.
    + apply (run_first_sends (do_smart_ai base) base "/profile/" "PUT" _ w
               (do_smart_ai_laws base)).
      intros options h. reflexivity.
Qed.

Lemma profile_calls_witness :
  let payload := [("avatarUrl", VStr "https://img/a.png")] in
  let reply := json_response 200 (VObj [("name", VNull)]) in
  let w := logged_in [Http.Responds reply] in
  first_sends (database.updateProfile example_base payload) w "PUT"
              "http://localhost:8000/api/profile/"
              (String "{" (quote "avatar_url" +:+ ":" +:+ quote "https://img/a.png" +:+ "}"))
  /\ fst (database.updateProfile example_base payload w)
     = Returned (Profile.mk (VStr "") (VStr "")).
Proof.
  intros payload reply w.
  destruct (proj2 (profile_calls example_base)) as (_ & H).
  destruct (H payload) as (Hr & Hs).
  split; [exact (Hs w)|].
  specialize (Hr w (snd (run (do_smart_ai example_base) "/profile/"
                           (put_json (profile_sent payload)) w))
                (VObj [("name", VNull)]) ltac:(vm_compute; reflexivity)).
  cbv beta iota in Hr. destruct Hr as (p & Hp & _ & _ & _ & Hn & _ & Ha).
  rewrite Hp. cbn [fst]. destruct p as [n a]. cbn [Profile.name Profile.avatarUrl] in Hn, Ha.
  rewrite (Hn eq_refl), (Ha eq_refl). reflexivity.
Defined.

(** X20. [settingsApi], in the frontend and in do-smart-ai.
    [updateSettings] puts to /settings/ the JSON text of the theme, the
    style and the language of its argument, the style under the wire name
    [ai_response_style], each only when it is not [undefined]. The reply is
    read back under the same names and copied as it comes, with no default:
    a field the reply lacks is [undefined] in the result, and a reply that
    echoes the object sent gives back the settings of the argument. *)
Theorem settings_calls (base : string) :
  settings_contract (frontend base) base (frontend_database.getSettings base)
                    (frontend_database.updateSettings base)
  /\ settings_contract (do_smart_ai base) base (database.getSettings base)
                       (database.updateSettings base).
Proof.
  split; (split; [apply reads_settings_of|]); intros payload.
  - assert (Hr : reads_settings (frontend_database.updateSettings base payload)
                   (run (frontend base) "/settings/" (put_json (settings_sent payload)))).
    { unfold frontend_database.updateSettings.
      rewrite settings_body_defined, stringify_defined. apply reads_settings_of. }
    split; [exact Hr|]. split.
    + intros w. unfold frontend_database.updateSettings.
      rewrite settings_body_defined, stringify_defined.
      apply first_sends_bind.
      * intros a w'. apply reading_world.
      * apply (run_first_sends (frontend base) base "/settings/" "PUT" _ w
                 (frontend_laws base)).
        intros options h. reflexivity.
    + intros w w1 Hrun. apply (Hr w w1 _ Hrun).
  - assert (Hr : reads_settings (database.updateSettings base payload)
                   (run (do_smart_ai base) "/settings/" (put_json (settings_sent payload)))).
    { unfold database.updateSettings.
      rewrite settings_body_defined, stringify_defined. apply reads_settings_of. }
    split; [exact Hr|]. split.
    + intros w. unfold database.updateSettings.
      rewrite settings_body_defined, stringify_defined.
      apply first_sends_bind.
      * intros a w'. apply reading_world.
      * apply (run_first_sends (do_smart_ai base) base "/settings/" "PUT" _ w
                 (do_smart_ai_laws base)).
        intros options h. reflexivity.
    + intros w w1 Hrun. apply (Hr w w1 _ Hrun).
Qed.

Lemma settings_calls_witness :
  let payload := [("aiStyle", VStr "concise")] in
  let reply := json_response 200 (VObj [("ai_response_style", VStr "concise")]) in
  let w := logged_in [Http.Responds reply] in
  fst (frontend_database.updateSettings example_base payload w)
  = Returned (Settings.mk VUndefined (VStr "concise") VUndefined).
Proof.
  intros payload reply w.
  destruct (proj1 (settings_calls example_base)) as (_ & H).
  destruct (H payload) as (Hr & _ & _).
  specialize (Hr w (snd (run (frontend example_base) "/settings/"
                           (put_json (settings_sent payload)) w))
                (VObj [("ai_response_style", VStr "concise")])
                ltac:(vm_compute; reflexivity)).
  cbv beta iota in Hr. rewrite Hr. reflexivity.
Defined.

(** ** The other branches of the assistant *)

Lemma prefix_refl (s : string) : String.prefix s s = true.
Proof.
  induction s as [|c s IH]; [reflexivity|]. cbn [String.prefix].
  destruct (ascii_dec c c) as [_ | H]; [exact IH | contradiction H; reflexivity].
Qed.

Lemma prefix_app (n s b : string) :
  String.prefix n s = true -> String.prefix n (s +:+ b) = true.
Proof.
  revert s. induction n as [|c n IH]; intros s H; [destruct (s +:+ b); reflexivity|].
  destruct s as [|x s]; [discriminate H|].
  rewrite append_cons. cbn [String.prefix] in *.
  destruct (ascii_dec c x); [apply IH; exact H | discriminate H].
Qed.

Lemma includes_refl (s : string) : includes s s = true.
Proof. destruct s as [|c s]; [reflexivity|]. cbn [includes]. rewrite prefix_refl. reflexivity. Qed.

Lemma includes_app_l (n s b : string) :
  includes n s = true -> includes n (s +:+ b) = true.
Proof.
  induction s as [|x s IH]; intros H.
  - cbn [includes] in H. rewrite orb_false_r in H.
    destruct n as [|c n]; [|discriminate H].
    destruct ("" +:+ b); reflexivity.
  - rewrite append_cons. cbn [includes] in *.
    apply orb_prop in H. destruct H as [H | H].
    + pose proof (prefix_app n (String x s) b H) as Hp. rewrite append_cons in Hp.
      rewrite Hp. reflexivity.
    + rewrite (IH H). apply orb_true_r.
Qed.

Lemma includes_app_r (n a s : string) :
  includes n s = true -> includes n (a +:+ s) = true.
Proof.
  intros H. induction a as [|x a IH]; [rewrite append_nil; exact H|].
  rewrite append_cons. cbn [includes]. rewrite IH. apply orb_true_r.
Qed.

Lemma includes_join (sep : string) (parts : list string) (p : string) :
  In p parts -> includes p (join sep parts) = true.
Proof.
  induction parts as [|q parts IH]; intros Hin; [contradiction Hin|].
  destruct parts as [|q' parts].
  - destruct Hin as [-> | []]. apply includes_refl.
  - change (join sep (q :: q' :: parts)) with (q +:+ sep +:+ join sep (q' :: parts)).
    destruct Hin as [-> | Hin].
    + apply includes_app_l, includes_refl.
    + apply includes_app_r, includes_app_r, IH. exact Hin.
Qed.

Lemma filter_filter_same {A : Type} (f : A -> bool) (l : list A) :
  List.filter f (List.filter f l) = List.filter f l.
Proof.
  induction l as [|x l IH]; [reflexivity|]. cbn [List.filter].
  destruct (f x) eqn:E; [|exact IH]. cbn [List.filter]. rewrite E, IH. reflexivity.
Qed.

Lemma filter_pending (overdue : Task.t -> bool) (tasks : list Task.t) :
  List.filter (fun t => if negb (truthy (Task.dueDate t))
                           || database.is_str (Task.status t) "completed"
                        then false else overdue t)
              (List.filter pending tasks)
  = List.filter (fun t => if negb (truthy (Task.dueDate t))
                             || database.is_str (Task.status t) "completed"
                          then false else overdue t) tasks.
Proof.
  induction tasks as [|t tasks IH]; [reflexivity|]. cbn [List.filter].
  unfold pending at 1.
  destruct (truthy (Task.dueDate t)) eqn:E1;
    destruct (database.is_str (Task.status t) "completed") eqn:E2;
    cbn [negb andb orb]; try exact IH.
  cbn [List.filter]. rewrite E1, E2. cbn [negb orb]. rewrite IH. reflexivity.
Qed.

(** X21. A message that holds one of the words priority, first or
    important (in any case) is answered from the urgent tasks alone, those
    of high priority that are not completed: neither the clock nor the
    random generator nor any other task changes the answer. With no urgent
    task the answer is the fixed praise; otherwise it names every urgent
    task, its title between double quotes. *)
Theorem assistant_recommends_urgent_tasks (overdue overdue' : Task.t -> bool)
    (random random' : nat) (message : string) (tasks : list Task.t) :
  on_priority_branch (toLowerCase message) = true ->
  let answer := database.askAssistant overdue random message tasks in
  answer = database.askAssistant overdue' random' message (List.filter urgent tasks)
  /\ (List.filter urgent tasks = [] -> answer = praise)
  /\ forall t : Task.t,
       In t tasks -> urgent t = true ->
       includes (database.quoted_title t) answer = true.
Proof.
  intros Hb answer. unfold answer, database.askAssistant.
  unfold on_priority_branch in Hb. rewrite Hb.
  fold urgent.
  change (fun t : Task.t =>
            database.is_str (Task.priority t) "high"
            && negb (database.is_str (Task.status t) "completed")) with urgent.
  rewrite filter_filter_same.
  split; [reflexivity|]. split.
  - intros ->. reflexivity.
  - intros t Hin Hu.
    assert (Hf : In t (List.filter urgent tasks)) by (apply filter_In; split; assumption).
    destruct (List.filter urgent tasks) as [|u us] eqn:E; [contradiction Hf|].
    cbn [length Nat.ltb Nat.leb].
    apply includes_app_r, includes_app_l, includes_join.
    apply in_map. exact Hf.
Qed.

Lemma assistant_recommends_urgent_tasks_witness :
  let urgent_task := Task.mk (VStr "2") (VStr "File taxes") (VStr "") VNull (VStr "high")
                             (VStr "todo") (VStr "") (VStr "") (VStr "7") in
  let tasks := [task_with_status "completed"; urgent_task] in
  on_priority_branch (toLowerCase "What should I do FIRST?") = true
  /\ includes (database.quoted_title urgent_task)
              (database.askAssistant (fun _ => false) 0 "What should I do FIRST?" tasks)
     = true.
Proof.
  intros urgent_task tasks.
  assert (Hb : on_priority_branch (toLowerCase "What should I do FIRST?") = true)
    by (vm_compute; reflexivity).
  split; [exact Hb|].
  destruct (assistant_recommends_urgent_tasks (fun _ => false) (fun _ => false) 0 0
              "What should I do FIRST?" tasks Hb) as (_ & _ & H).
  apply H; [right; left; reflexivity | vm_compute; reflexivity].
Defined.

(** X22. A message that holds overdue or late, and none of the words of
    the priority branch, is answered from the pending tasks alone, those
    that have a due date and are not completed: a completed task and a task
    without a due date are never counted, whatever the clock says of them,
    and the random generator plays no part. When the clock finds no pending
    task overdue the answer is the fixed good news. *)
Theorem assistant_counts_pending_tasks_only (overdue : Task.t -> bool)
    (random random' : nat) (message : string) (tasks : list Task.t) :
  on_overdue_branch (toLowerCase message) = true ->
  let answer := database.askAssistant overdue random message tasks in
  answer = database.askAssistant overdue random' message (List.filter pending tasks)
  /\ ((forall t : Task.t, In t tasks -> pending t = true -> overdue t = false) ->
      answer = nothing_overdue)
  /\ forall t : Task.t,
       In t tasks -> pending t = true -> overdue t = true ->
       includes (database.quoted_title t) answer = true.
Proof.
  intros Hb answer. unfold answer, database.askAssistant.
  unfold on_overdue_branch, on_priority_branch in Hb.
  apply andb_prop in Hb. destruct Hb as (Ho & Hp).
  apply negb_true_iff in Hp. rewrite Hp, Ho.
  rewrite filter_pending.
  set (late := fun t : Task.t =>
                 if negb (truthy (Task.dueDate t))
                    || database.is_str (Task.status t) "completed"
                 then false else overdue t).
  assert (Hlate : forall t, late t = pending t && overdue t).
  { intros t. unfold late, pending.
    destruct (truthy (Task.dueDate t));
      destruct (database.is_str (Task.status t) "completed"); reflexivity. }
  split; [reflexivity|]. split.
  - intros Hnone.
    assert (E : List.filter late tasks = []).
    { induction tasks as [|t tasks IH]; [reflexivity|]. cbn [List.filter].
      rewrite Hlate. destruct (pending t) eqn:Ep.
      - rewrite (Hnone t (or_introl eq_refl) Ep). cbn [andb].
        apply IH. intros t' Hin. apply Hnone. right. exact Hin.
      - cbn [andb]. apply IH. intros t' Hin. apply Hnone. right. exact Hin. }
    rewrite E. reflexivity.
  - intros t Hin Hpend Hov.
    assert (Hf : In t (List.filter late tasks)).
    { apply filter_In. split; [exact Hin|]. rewrite Hlate, Hpend, Hov. reflexivity. }
    destruct (List.filter late tasks) as [|u us] eqn:E; [contradiction Hf|].
    cbn [Nat.ltb Nat.leb length].
    apply includes_app_r, includes_app_r, includes_app_r, includes_app_l, includes_join.
    apply in_map. exact Hf.
Qed.

Lemma assistant_counts_pending_tasks_only_witness :
  let done := Task.mk (VStr "1") (VStr "Old") (VStr "") (VStr "2020-01-01") (VStr "high")
                      (VStr "completed") (VStr "") (VStr "") (VStr "7") in
  on_overdue_branch (toLowerCase "Am I late?") = true
  /\ database.askAssistant (fun _ => true) 3 "Am I late?" [done] = nothing_overdue.
Proof.
  intros done.
  assert (Hb : on_overdue_branch (toLowerCase "Am I late?") = true)
    by (vm_compute; reflexivity).
  split; [exact Hb|].
  destruct (assistant_counts_pending_tasks_only (fun _ => true) 3 3 "Am I late?" [done] Hb)
    as (_ & H & _).
  apply H. intros t [<- | []] Hp. vm_compute in Hp. discriminate Hp.
Defined.

(** X23. The assistant always has something to say: for every message,
    every list of tasks and every clock, with the random index below 5 as
    [Math.floor(Math.random() * 5)] is, the answer is not empty. A message
    that holds none of the seven keywords gets one of the five stock
    answers, whatever the tasks are. *)
Theorem assistant_always_answers (overdue : Task.t -> bool) (random : nat)
    (message : string) (tasks : list Task.t) :
  (random < 5)%nat ->
  database.askAssistant overdue random message tasks <> ""
  /\ (on_no_branch (toLowerCase message) = true ->
      In (database.askAssistant overdue random message tasks) database.responses
      /\ database.askAssistant overdue random message tasks
         = nth random database.responses "").
Proof.
  intros Hr. split.
  - unfold database.askAssistant, database.progress_report.
    repeat match goal with
           | |- context [if ?b then _ else _] => destruct b
           end;
    rewrite ?append_cons; try discriminate.
    do 5 (destruct random as [|random]; [discriminate|]). lia.
  - intros Hn. unfold on_no_branch in Hn. apply negb_true_iff in Hn.
    repeat (apply orb_false_elim in Hn; destruct Hn as (Hn & ?)).
    unfold database.askAssistant.
    repeat match goal with
           | H : includes _ _ = false |- _ => rewrite H; clear H
           end.
    cbn [orb]. split; [|reflexivity].
    do 5 (destruct random as [|random]; [cbn; tauto|]). lia.
Qed.

Lemma assistant_always_answers_witness :
  on_no_branch (toLowerCase "Hello there") = true
  /\ database.askAssistant (fun _ => false) 4 "Hello there" []
     = "Review your completed tasks regularly. It's a great way to see your progress and stay motivated!".
Proof.
  destruct (assistant_always_answers (fun _ => false) 4 "Hello there" []
              ltac:(lia)) as (_ & H).
  split; [vm_compute; reflexivity|].
  destruct (H ltac:(vm_compute; reflexivity)) as (_ & ->). reflexivity.
Defined.

(** ** Deleting, and the path of a request *)

Lemma finish_204 (c : Client) (b : bool) (r : Http.Response) (w : World) :
  is_client c -> Http.status r = 204 -> finish c b r w = (Returned VUndefined, w).
Proof.
  intros (base & [-> | ->]) H; cbn [finish frontend do_smart_ai];
    [unfold djangoApi.conclude | unfold database.conclude]; rewrite H; reflexivity.
Qed.

Lemma run_deletes (c : Client) (path url : string) :
  is_client c ->
  (forall options h,
     sends c path options h
     = Http.mkRequest url (Http.method options) h (Http.body options)) ->
  deletes (run c path (Http.mkOptions None None (Some "DELETE") None) ≫= fun _ => mret tt)
          url.
Proof.
  intros Hc Hsends w r net Hn H204. pose proof (client_has_laws c Hc) as laws.
  set (options := Http.mkOptions None None (Some "DELETE") None).
  destruct (talk_single c laws path options w r net Hn) as (w0 & Hw0 & Ht).
  { left. rewrite H204. discriminate. }
  exists (opening c path options w), (fetched (opening c path options w) w0).
  split.
  { rewrite bind_run, (law_split c laws), bind_run, Ht.
    rewrite (finish_204 c _ r _ Hc H204). reflexivity. }
  assert (Hq : Http.req_method (opening c path options w) = Some "DELETE"
               /\ Http.url (opening c path options w) = url
               /\ Http.req_body (opening c path options w) = None)
    by (unfold opening; rewrite Hsends; repeat split).
  destruct Hq as (Hq1 & Hq2 & Hq3).
  split; [destruct Hw0 as [-> | ->]; reflexivity|].
  split; [exact Hq1|]. split; [exact Hq2|]. split; [exact Hq3|].
  destruct Hw0 as [-> | ->]; split; reflexivity.
Qed.

Lemma slash_path (rest : string) (c : ascii) :
  startsWith "/" (String "/" (String c rest)) = true.
Proof. reflexivity. Qed.

(** X24. The four calls that delete, [deleteTask] and [deleteHistory] of the
    frontend, [deleteTask] of do-smart-ai and [historyApi.delete]: met by a
    204 they return nothing, after a single DELETE without a body to the
    path of the item, /tasks/id/, /ai/history/id/ or /ai-history/id/ under
    the base URL, and they leave the slot and the listeners alone. *)
Theorem delete_calls (base id : string) :
  deletes (djangoApi.deleteTask base id) (base +:+ "/tasks/" +:+ id +:+ "/")
  /\ deletes (djangoApi.deleteHistory base id) (base +:+ "/ai/history/" +:+ id +:+ "/")
  /\ deletes (database.deleteTask base id) (base +:+ "/tasks/" +:+ id +:+ "/")
  /\ deletes (historyApi.delete base id) (base +:+ "/ai-history/" +:+ id +:+ "/").
Proof.
  assert (HF : is_client (frontend base)) by (exists base; left; reflexivity).
  assert (HD : is_client (do_smart_ai base)) by (exists base; right; reflexivity).
  split; [|split; [|split]].
  - apply (run_deletes (frontend base) ("/tasks/" +:+ id +:+ "/") _ HF).
    intros options h. cbn [sends frontend]. unfold djangoApi.original.
    rewrite append_cons, append_cons, slash_path. reflexivity.
  - apply (run_deletes (frontend base) ("/ai/history/" +:+ id +:+ "/") _ HF).
    intros options h. cbn [sends frontend]. unfold djangoApi.original.
    rewrite append_cons, append_cons, slash_path. reflexivity.
  - apply (run_deletes (do_smart_ai base) ("/tasks/" +:+ id +:+ "/") _ HD).
    intros options h. reflexivity.
  - apply (run_deletes (do_smart_ai base) ("/ai-history/" +:+ id +:+ "/") _ HD).
    intros options h. reflexivity.
Qed.

Lemma delete_calls_witness :
  let gone := Http.mkResponse 204 None None "" in
  let w := logged_in [Http.Responds gone] in
  exists w1, djangoApi.deleteTask example_base "3" w = (Returned tt, w1)
             /\ List.map Http.url (sent w1) = ["http://localhost:8000/api/tasks/3/"].
Proof.
  intros gone w.
  destruct (proj1 (delete_calls example_base "3") w gone [] eq_refl eq_refl)
    as (q & w1 & Hr & Hs & _ & Hu & _).
  exists w1. split; [exact Hr|]. rewrite Hs, List.map_app. cbn [List.map].
  rewrite Hu. reflexivity.
Defined.

(** X25. [request] of the frontend asks for the same URL whether the path
    is given with its leading slash or without: the path it asks for
    always starts with a slash, a path that lacks it is given one, and the
    two calls do the same. [apiRequest] of do-smart-ai appends the path as
    it is given. *)
Theorem request_normalizes_the_path (base path : string)
    (options : Http.RequestOptions) (w : World) :
  startsWith "/" (normalized path) = true
  /\ Http.url (opening (frontend base) path options w) = base +:+ normalized path
  /\ Http.url (opening (do_smart_ai base) path options w) = base +:+ path
  /\ (startsWith "/" path = false ->
      djangoApi.request base path options w
      = djangoApi.request base ("/" +:+ path) options w).
Proof.
  assert (Hs : startsWith "/" ("/" +:+ path) = true).
  { rewrite append_cons, append_nil. unfold startsWith. cbn [String.prefix].
    destruct (ascii_dec "/" "/") as [_ | H]; [|contradiction H; reflexivity].
    destruct path; reflexivity. }
  split; [|split; [reflexivity|split; [reflexivity|]]].
  - unfold normalized. destruct (startsWith "/" path) eqn:E; [exact E | exact Hs].
  - intros H. unfold djangoApi.request. rewrite Hs, H. reflexivity.
Qed.

Lemma request_normalizes_the_path_witness :
  let w := logged_in [Http.Responds no_tasks] in
  startsWith "/" "tasks/" = false
  /\ djangoApi.request example_base "tasks/" Http.no_options w
     = djangoApi.request example_base "/tasks/" Http.no_options w.
Proof.
  intros w. split; [reflexivity|].
  destruct (request_normalizes_the_path example_base "tasks/" Http.no_options w)
    as (_ & _ & _ & H).
  exact (H eq_refl).
Defined.

(** ** Creating and updating a task in the frontend *)

Lemma returns_task_of_run (base path : string) (options : Http.RequestOptions)
    (w : World) (r : Http.Response) (net : list Http.FetchResult)
    (fields : list (string * JsVal)) :
  network w = Http.Responds r :: net ->
  json_reply r (VObj fields) ->
  returns_task_of (data ← djangoApi.request base path options; djangoApi.normalizeTask data)
                  w fields.
Proof.
  intros Hn Hr.
  assert (Hc : is_client (frontend base)) by (exists base; left; reflexivity).
  destruct (run_json (frontend base) path options w r net _ Hc Hn Hr) as (w0 & Hw0 & Hrun).
  cbn [run frontend] in Hrun.
  destruct (frontend_task fields (fetched (opening (frontend base) path options w) w0))
    as (t & Ht & Hd & Hdef & Hu).
  exists t, (fetched (opening (frontend base) path options w) w0).
  split; [rewrite bind_run, Hrun; exact Ht|].
  split; [exact Hd|]. split; [exact Hdef|]. split; [exact Hu|].
  destruct Hw0 as [-> | ->]; split; reflexivity.
Qed.

(** X26. [createTask] and [updateTask] of the frontend send their argument
    as it is, as JSON, with a POST to /tasks/ and a PATCH to /tasks/id/.
    Met by a successful JSON reply that is an object, they return the task
    it normalises to: no field of it is [undefined], the defaults (empty
    description, medium priority, status todo, no due date, empty user id)
    stand for what the reply lacks, and the session is left alone. *)
Theorem frontend_task_calls (base id : string) (payload fields : list (string * JsVal))
    (w : World) (r : Http.Response) (net : list Http.FetchResult) :
  network w = Http.Responds r :: net ->
  json_reply r (VObj fields) ->
  returns_task_of (djangoApi.createTask base payload) w fields
  /\ returns_task_of (djangoApi.updateTask base id payload) w fields
  /\ first_sends (djangoApi.createTask base payload) w "POST" (base +:+ "/tasks/")
                 (stringify_object payload)
  /\ first_sends (djangoApi.updateTask base id payload) w "PATCH"
                 (base +:+ "/tasks/" +:+ id +:+ "/") (stringify_object payload).
Proof.
  intros Hn Hr.
  assert (Hpure : forall (a : JsVal) (w' : World), snd (djangoApi.normalizeTask a w') = w')
    by (intros a w'; apply reading_world).
  split; [|split; [|split]].
  - unfold djangoApi.createTask. apply (returns_task_of_run base _ _ w r net fields Hn Hr).
  - unfold djangoApi.updateTask. apply (returns_task_of_run base _ _ w r net fields Hn Hr).
  - unfold djangoApi.createTask. apply first_sends_bind; [exact Hpure|].
    apply (run_first_sends (frontend base) base "/tasks/" "POST" _ w (frontend_laws base)).
    intros options h. reflexivity.
  - unfold djangoApi.updateTask. apply first_sends_bind; [exact Hpure|].
    apply (run_first_sends (frontend base) base ("/tasks/" +:+ id +:+ "/") "PATCH" _ w
             (frontend_laws base)).
    intros options h. cbn [sends frontend]. unfold djangoApi.original.
    rewrite append_cons, append_cons, slash_path. reflexivity.
Qed.

Lemma frontend_task_calls_witness :
  let fields := [("id", VNum 12); ("title", VStr "Plan")] in
  let reply := json_response 201 (VObj fields) in
  let w := logged_in [Http.Responds reply] in
  json_reply reply (VObj fields)
  /\ returns_task_of (djangoApi.createTask example_base [("title", VStr "Plan")]) w fields.
Proof.
  intros fields reply w.
  assert (Hr : json_reply reply (VObj fields)).
  { split; [reflexivity|]. split; [cbn; lia|]. split; reflexivity. }
  split; [exact Hr|].
  exact (proj1 (frontend_task_calls example_base "12" [("title", VStr "Plan")]
                  fields w reply [] eq_refl Hr)).
Defined.


(** ** The claims *)

(** C1. In both clients a call that requires auth, finds a stored session
    whose refresh token is present and meets a 401 runs the token refresh
    exactly once. When the refresh yields a new access token the call sends
    the original request once more, with [Authorization] set to the new
    token, and ends as that second exchange ends; when it yields none the
    call sends nothing more and raises the typed error of the 401 it met.
    The original request is sent at most twice. *)
Theorem request_refreshes_once (base : string) :
  refreshes_once (frontend base) /\ refreshes_once (do_smart_ai base).
Proof.
  split; apply refreshes_once_of_laws; [apply frontend_laws | apply do_smart_ai_laws].
Qed.

Lemma request_refreshes_once_witness :
  let c := frontend example_base in
  let w := logged_in [Http.Responds expired; Http.Responds refreshed; Http.Responds no_tasks] in
  let c' := do_smart_ai example_base in
  let w' := logged_in [Http.Responds expired; Http.Fails; Http.Responds no_tasks] in
  skips_auth Http.no_options = false
  /\ stored w = Some example_state
  /\ stored w' = Some example_state
  /\ truthy (refresh_token example_state) = true
  /\ Http.status expired = 401
  /\ sent (snd (run c "tasks/" Http.no_options w))
     = [first_request c "tasks/" Http.no_options example_state;
        refresh_call c (VStr "R1");
        second_request c "tasks/" Http.no_options example_state (VStr "A2")]
  /\ sent (snd (run c' "/tasks/" Http.no_options w'))
     = [first_request c' "/tasks/" Http.no_options example_state;
        refresh_call c' (VStr "R1")]
  /\ exists (message : string) (w3 : World),
       run c' "/tasks/" Http.no_options w'
       = (Thrown (ApiError message 401 (VObj [("detail", VStr "Token expired")])), w3).
Proof.
  intros c w c' w'.
  assert (Hs : stored w = Some example_state) by (vm_compute; reflexivity).
  assert (Hs' : stored w' = Some example_state) by (vm_compute; reflexivity).
  split; [reflexivity|]. split; [exact Hs|]. split; [exact Hs'|].
  split; [reflexivity|]. split; [reflexivity|].
  split.
  - destruct (proj1 (request_refreshes_once example_base) "tasks/" Http.no_options w
                example_state expired [Http.Responds refreshed; Http.Responds no_tasks]
                eq_refl Hs eq_refl eq_refl eq_refl) as (v & w2 & Hr & _ & Hif).
    assert (Hv : v = VStr "A2").
    { vm_compute in Hr. now injection Hr as <- _. }
    subst v. cbn [truthy String.eqb negb] in Hif.
    exact (proj1 (proj2 Hif)).
  - destruct (proj2 (request_refreshes_once example_base) "/tasks/" Http.no_options w'
                example_state expired [Http.Fails; Http.Responds no_tasks]
                eq_refl Hs' eq_refl eq_refl eq_refl) as (v & w2 & Hr & _ & Hif).
    assert (Hv : v = VNull).
    { vm_compute in Hr. now injection Hr as <- _. }
    subst v. cbv beta iota delta [truthy] in Hif.
    destruct Hif as (_ & Hsent & Herr). split; [exact Hsent|].
    apply Herr. apply read_A_json_or_text.
Defined.

(** C2, as the claim states it, fails for [apiRequest] of do-smart-ai: with
    a stored session, a 401, a successful refresh and a second 401, the
    claim has the session cleared when the typed error is raised;
    [apiRequest] raises the error and leaves the refreshed session stored. *)
Lemma typed_error_claim_fails_for_apiRequest :
  ~ raises_typed_error claimed_message true (do_smart_ai example_base).
Proof.
  intros H.
  set (w := logged_in [Http.Responds expired; Http.Responds refreshed; Http.Responds expired]).
  set (w1 := snd (talk (do_smart_ai example_base) "/tasks/" Http.no_options w)).
  assert (Htalk : talk (do_smart_ai example_base) "/tasks/" Http.no_options w
                  = (Returned expired, w1)) by (vm_compute; reflexivity).
  specialize (H "/tasks/" Http.no_options w w1 expired
                (VObj [("detail", VStr "Token expired")]) Htalk).
  assert (Hrun : stored (snd (run (do_smart_ai example_base) "/tasks/" Http.no_options w))
                 = None).
  { rewrite H; [apply stored_cleared | discriminate | reflexivity | reflexivity]. }
  vm_compute in Hrun. discriminate Hrun.
Qed.

(** C2 (amended). A call that ends with a response that is neither a 204
    nor a success reads the body of the response (as C5 says) and raises
    the typed error with that status and the body read as [data]. In
    [request] of the frontend the message is the [detail] of the body if
    that is a string, else its [message] if that is a string, else
    [Request failed with status N], and the session is cleared first when
    the status is 401 and the call requires auth. In [apiRequest] of
    do-smart-ai the message is [detail] if it is neither [null] nor
    [undefined], else [message] under the same condition, else the same
    fallback, turned into a string, and the session is left as it is. When
    the response declares JSON and its body is not JSON, reading the body
    throws: the call throws that syntax error in place of the typed error,
    and neither client clears the session, on a 401 either. *)
Theorem typed_error_of_final_response (base : string) :
  ends_in_error claimed_message true (frontend base)
  /\ ends_in_error unchecked_message false (do_smart_ai base).
Proof.
  split; intros path options w w1 r Htalk H204 Hok.
  - cbn [read frontend]. rewrite read_R_claimed.
    pose proof (frontend_reads_body base path options w w1 r Htalk) as Hbody.
    apply Z.eqb_neq in H204. rewrite H204 in Hbody. apply Z.eqb_neq in H204.
    destruct (claimed_body r) as [data | e] eqn:E.
    + split; [reflexivity|].
      apply (frontend_raises_typed_error base path options w w1 r data Htalk H204 Hok).
      cbn [read frontend]. rewrite read_R_claimed, E. reflexivity.
    + unfold claimed_body in E.
      destruct (Http.content_type r) as [ct|] eqn:Ect; [|discriminate E].
      change (default "" (Some ct)) with ct.
      destruct (includes "application/json" ct) eqn:Ei.
      * destruct (Http.json r) as [v|] eqn:Ej; [discriminate E|].
        injection E as <-. repeat split. exact Hbody.
      * destruct (negb (String.eqb ct "")); discriminate E.
  - cbn [read do_smart_ai]. rewrite read_A_json_or_text.
    pose proof (do_smart_ai_reads_body base path options w w1 r Htalk) as Hbody.
    apply Z.eqb_neq in H204. rewrite H204 in Hbody. apply Z.eqb_neq in H204.
    destruct (json_or_text r) as [data | e] eqn:E.
    + split; [reflexivity|].
      apply (do_smart_ai_raises_error base path options w w1 r data Htalk H204 Hok).
      cbn [read do_smart_ai]. rewrite read_A_json_or_text, E. reflexivity.
    + unfold json_or_text in E.
      destruct (includes "application/json" (default "" (Http.content_type r))) eqn:Ei;
        [|discriminate E].
      destruct (Http.json r) as [v|] eqn:Ej; [discriminate E|].
      injection E as <-. repeat split. exact Hbody.
Qed.

Lemma typed_error_of_final_response_witness :
  let c := frontend example_base in
  let w := logged_in [Http.Responds expired; Http.Responds refreshed; Http.Responds expired] in
  let w1 := snd (talk c "/tasks/" Http.no_options w) in
  let data := VObj [("detail", VStr "Token expired")] in
  let garbled := Http.mkResponse 401 (Some "application/json") None "<html>" in
  let v := mkWorld true ∅ [] [] [Http.Responds garbled] [] [] in
  let v1 := snd (talk c "/tasks/" Http.no_options v) in
  (talk c "/tasks/" Http.no_options w = (Returned expired, w1)
   /\ Http.status expired <> 204
   /\ Http.ok expired = false
   /\ list_tasks c w = (Thrown (ApiError "Token expired" 401 data), cleared w1))
  /\ (talk c "/tasks/" Http.no_options v = (Returned garbled, v1)
      /\ Http.status garbled <> 204
      /\ Http.ok garbled = false
      /\ list_tasks c v = (Thrown SyntaxError, v1)).
Proof.
  intros c w w1 data garbled v v1.
  assert (Htalk : talk c "/tasks/" Http.no_options w = (Returned expired, w1))
    by (vm_compute; reflexivity).
  assert (Htalk' : talk c "/tasks/" Http.no_options v = (Returned garbled, v1))
    by (vm_compute; reflexivity).
  assert (H204 : Http.status expired <> 204) by discriminate.
  assert (H204' : Http.status garbled <> 204) by discriminate.
  pose proof (proj1 (typed_error_of_final_response example_base)
                "/tasks/" Http.no_options w w1 expired Htalk H204 eq_refl) as H.
  pose proof (proj1 (typed_error_of_final_response example_base)
                "/tasks/" Http.no_options v v1 garbled Htalk' H204' eq_refl) as H'.
  split.
  - split; [exact Htalk|]. split; [exact H204|]. split; [reflexivity|].
    cbn [read c frontend] in H. rewrite read_R_claimed in H.
    change (claimed_body expired) with (Returned (A := JsVal) data) in H.
    cbv beta iota in H. exact (proj2 H).
  - split; [exact Htalk'|]. split; [exact H204'|]. split; [reflexivity|].
    cbn [read c frontend] in H'. rewrite read_R_claimed in H'.
    change (claimed_body garbled) with (Thrown (A := JsVal) SyntaxError) in H'.
    cbv beta iota in H'. exact (proj2 (proj2 (proj2 (proj2 H')))).
Defined.

(** C3. In both clients [refreshAccessToken], run on a stored session of
    strings whose refresh token is present: on a successful response that
    carries a new access token it returns that token and leaves stored a
    session with the new access token and the refresh token and user that
    were stored before; on a response that is not a success, and on any
    exception thrown in its [try] block (by [fetch], by [response.json()],
    by reading the body), it clears the session, calling every listener
    with [null], and returns [null]. *)
Theorem refreshAccessToken_contract (base : string) :
  refresh_contract (frontend base) /\ refresh_contract (do_smart_ai base).
Proof.
  split; apply refresh_contract_of_laws; [apply frontend_laws | apply do_smart_ai_laws].
Qed.

Lemma refreshAccessToken_contract_witness :
  let w := logged_in [Http.Responds refreshed] in
  let offline := logged_in [Http.Fails] in
  stored w = Some example_state
  /\ "R1" <> ""
  /\ Http.ok refreshed = true
  /\ prop (VObj [("access", VStr "A2")]) "access" = VStr "A2"
  /\ (exists w',
        djangoApi.refreshAccessToken example_base w = (Returned (VStr "A2"), w')
        /\ stored w' = Some (typed_state "A2" "R1" (typed_user "7" "a@b.com" "Ann")))
  /\ fst (djangoApi.refresh_attempt example_base example_state offline) = Thrown FetchError
  /\ (exists w',
        database.refreshAccessToken example_base offline = (Returned VNull, w')
        /\ stored w' = None).
Proof.
  intros w offline.
  assert (Hs : stored w = Some example_state) by (vm_compute; reflexivity).
  assert (Hne : "R1" <> "") by discriminate.
  split; [exact Hs|]. split; [exact Hne|].
  split; [reflexivity|]. split; [reflexivity|].
  split.
  - exact (proj1 (proj1 (refreshAccessToken_contract example_base)
                    w "A1" "R1" "7" "a@b.com" "Ann" Hs Hne)
             refreshed [] (VObj [("access", VStr "A2")]) "A2"
             eq_refl eq_refl eq_refl eq_refl).
  - split; [vm_compute; reflexivity|].
    assert (Hoff : stored offline = Some example_state) by (vm_compute; reflexivity).
    destruct (proj2 (proj2 (proj2 (refreshAccessToken_contract example_base)
                              offline "A1" "R1" "7" "a@b.com" "Ann" Hoff Hne))
                FetchError
                (snd (database.refresh_attempt example_base example_state offline)))
      as (w' & Hr & Hst & _); [vm_compute; reflexivity|].
    exists w'. split; assumption.
Defined.

(** C4, as the claim states it, fails for [normalizeTask] of do-smart-ai:
    a payload without [title] is given a task whose [title] is
    [undefined]. *)
Lemma task_claim_fails : ~ claimed_task (database.normalizeTask).
Proof.
  intros H.
  destruct (H [("id", VNum 1)] example_world) as (t & Ht & Hdef & _).
  injection Ht as <-. destruct Hdef as (_ & Htitle & _). now apply Htitle.
Qed.

(** C4 (amended). For every payload object both functions return a task
    whose [id] is [String(payload.id)] and in which [description],
    [priority], [status], [dueDate] and [userId] are never [undefined]
    and take the defaults (empty string, [medium], [todo], [null], empty
    string) when absent. [normalizeTask] of the frontend leaves no field
    [undefined] and turns a numeric or string [userId] into its string.
    [normalizeTask] of do-smart-ai copies [title], [createdAt] and
    [updatedAt] as they come ([undefined] when absent) and turns a truthy
    [userId] (a number other than 0, a non-empty string) into its
    string. *)
Theorem normalizeTask_defaults :
  claimed_task djangoApi.normalizeTask /\ loose_task database.normalizeTask.
Proof. split; [apply frontend_task | apply do_smart_ai_task]. Qed.

Lemma normalizeTask_defaults_witness :
  exists t : Task.t,
    djangoApi.normalizeTask (VObj [("id", VNum 5); ("title", VStr "Write report")])
      example_world = (Returned t, example_world)
    /\ Task.id t = VStr "5"
    /\ Task.description t = VStr ""
    /\ Task.userId t = VStr "".
Proof.
  destruct (proj1 normalizeTask_defaults
              [("id", VNum 5); ("title", VStr "Write report")] example_world)
    as (t & Ht & _ & (Hdesc & _ & _ & _ & Huser & Hid) & _).
  exists t. split; [exact Ht|]. split; [exact Hid|].
  split; [apply Hdesc | apply Huser]; reflexivity.
Defined.

(** C5, as the claim states it, fails for [apiRequest] of do-smart-ai: a
    success that declares no content type yields its text, not [null]. *)
Lemma body_claim_fails_for_apiRequest :
  ~ reads_body_as claimed_body (do_smart_ai example_base).
Proof.
  intros H.
  set (w := logged_in [Http.Responds pong]).
  set (w1 := snd (talk (do_smart_ai example_base) "/tasks/" Http.no_options w)).
  assert (Htalk : talk (do_smart_ai example_base) "/tasks/" Http.no_options w
                  = (Returned pong, w1)) by (vm_compute; reflexivity).
  specialize (H "/tasks/" Http.no_options w w1 pong Htalk).
  cbn [pong Http.status Z.eqb Pos.eqb claimed_body Http.content_type Http.ok
       Z.leb Z.compare Pos.compare Pos.compare_cont andb] in H.
  apply (f_equal fst) in H. vm_compute in H. discriminate H.
Qed.

(** C5 (amended). A call that ends with a 204 returns [undefined] whatever
    the content type. A call that ends with another response has its body
    read by content type, returns it on a success and raises the typed error
    that carries it otherwise. [request] of the frontend reads JSON when the
    content type contains [application/json], the text when the content type
    is another non-empty one, and [null] when there is none. [apiRequest] of
    do-smart-ai reads JSON under the same condition and the text in every
    other case, also when there is no content type. *)
Theorem body_by_content_type (base : string) :
  reads_body_as claimed_body (frontend base)
  /\ reads_body_as json_or_text (do_smart_ai base).
Proof.
  split; [apply frontend_reads_body | apply do_smart_ai_reads_body].
Qed.

Lemma body_by_content_type_witness :
  let c := frontend example_base in
  let w := logged_in [Http.Responds pong] in
  let w1 := snd (talk c "/tasks/" Http.no_options w) in
  talk c "/tasks/" Http.no_options w = (Returned pong, w1)
  /\ list_tasks c w = (Returned VNull, w1).
Proof.
  intros c w w1.
  assert (Htalk : talk c "/tasks/" Http.no_options w = (Returned pong, w1))
    by (vm_compute; reflexivity).
  split; [exact Htalk|].
  exact (proj1 (body_by_content_type example_base)
           "/tasks/" Http.no_options w w1 pong Htalk).
Defined.

(** C6, as the claim states it, fails for [apiRequest] of do-smart-ai: a
    call without headers and without method sends no [Accept] header (and
    sends [Content-Type] although the method takes no body). *)
Lemma headers_claim_fails_for_apiRequest :
  ~ sends_headers claimed_headers (do_smart_ai example_base).
Proof.
  intros H.
  destruct (H "/tasks/" Http.no_options (logged_in [Http.Responds no_tasks]))
    as (q & more & Hsent & Haccept & _).
  vm_compute in Hsent. injection Hsent as <- _.
  vm_compute in Haccept. discriminate Haccept.
Qed.

(** C6 (amended). The request a call sends first carries the caller's
    [Accept] and [Content-Type] when the caller supplied them. [request] of
    the frontend sets [Accept: application/json] when the caller supplied
    none, and sets [Content-Type: application/json] exactly when the caller
    supplied none, the body is not a [FormData] and a method other than
    [GET] is given. [apiRequest] of do-smart-ai sets no [Accept], and sets
    [Content-Type: application/json] exactly when the caller supplied none
    and the body is not a [FormData], whatever the method. *)
Theorem headers_sent (base : string) :
  sends_headers claimed_headers (frontend base)
  /\ sends_headers content_type_only (do_smart_ai base).
Proof.
  split; [apply frontend_sends_headers | apply do_smart_ai_sends_headers].
Qed.
(** C7. In a browser context the store reads [null] from an empty slot;
    after [setState(s)] for a session [s] of strings, [getState()] reads [s]
    back from the slot; [clear()] returns having removed the slot, so that
    [getState()] reads [null], and having called every subscribed listener
    with [null]; a second [clear()] leaves the slot and the listeners as they
    are (it notifies the listeners again). *)
Theorem authStore_roundtrip_and_clear (w : World) :
  isBrowser w = true ->
  (localStorage w !! authStore.STORAGE_KEY = None ->
   authStore.getState w = (Returned None, w))
  /\ (forall a r i e n : string,
        let s := typed_state a r (typed_user i e n) in
        exists w1, authStore.setState s w = (Returned tt, w1)
                   /\ authStore.getState w1 = (Returned (Some s), w1))
  /\ (exists w2, authStore.clear w = (Returned tt, w2)
                 /\ authStore.getState w2 = (Returned None, w2)
                 /\ calls w2 = (calls w ++ List.map (fun l => (l, None)) (listeners w))%list
                 /\ authStore.clear w2 = (Returned tt, notified None w2)).
Proof.
  intros Hb. repeat split.
  - intros Hslot. apply readStorage_none. now right.
  - intros a r i e n s. eexists. split; [apply setState_run|].
    apply readStorage_stored. rewrite stored_notified. now apply stored_persisted.
  - eexists. split; [apply clear_run|]. repeat split.
    + apply readStorage_none. right. unfold erased. rewrite Hb.
      cbn [notified localStorage]. apply lookup_delete_eq.
    + unfold erased. now rewrite Hb.
    + rewrite clear_run. f_equal. f_equal. apply erased_twice.
Qed.

Lemma authStore_roundtrip_and_clear_witness :
  isBrowser example_world = true
  /\ fst (authStore.getState (snd (authStore.setState example_state example_world)))
     = Returned (Some example_state).
Proof.
  split; [reflexivity|].
  destruct (authStore_roundtrip_and_clear example_world eq_refl) as (_ & Hset & _).
  destruct (Hset "A1" "R1" "7" "a@b.com" "Ann") as (w1 & E1 & E2).
  fold example_state in E1, E2. rewrite E1. cbn [snd]. rewrite E2. reflexivity.
Defined.

(** C8. [login] of the frontend, met by a successful JSON reply
    {access, refresh, user: {id, email}} with a numeric id and no name,
    returns the session (access, refresh, user {String(id), email, email})
    and has persisted it: [getSession()] on the world it leaves returns
    that session. *)
Theorem login_persists_session (base email password : string) (w : World)
    (r : Http.Response) (net : list Http.FetchResult)
    (access refresh_tok user_email : string) (uid : Z) :
  isBrowser w = true ->
  network w = Http.Responds r :: net ->
  Http.ok r = true ->
  Http.status r <> 204 ->
  includes "application/json" (default "" (Http.content_type r)) = true ->
  Http.json r = Some (login_reply access refresh_tok uid user_email) ->
  exists w',
    djangoApi.login base email password w
    = (Returned (logged_session access refresh_tok uid user_email), w')
    /\ djangoApi.getSession w'
       = (Returned (Some (logged_session access refresh_tok uid user_email)), w').
Proof.
  intros Hb Hn Hok H204 Hct Hj.
  set (options := Http.mkOptions (Some true) None (Some "POST")
                    (Some (Http.BodyText
                             (stringify_object [("email", VStr email);
                                                ("password", VStr password)])))).
  destruct (getState_world w) as (w0 & Hg & Hw0).
  assert (Hb0 : isBrowser w0 = true) by (destruct Hw0 as [-> | ->]; exact Hb).
  assert (Hn0 : network w0 = Http.Responds r :: net) by (destruct Hw0 as [-> | ->]; exact Hn).
  set (q := djangoApi.original base "/auth/login/" options
              (djangoApi.first_headers options (stored w))).
  set (st := typed_state access refresh_tok (typed_user (Z_to_string uid) user_email user_email)).
  assert (Hreq : djangoApi.request base "/auth/login/" options w
                 = (Returned (login_reply access refresh_tok uid user_email), fetched q w0)).
  { rewrite request_split, bind_run. unfold djangoApi.exchange.
    rewrite bind_run, Hg, bind_run. fold q.
    rewrite (fetch_responds q w0 r net Hn0).
    change (default false (Http.skipAuth options)) with true. cbn [negb].
    rewrite andb_false_r. cbn [andb]. rewrite ret_run.
    unfold djangoApi.conclude. apply Z.eqb_neq in H204. rewrite H204, bind_run.
    unfold djangoApi.read_body. rewrite Hct. unfold response_json. rewrite Hj, ret_run.
    rewrite Hok. reflexivity. }
  exists (notified (Some st) (persisted st (fetched q w0))). split.
  - unfold djangoApi.login. fold options. rewrite bind_run, Hreq, bind_run.
    unfold member, login_reply. cbn [is_nullish]. rewrite ret_run, bind_run.
    unfold djangoApi.normalizeUser, reading. cbn [prop get_prop String.eqb Ascii.eqb Bool.eqb is_nullish].
    rewrite ret_run, bind_run.
    cbn [coalesce is_nullish to_String].
    fold (typed_user (Z_to_string uid) user_email user_email).
    rewrite setState_run. reflexivity.
  - unfold djangoApi.getSession. rewrite bind_run.
    assert (Hs : stored (notified (Some st) (persisted st (fetched q w0))) = Some st).
    { rewrite stored_notified. apply stored_persisted. exact Hb0. }
    rewrite (getState_stored _ _ Hs). reflexivity.
Qed.

Lemma login_persists_session_witness :
  let r := json_response 200 (login_reply "A1" "R1" 7 "a@b.com") in
  let w := mkWorld true ∅ [] [] [Http.Responds r] [] [] in
  isBrowser w = true
  /\ Http.ok r = true
  /\ Http.status r <> 204
  /\ exists w',
       djangoApi.login example_base "a@b.com" "pw" w
       = (Returned (AuthSession.mk (VStr "A1") (VStr "R1")
                      (User.mk (VStr "7") (VStr "a@b.com") (VStr "a@b.com"))), w')
       /\ djangoApi.getSession w'
          = (Returned (Some (AuthSession.mk (VStr "A1") (VStr "R1")
                               (User.mk (VStr "7") (VStr "a@b.com") (VStr "a@b.com")))), w').
Proof.
  intros r w.
  assert (H204 : Http.status r <> 204) by discriminate.
  split; [reflexivity|]. split; [reflexivity|]. split; [exact H204|].
  exact (login_persists_session example_base "a@b.com" "pw" w r [] "A1" "R1" "a@b.com" 7
           eq_refl eq_refl eq_refl H204 eq_refl eq_refl).
Defined.

(** C9. In both clients [getCurrentUser] follows its request to
    [/auth/me/]: when the request throws the typed error with status 401 it
    clears the session and returns [null]; when the request throws anything
    else it throws the same and leaves the world as the request left it;
    when the request returns a reply it returns the normalized user and has
    called [updateUser] with it (reading a reply that is [null] or
    [undefined] throws a TypeError, re-thrown like any other failure). No
    typed error with status 401 leaves [getCurrentUser]. [updateUser] on a
    stored session writes back the same tokens with the new user, and
    does nothing when no session is stored. *)
Theorem getCurrentUser_contract (base : string) :
  current_user_contract (djangoApi.getCurrentUser base)
    (djangoApi.request base "/auth/me/" Http.no_options) frontend_user
  /\ current_user_contract (database.getCurrentUser base)
       (database.apiRequest base "/auth/me/" Http.no_options) do_smart_ai_user
  /\ (forall (user : User.t) (w : World) (st : StoredAuthState.t),
        stored w = Some st ->
        authStore.updateUser user w
        = (Returned tt,
           notified (Some (with_user st user)) (persisted (with_user st user) w)))
  /\ (forall (user : User.t) (w : World),
        stored w = None ->
        stored (snd (authStore.updateUser user w)) = None
        /\ calls (snd (authStore.updateUser user w)) = calls w).
Proof.
  split; [apply frontend_current_user|].
  split; [apply do_smart_ai_current_user|].
  split; [apply updateUser_stored | apply updateUser_absent].
Qed.

Lemma getCurrentUser_contract_witness :
  let w := logged_in [Http.Responds expired; Http.Fails] in
  let me := djangoApi.request example_base "/auth/me/" Http.no_options in
  stored w = Some example_state
  /\ fst (me w) = Thrown (ApiError "Token expired" 401 (VObj [("detail", VStr "Token expired")]))
  /\ djangoApi.getCurrentUser example_base w = (Returned None, cleared (snd (me w)))
  /\ stored (cleared (snd (me w))) = None.
Proof.
  intros w me.
  assert (Hme : fst (me w)
                = Thrown (ApiError "Token expired" 401 (VObj [("detail", VStr "Token expired")])))
    by (vm_compute; reflexivity).
  split; [vm_compute; reflexivity|]. split; [exact Hme|].
  split; [|apply stored_cleared].
  destruct (getCurrentUser_contract example_base) as (Hf & _).
  specialize (Hf w). destruct Hf as [H _].
  change (djangoApi.request example_base "/auth/me/" Http.no_options w) with (me w) in H.
  destruct (me w) as [o w1]. cbn [fst snd] in Hme |- *. subst o.
  cbv beta iota delta [is_unauthorized Z.eqb Pos.eqb] in H.
  exact H.
Defined.

(** C10, as the claim states it, fails: with 23 of 40 tasks completed the
    quotient 23/40 is the double just below 0.575, its product with 100 the
    double just below 57.5, and the report says 57%, where
    round(100 * 23 / 40) is 58. *)
Lemma progress_claim_fails : ~ claimed_progress.
Proof.
  intros H.
  specialize (H (fun _ => false) 0%nat "progress" (some_tasks 23 17) eq_refl).
  vm_compute in H. discriminate H.
Qed.

(** C10 (amended). For every task list and every message whose lower-case
    form contains [progress] or [status] and none of [priority], [first],
    [important], [overdue], [late], the assistant answers with the progress
    report, whatever the clock and the random generator are. The percentage
    of the report is 0 for an empty list (the division is not evaluated);
    for a non-empty one it is [Math.round] of the double-precision product
    [(completedCount / totalCount) * 100], which is
    round(100 * completedCount / totalCount) for every list of fewer than 40
    tasks (and is 57, not 58, for 23 of 40). *)
Theorem progress_report_of_assistant (overdue : Task.t -> bool) (random : nat)
    (message : string) (tasks : list Task.t) :
  on_progress_branch (toLowerCase message) = true ->
  let completedCount := completed tasks in
  let totalCount := length tasks in
  database.askAssistant overdue random message tasks
  = database.progress_report completedCount totalCount
      (database.percentage_of completedCount totalCount)
  /\ (tasks = [] -> database.percentage_of completedCount totalCount = 0)
  /\ (tasks <> [] ->
      database.percentage_of completedCount totalCount
      = Number.Math_round
          (Number.mul (Number.div (Number.of_nat completedCount)
                                  (Number.of_nat totalCount))
                      (Number.of_nat 100)))
  /\ ((totalCount < 40)%nat ->
      database.percentage_of completedCount totalCount
      = rounded_percentage completedCount totalCount).
Proof.
  intros Hb c t. split; [now apply progress_is_pure|]. split; [|split].
  - intros ->. reflexivity.
  - intros Hne. unfold database.percentage_of. subst t.
    destruct tasks as [|x tasks]; [contradiction|reflexivity].
  - intros Ht. apply percentage_rounded; [apply completed_le | exact Ht].
Qed.

Lemma progress_report_of_assistant_witness :
  on_progress_branch (toLowerCase "What is my Progress?") = true
  /\ database.askAssistant (fun _ => true) 3 "What is my Progress?" (some_tasks 1 1)
     = "You've completed 1 out of 2 tasks (50%). Good momentum!".
Proof.
  split; [reflexivity|].
  rewrite (proj1 (progress_report_of_assistant (fun _ => true) 3
                    "What is my Progress?" (some_tasks 1 1) eq_refl)).
  vm_compute. reflexivity.
Defined.
